(** * Chat-With-Your-Documents: the indexing and retrieval pipeline

    A shallow embedding of [Backend/RAG/chunking.py],
    [Backend/RAG/embed_store.py], [Backend/RAG/rag_answer.py] and the
    document lifecycle of [Backend/main.py], followed by the properties of
    the pipeline.

    Python [int]s are unbounded and are modelled by [Z]; [str] by [string]
    (a sequence of bytes, UTF-8); [dict]s used as maps by [gmap]; exceptions
    by a result type.  The tokenizer, the sentence encoder and the remote
    chat-completion services are external capabilities and appear as
    interfaces (type classes). *)

From Stdlib Require Import ZArith Lia List String Ascii QArith DecimalString.
From Stdlib Require Import Sorting.Sorted.
From stdpp Require Import base option list gmap strings.

Local Open Scope Z_scope.

(* ================================================================== *)
(** * Part I: the program *)
(* ================================================================== *)

(** ** Python sequence primitives *)

(** [len(l)] as a Python integer. *)
Definition len {A} (l : list A) : Z := Z.of_nat (length l).

(** Normalisation of one bound of a slice [l[start:stop]]: a negative bound
    counts from the end, and every bound is clipped to [0 .. len]. *)
Definition slice_bound (n i : Z) : Z :=
  if i <? 0 then Z.max (i + n) 0 else Z.min i n.

(** [l[start:stop]] with step 1. *)
Definition py_slice {A} (l : list A) (start stop : Z) : list A :=
  let lo := slice_bound (len l) start in
  let hi := slice_bound (len l) stop in
  take (Z.to_nat (hi - lo)) (drop (Z.to_nat lo) l).

(** ** chunking.py *)

(** [tiktoken.get_encoding("cl100k_base")]: tokens are integers. *)
Class Tokenizer := {
  encode : string -> list Z;
  decode : list Z -> string
}.

(** The [while start < len(tokens)] loop of [chunk_text].  The loop is not
    structurally recursive (for a non-positive stride it never leaves), so
    it is driven by [fuel]: [None] means the loop is still running when the
    fuel is spent.  [emit start end] is what one iteration appends. *)
Fixpoint chunk_loop {A} (emit : Z -> Z -> A) (fuel : nat)
    (ntokens max_chunk_size overlap_size start : Z) (chunks : list A)
    : option (list A) :=
  match fuel with
  | O => None
  | S fuel' =>
      if start <? ntokens then
        let end_ := Z.min (start + max_chunk_size) ntokens in
        chunk_loop emit fuel' ntokens max_chunk_size overlap_size
          (start + (max_chunk_size - overlap_size))
          (chunks ++ [emit start end_])
      else Some chunks
  end.

(** [chunk_text(text, max_chunk_size, overlap_size)]. *)
Definition chunk_text `{Tokenizer} (fuel : nat) (text : string)
    (max_chunk_size overlap_size : Z) : option (list string) :=
  let tokens := encode text in
  chunk_loop (fun start end_ => decode (py_slice tokens start end_))
    fuel (len tokens) max_chunk_size overlap_size 0 [].

(** The defaults of the signature. *)
Definition default_max_chunk_size : Z := 500.
Definition default_overlap_size : Z := 80.

(** The same loop, recording the bounds [(start, end)] of every window
    instead of the decoded text. *)
Definition chunk_spans (fuel : nat) (ntokens max_chunk_size overlap_size : Z)
    : option (list (Z * Z)) :=
  chunk_loop (fun start end_ => (start, end_))
    fuel ntokens max_chunk_size overlap_size 0 [].

(** Number of token positions two windows have in common. *)
Definition span_overlap (a b : Z * Z) : Z :=
  Z.max 0 (Z.min (snd a) (snd b) - Z.max (fst a) (fst b)).

(** Ceiling of a quotient, for a positive divisor. *)
Definition ceil_div (a b : Z) : Z := (a + b - 1) / b.

(** The chunk count as the specification words it (section 4.1). *)
Definition spec_chunk_count (n max_chunk_size overlap_size : Z) : Z :=
  if overlap_size <? n
  then ceil_div (n - overlap_size) (max_chunk_size - overlap_size)
  else 1.

(** A tokenizer for running the model on concrete inputs: one token per
    byte. *)
Definition byte_tokens (s : string) : list Z :=
  map (fun c => Z.of_nat (nat_of_ascii c)) (list_ascii_of_string s).
Definition byte_text (l : list Z) : string :=
  string_of_list_ascii (map (fun t => ascii_of_nat (Z.to_nat t)) l).
Definition byte_tokenizer : Tokenizer :=
  {| encode := byte_tokens; decode := byte_text |}.

(** Number of iterations the loop performs when entered at [start], for a
    positive stride. *)
Definition iterations (ntokens max_chunk_size overlap_size start : Z) : nat :=
  Z.to_nat (ceil_div (ntokens - start) (max_chunk_size - overlap_size)).

(** What the [k]-th iteration counted from [start] appends. *)
Definition window {A} (emit : Z -> Z -> A)
    (ntokens max_chunk_size overlap_size start : Z) (k : nat) : A :=
  let s := start + Z.of_nat k * (max_chunk_size - overlap_size) in
  emit s (Z.min (s + max_chunk_size) ntokens).

(** ** Python string primitives *)

(** Strings are byte strings holding UTF-8.  The primitives below act on
    the ASCII range, which is all the program's tests on strings depend on:
    no byte of a multi-byte UTF-8 sequence is an ASCII byte. *)

Definition nl : string := String (ascii_of_nat 10) EmptyString.

(** [not s] for a string. *)
Definition is_empty (s : string) : bool :=
  match s with EmptyString => true | String _ _ => false end.

Definition is_upper (c : ascii) : bool :=
  let n := nat_of_ascii c in (65 <=? n)%nat && (n <=? 90)%nat.

Definition lower_ascii (c : ascii) : ascii :=
  if is_upper c then ascii_of_nat (nat_of_ascii c + 32) else c.

(** [s.lower()]. *)
Fixpoint py_lower (s : string) : string :=
  match s with
  | EmptyString => EmptyString
  | String c s' => String (lower_ascii c) (py_lower s')
  end.

(** [needle in hay]. *)
Fixpoint py_contains (needle hay : string) : bool :=
  String.prefix needle hay
  || match hay with
     | EmptyString => false
     | String _ hay' => py_contains needle hay'
     end.

(** [s.endswith(suffix)]. *)
Definition py_endswith (s suffix : string) : bool :=
  String.prefix (String.rev suffix) (String.rev s).

(** [s.startswith(prefix)]. *)
Definition py_startswith (s prefix : string) : bool := String.prefix prefix s.

Definition is_space (c : ascii) : bool :=
  let n := nat_of_ascii c in
  (n =? 32)%nat || ((9 <=? n)%nat && (n <=? 13)%nat)
  || ((28 <=? n)%nat && (n <=? 31)%nat).

Fixpoint py_lstrip (s : string) : string :=
  match s with
  | EmptyString => EmptyString
  | String c s' => if is_space c then py_lstrip s' else s
  end.

(** [s.strip()]. *)
Definition py_strip (s : string) : string :=
  String.rev (py_lstrip (String.rev (py_lstrip s))).

(** [s.split()]: the maximal runs of non-blank characters.  [word] is the
    run being read. *)
Fixpoint split_from (word : string) (s : string) : list string :=
  match s with
  | EmptyString => if is_empty word then [] else [word]
  | String c s' =>
      if is_space c
      then (if is_empty word then split_from "" s'
            else word :: split_from "" s')
      else split_from (word +:+ String c "") s'
  end.
Definition py_split (s : string) : list string := split_from "" s.

(** [sep.join(l)]. *)
Definition py_join (sep : string) (l : list string) : string :=
  String.concat sep l.

(** [str(n)] for an integer. *)
Definition str_int (n : Z) : string := NilZero.string_of_int (Z.to_int n).

Definition index_error : string := "list index out of range".

(** ** Exceptions *)

Inductive exn :=
| ValueError (msg : string)
| IndexError (msg : string)
| AssertionError
| HTTPException (status_code : Z) (detail : string)
| Exception (msg : string).   (* any other exception, with its text *)

(** [str(e)]. *)
Definition str_exn (e : exn) : string :=
  match e with
  | ValueError msg | IndexError msg | Exception msg => msg
  | AssertionError => ""
  | HTTPException status_code detail => str_int status_code +:+ ": " +:+ detail
  end.

(** A call either returns or raises. *)
Inductive result (A : Type) :=
| Ok (value : A)
| Raise (e : exn).
Arguments Ok {A} value.
Arguments Raise {A} e.

(** Sequencing: the first exception raised ends the computation. *)
#[global] Instance result_ret : MRet result := fun A x => Ok x.
#[global] Instance result_bind : MBind result := fun A B k r =>
  match r with
  | Ok a => k a
  | Raise e => Raise e
  end.

Definition assert (b : bool) : result unit :=
  if b then Ok tt else Raise AssertionError.

(** [l[i]]: a negative index counts from the end. *)
Definition py_getitem {A} (l : list A) (i : Z) : result A :=
  let j := if i <? 0 then i + len l else i in
  if (0 <=? j) && (j <? len l)
  then match l !! Z.to_nat j with
       | Some x => Ok x
       | None => Raise (IndexError index_error)
       end
  else Raise (IndexError index_error).

(** A list comprehension whose element expression may raise. *)
Fixpoint traverse {A B} (f : A -> result B) (l : list A) : result (list B) :=
  match l with
  | [] => Ok []
  | a :: l' => b ← f a; bs ← traverse f l'; Ok (b :: bs)
  end.

(** ** embed_store.py *)

Definition vec := list Q.

(** A [numpy] matrix of [float32]: [shape1] columns. *)
Record matrix := { shape1 : nat; rows : list vec }.

(** A loaded [SentenceTransformer], as [embed_texts] uses it: [model_encode]
    is the row it yields for one text once [faiss.normalize_L2] has run.
    Floating-point values are taken as the rationals they denote. *)
Record model := { model_dim : nat; model_encode : string -> vec }.

(** [SentenceTransformer(name)] returns a model or raises; a given name
    always loads the same model, and every row a model yields has the
    model's dimension. *)
Class SentenceTransformers := {
  SentenceTransformer : string -> result model;
  encode_shape : forall name m text,
    SentenceTransformer name = Ok m ->
    length (model_encode m text) = model_dim m
}.

(** [get_embedding_model].  The dictionary [_embedding_models] only keeps a
    loaded model for the next call; since loading is a function of the name
    the cached model is the one a fresh load returns, and the dictionary is
    left out. *)
Definition get_embedding_model `{SentenceTransformers} (model_name : string)
    : result model :=
  if is_empty model_name
  then Raise (ValueError "Embedding model name is required")
  else SentenceTransformer model_name.

(** [embed_texts]. *)
Definition embed_texts `{SentenceTransformers} (texts : list string)
    (model_name : string) : result matrix :=
  if is_empty model_name
  then Raise (ValueError "Embedding model name is required")
  else
    m ← get_embedding_model model_name;
    Ok {| shape1 := model_dim m; rows := map (model_encode m) texts |}.

(** ** The vector index ([faiss.IndexFlatIP]) *)

(** The index is a library object; this is its contract as the program
    relies on it: the vectors are kept in the order they were added, a
    search ranks all of them by inner product with the query. *)
Record faiss_index := { index_d : nat; index_xb : list vec }.

Definition ntotal (index : faiss_index) : nat := length (index_xb index).

Definition IndexFlatIP (d : nat) : faiss_index :=
  {| index_d := d; index_xb := [] |}.

(** [index.add(vectors)]. *)
Definition index_add (index : faiss_index) (vectors : matrix)
    : result faiss_index :=
  assert (shape1 vectors =? index_d index)%nat ;;
  Ok {| index_d := index_d index;
        index_xb := index_xb index ++ rows vectors |}.

Definition inner_product (x y : vec) : Q :=
  foldr Qplus 0%Q (zip_with Qmult x y).

(** Insertion of a scored row into a list ordered by non-increasing score;
    a row goes in front of the rows of equal score. *)
Fixpoint insert_hit (hit : Q * Z) (hits : list (Q * Z)) : list (Q * Z) :=
  match hits with
  | [] => [hit]
  | h :: hits' =>
      if Qle_bool (fst h) (fst hit) then hit :: h :: hits'
      else h :: insert_hit hit hits'
  end.

(** Every row with its score and its label, in the order of the rows. *)
Definition scored (xb : list vec) (q : vec) : list (Q * Z) :=
  imap (fun i v => (inner_product v q, Z.of_nat i)) xb.

(** All rows with their scores, best first. *)
Definition ranked (xb : list vec) (q : vec) : list (Q * Z) :=
  foldr insert_hit [] (scored xb q).

(** The order of a result list: no hit has a better score than one before
    it. *)
Definition by_score (a b : Q * Z) : Prop := (fst b <= fst a)%Q.

(** The score that accompanies the label [-1] of a missing hit. *)
Definition no_hit : Q * Z := ((-340282346638528859811704183484516925440)%Q, -1).

(** The [k] best hits for one query row, filled up with [no_hit] when the
    index holds fewer than [k] vectors. *)
Definition search_row (xb : list vec) (k : nat) (q : vec) : list (Q * Z) :=
  let hits := take k (ranked xb q) in
  hits ++ replicate (k - length hits) no_hit.

(** [index.search(x, k)]: the distance matrix and the label matrix. *)
Definition index_search (index : faiss_index) (x : matrix) (k : Z)
    : result (list (list Q) * list (list Z)) :=
  assert (shape1 x =? index_d index)%nat ;;
  assert (0 <? k) ;;
  let found := map (search_row (index_xb index) (Z.to_nat k)) (rows x) in
  Ok (map (map fst) found, map (map snd) found).

(** The file [faiss.write_index] produces: dimension, number of vectors,
    then the vectors one after the other. *)
Record index_blob := {
  blob_d : nat;
  blob_ntotal : nat;
  blob_codes : list Q
}.

Definition write_index_blob (index : faiss_index) : index_blob :=
  {| blob_d := index_d index;
     blob_ntotal := ntotal index;
     blob_codes := concat (index_xb index) |}.

Fixpoint unflatten (d n : nat) (codes : list Q) : list vec :=
  match n with
  | O => []
  | S n' => take d codes :: unflatten d n' (drop d codes)
  end.

Definition read_index_blob (blob : index_blob) : result faiss_index :=
  if (length (blob_codes blob) =? blob_d blob * blob_ntotal blob)%nat
  then Ok {| index_d := blob_d blob;
             index_xb := unflatten (blob_d blob) (blob_ntotal blob)
                                   (blob_codes blob) |}
  else Raise (Exception "Error in faiss::read_index: truncated file").

(** ** rag_answer.py *)

(** [retrieve]. *)
Definition retrieve `{SentenceTransformers} (query : string)
    (index : faiss_index) (chunks : list string) (top_k : Z)
    (embedding_model : string) : result (list string) :=
  if is_empty embedding_model
  then Raise (ValueError "Embedding model is required for retrieval")
  else
    qvector ← embed_texts [query] embedding_model;
    found ← index_search index qvector top_k;
    indices0 ← py_getitem (snd found) 0;
    traverse (fun i => py_getitem chunks i)
             (filter (fun i => i <> -1) indices0).

(** Similarity of a chunk to the query under a model, and the order it
    puts on chunks: no chunk is more similar than one before it. *)
Definition similarity (m : model) (query chunk : string) : Q :=
  inner_product (model_encode m chunk) (model_encode m query).


(** The two remote chat-completion services.  A call returns the content
    of the first choice or raises. *)
Record completion_request := {
  req_credential : string;
  req_model : string;
  req_system : string;
  req_user : string;
  req_max_tokens : Z;
  req_temperature : Q
}.

Class ChatServices := {
  huggingface_chat_completion : completion_request -> result string;
  openai_chat_completions_create : completion_request -> result string
}.

Inductive remote_call :=
| CallHuggingFace (request : completion_request)
| CallOpenAI (request : completion_request).

(** A computation together with the remote calls it has made. *)
Definition traced (A : Type) : Type := list remote_call * result A.

Definition completion (system_prompt user_prompt model api_key : string)
    : completion_request :=
  {| req_credential := api_key; req_model := model;
     req_system := system_prompt; req_user := user_prompt;
     req_max_tokens := 500; req_temperature := (2 # 10)%Q |}.

Definition _generate_huggingface `{ChatServices}
    (system_prompt user_prompt model api_key : string) : traced string :=
  let request := completion system_prompt user_prompt model api_key in
  ([CallHuggingFace request],
   content ← huggingface_chat_completion request; Ok (py_strip content)).

Definition _generate_openai `{ChatServices}
    (system_prompt user_prompt model api_key : string) : traced string :=
  let request := completion system_prompt user_prompt model api_key in
  ([CallOpenAI request],
   content ← openai_chat_completions_create request;
   Ok (py_strip content)).

Definition supported_providers : list string := ["huggingface"; "openai"].

Definition the_system_prompt : string :=
  "You are a helpful assistant. Answer concisely using only the provided context.".

(** The [except Exception as e] clause of [generate_answer]. *)
Definition reclassify (e : exn) : exn :=
  let error_msg := py_lower (str_exn e) in
  if py_contains "rate limit" error_msg
  then Exception "Rate limit exceeded. Try again later."
  else if py_contains "model" error_msg
  then Exception ("Model error: " +:+ str_exn e)
  else Exception ("Failed to generate answer: " +:+ str_exn e).

(** [generate_answer]. *)
Definition generate_answer `{ChatServices} (query : string)
    (ctx : list string) (provider llm_model api_key : string)
    : traced string :=
  if is_empty provider || negb (bool_decide (provider ∈ supported_providers))
  then ([], Raise (ValueError "Provider must be 'huggingface' or 'openai'"))
  else if is_empty llm_model
  then ([], Raise (ValueError "LLM model name is required"))
  else if is_empty api_key
  then ([], Raise (ValueError "API key is required"))
  else
    let context := py_join nl ctx in
    let system_prompt := the_system_prompt in
    let user_prompt :=
      "Context: " +:+ context +:+ nl +:+ nl +:+ "Question: " +:+ query
      +:+ nl +:+ nl +:+ "Answer:" in
    let attempt :=
      if String.eqb provider "openai"
      then _generate_openai system_prompt user_prompt llm_model api_key
      else _generate_huggingface system_prompt user_prompt llm_model api_key
    in
    match attempt with
    | (calls, Ok answer) => (calls, Ok answer)
    | (calls, Raise e) => (calls, Raise (reclassify e))
    end.

(** ** main.py: the file system and the registry *)

Definition UPLOAD_DIR : string := "uploads".
Definition INDEX_DIR : string := "indexes".

(** [os.path.join(a, b)] for two components. *)
Definition path_join (a b : string) : string :=
  if py_startswith b "/" then b
  else if is_empty a || py_endswith a "/" then a +:+ b
  else a +:+ "/" +:+ b.

(** The record [json.dump] writes next to the index.  A key may be absent
    (or [null]); a present key holds a value of the type [upload_pdf]
    writes. *)
Record metadata := {
  meta_chunks : option (list string);
  meta_embedding_model : option string
}.

(** What a file holds. *)
Inductive file :=
| FileBytes (data : string)
| FileIndex (blob : index_blob)
| FileMeta (meta : metadata).

(** An entry of [documents_store].  The keys the reload of [chat] leaves
    out are [None]. *)
Record document := {
  doc_filename : option string;
  doc_file_path : option string;
  doc_index_path : option string;
  doc_meta_path : option string;
  doc_chunks : list string;
  doc_index : faiss_index;
  doc_embedding_model : string
}.

(** The state of the service: the module-level dictionary and the files.
    Paths are compared as they are written. *)
Record state := {
  documents_store : gmap string document;
  disk : gmap string file
}.

Definition initial_state : state := {| documents_store := ∅; disk := ∅ |}.

(** A restart of the process empties the dictionary and keeps the files. *)
Definition restart (st : state) : state :=
  {| documents_store := ∅; disk := disk st |}.

(** A request handler: it reads and changes the state, and returns, raises
    or ([None]) never comes back. *)
Definition io (A : Type) : Type := state -> option (result A * state).

#[global] Instance io_ret : MRet io := fun A x st => Some (Ok x, st).
#[global] Instance io_bind : MBind io := fun A B k m st =>
  match m st with
  | None => None
  | Some (Ok a, st') => k a st'
  | Some (Raise e, st') => Some (Raise e, st')
  end.

Definition raise {A} (e : exn) : io A := fun st => Some (Raise e, st).

Definition lift {A} (r : result A) : io A := fun st => Some (r, st).

(** [try: body / except Exception as e: handler e]. *)
Definition try_except {A} (body : io A) (handler : exn -> io A) : io A :=
  fun st =>
    match body st with
    | None => None
    | Some (Ok a, st') => Some (Ok a, st')
    | Some (Raise e, st') => handler e st'
    end.

(** [os.path.exists(path)]. *)
Definition path_exists (path : string) : io bool :=
  fun st => Some (Ok (bool_decide (is_Some (disk st !! path))), st).

(** [os.remove(path)] of a file that exists. *)
Definition os_remove (path : string) : io unit :=
  fun st => Some (Ok tt, {| documents_store := documents_store st;
                            disk := delete path (disk st) |}).

(** What the environment does to one attempt to create a file: the write
    goes through, or it raises and leaves nothing or a truncated file. *)
Inductive write_outcome :=
| Written
| WriteFails (e : exn) (leftover : option string).

Definition write_file (path : string) (content : file)
    (outcome : write_outcome) : io unit :=
  fun st =>
    match outcome with
    | Written =>
        Some (Ok tt, {| documents_store := documents_store st;
                        disk := <[path := content]> (disk st) |})
    | WriteFails e None => Some (Raise e, st)
    | WriteFails e (Some data) =>
        Some (Raise e, {| documents_store := documents_store st;
                          disk := <[path := FileBytes data]> (disk st) |})
    end.

Definition read_file (path : string) : io file :=
  fun st =>
    match disk st !! path with
    | Some f => Some (Ok f, st)
    | None => Some (Raise (Exception ("No such file or directory: "
                                      +:+ path)), st)
    end.

(** [key in documents_store], [documents_store[key]],
    [documents_store[key] = doc] and [del documents_store[key]]. *)
Definition store_mem (key : string) : io bool :=
  fun st => Some (Ok (bool_decide (is_Some (documents_store st !! key))), st).

Definition store_get (key : string) : io document :=
  fun st =>
    match documents_store st !! key with
    | Some doc => Some (Ok doc, st)
    | None => Some (Raise (Exception key), st)   (* KeyError *)
    end.

Definition store_set (key : string) (doc : document) : io unit :=
  fun st => Some (Ok tt, {| documents_store := <[key := doc]> (documents_store st);
                            disk := disk st |}).

Definition store_del (key : string) : io unit :=
  fun st => Some (Ok tt, {| documents_store := delete key (documents_store st);
                            disk := disk st |}).

(** ** pdf_text.py *)

(** [PdfReader(path).pages] with [extract_text()] applied to every page:
    the reader raises, or yields for every page a text or nothing. *)
Class PdfReaders := {
  PdfReader : string -> result (list (option string))
}.

(** [extract_text_from_pdf]. *)
Definition extract_text_from_pdf `{PdfReaders} (file_path : string)
    : io string :=
  f ← read_file file_path;
  match f with
  | FileBytes data =>
      pages ← lift (PdfReader data);
      let text := py_join " " (map (default "") pages) in
      mret (py_join " " (py_split text))
  | _ => raise (Exception "invalid pdf header")
  end.

(** ** main.py: the handlers *)

Record UploadResponse := {
  up_document_id : string;
  up_filename : string;
  up_num_chunks : Z;
  up_embedding_model : string;
  up_message : string
}.

Record ChatRequest := {
  chat_document_id : string;
  chat_query : string;
  chat_top_k : Z;
  chat_provider : string;
  chat_llm_model : string;
  chat_api_key : string
}.

Record ChatResponse := {
  resp_answer : string;
  resp_sources : list string;
  resp_model_used : string;
  resp_provider : string
}.

Record DocumentInfo := {
  info_document_id : string;
  info_filename : string;
  info_num_chunks : Z;
  info_embedding_model : string
}.

(** What one run of [upload_pdf] gets from its environment: the identifier
    [uuid.uuid4()] draws and the fate of the three files it creates. *)
Record upload_env := {
  new_uuid : string;
  save_outcome : write_outcome;
  index_write_outcome : write_outcome;
  meta_write_outcome : write_outcome
}.

(** [chunk_text(text)] with the default sizes, run until it returns. *)
Definition chunk_text_default `{Tokenizer} (text : string)
    : io (list string) :=
  fun st =>
    match chunk_text (S (length (encode text))) text
                     default_max_chunk_size default_overlap_size with
    | Some chunks => Some (Ok chunks, st)
    | None => None
    end.

Definition is_http (e : exn) : bool :=
  match e with HTTPException _ _ => true | _ => false end.

(** The body of the second [try] of [upload_pdf]: from the saved file to
    the registered document. *)
Definition process_pdf `{Tokenizer} `{SentenceTransformers} `{PdfReaders}
    (env : upload_env) (filename file_path document_id embed_model : string)
    : io UploadResponse :=
  text ← extract_text_from_pdf file_path;
  if is_empty (py_strip text)
  then raise (HTTPException 400 "Could not extract text from PDF")
  else
    chunks ← chunk_text_default text;
    if bool_decide (chunks = [])
    then raise (HTTPException 400 "Could not create chunks from PDF")
    else
      let index_path := path_join INDEX_DIR (document_id +:+ ".index") in
      let meta_path := path_join INDEX_DIR (document_id +:+ "_meta.json") in
      vectors ← lift (embed_texts chunks embed_model);
      let index := IndexFlatIP (shape1 vectors) in
      index ← lift (index_add index vectors);
      write_file index_path (FileIndex (write_index_blob index))
                 (index_write_outcome env) ;;
      write_file meta_path
                 (FileMeta {| meta_chunks := Some chunks;
                              meta_embedding_model := Some embed_model |})
                 (meta_write_outcome env) ;;
      store_set document_id
        {| doc_filename := Some filename;
           doc_file_path := Some file_path;
           doc_index_path := Some index_path;
           doc_meta_path := Some meta_path;
           doc_chunks := chunks;
           doc_index := index;
           doc_embedding_model := embed_model |} ;;
      mret {| up_document_id := document_id;
              up_filename := filename;
              up_num_chunks := len chunks;
              up_embedding_model := embed_model;
              up_message := "Document uploaded and indexed successfully" |}.

(** [upload_pdf]. *)
Definition upload_pdf `{Tokenizer} `{SentenceTransformers} `{PdfReaders}
    (env : upload_env) (filename content embedding_model : string)
    : io UploadResponse :=
  if negb (py_endswith (py_lower filename) ".pdf")
  then raise (HTTPException 400 "Only PDF files are allowed")
  else if is_empty embedding_model || is_empty (py_strip embedding_model)
  then raise (HTTPException 400 "Embedding model is required")
  else
    let embed_model := py_strip embedding_model in
    let document_id := new_uuid env in
    let file_path := path_join UPLOAD_DIR (document_id +:+ ".pdf") in
    try_except
      (write_file file_path (FileBytes content) (save_outcome env))
      (fun e => raise (HTTPException 500
                         ("Failed to save file: " +:+ str_exn e))) ;;
    try_except
      (process_pdf env filename file_path document_id embed_model)
      (fun e =>
         if is_http e then raise e
         else
           (present ← path_exists file_path;
            if present : bool then os_remove file_path else mret tt) ;;
           raise (HTTPException 500
                    ("Failed to process PDF: " +:+ str_exn e))).

(** [faiss.read_index(path)]. *)
Definition faiss_read_index (path : string) : io faiss_index :=
  f ← read_file path;
  match f with
  | FileIndex blob => lift (read_index_blob blob)
  | _ => raise (Exception "Error in faiss::read_index: not a faiss index")
  end.

(** [json.load] of the metadata file. *)
Definition json_load (path : string) : io metadata :=
  f ← read_file path;
  match f with
  | FileMeta meta => mret meta
  | _ => raise (Exception "JSONDecodeError: Expecting value")
  end.

(** The body of [if request.document_id not in documents_store] in [chat]:
    the reload of a document from its two files. *)
Definition load_document (document_id : string) : io unit :=
  let index_path := path_join INDEX_DIR (document_id +:+ ".index") in
  let meta_path := path_join INDEX_DIR (document_id +:+ "_meta.json") in
  has_index ← path_exists index_path;
  has_meta ← path_exists meta_path;
  if negb has_index || negb has_meta
  then raise (HTTPException 404 "Document not found")
  else
    try_except
      (index ← faiss_read_index index_path;
       metadata ← json_load meta_path;
       match meta_embedding_model metadata with
       | Some embed_model =>
           if is_empty embed_model
           then raise (HTTPException 500
                  "Document missing embedding_model. Re-upload required.")
           else
             store_set document_id
               {| doc_filename := None;
                  doc_file_path := None;
                  doc_index_path := None;
                  doc_meta_path := None;
                  doc_chunks := default [] (meta_chunks metadata);
                  doc_index := index;
                  doc_embedding_model := embed_model |}
       | None =>
           raise (HTTPException 500
                  "Document missing embedding_model. Re-upload required.")
       end)
      (fun e =>
         if is_http e then raise e
         else raise (HTTPException 500
                       ("Failed to load document: " +:+ str_exn e))).

Definition document_not_found : exn :=
  HTTPException 404 "Document not found".
Definition no_relevant_content : exn :=
  HTTPException 404 "No relevant content found".

(** [try: body / except Exception as e: handler e] where the body leaves
    the state alone. *)
Definition result_try {A} (body : result A) (handler : exn -> result A)
    : result A :=
  match body with
  | Ok a => Ok a
  | Raise e => handler e
  end.

(** The last [try] block of [chat]: retrieval and generation for the
    entry [doc].  The block reads the entry and calls the collaborators; it
    changes neither the registry nor the files. *)
Definition answer_request `{SentenceTransformers} `{ChatServices}
    (request : ChatRequest) (doc : document) : result ChatResponse :=
  result_try
    (relevant_chunks ←
       retrieve (chat_query request) (doc_index doc) (doc_chunks doc)
                (chat_top_k request) (doc_embedding_model doc);
     if bool_decide (relevant_chunks = [])
     then Raise no_relevant_content
     else
       answer ← snd (generate_answer (chat_query request) relevant_chunks
                       (chat_provider request) (chat_llm_model request)
                       (chat_api_key request));
       Ok {| resp_answer := answer;
             resp_sources := relevant_chunks;
             resp_model_used := chat_llm_model request;
             resp_provider := chat_provider request |})
    (fun e =>
       if is_http e then Raise e
       else Raise (HTTPException 500
                     ("Failed to generate response: " +:+ str_exn e))).

(** The four checks at the head of [chat]. *)
Definition request_refusal (request : ChatRequest) : option exn :=
  if is_empty (py_strip (chat_query request))
  then Some (HTTPException 400 "Query cannot be empty")
  else if is_empty (chat_provider request)
          || negb (bool_decide (chat_provider request ∈ supported_providers))
  then Some (HTTPException 400 "Provider must be 'huggingface' or 'openai'")
  else if is_empty (chat_llm_model request)
          || is_empty (py_strip (chat_llm_model request))
  then Some (HTTPException 400 "LLM model is required")
  else if is_empty (chat_api_key request)
          || is_empty (py_strip (chat_api_key request))
  then Some (HTTPException 400 "API key is required")
  else None.

(** [chat]. *)
Definition chat `{SentenceTransformers} `{ChatServices}
    (request : ChatRequest) : io ChatResponse :=
  match request_refusal request with
  | Some e => raise e
  | None =>
      (known ← store_mem (chat_document_id request);
       if known : bool then mret tt
       else load_document (chat_document_id request)) ;;
      doc ← store_get (chat_document_id request);
      lift (answer_request request doc)
  end.

(** [list_documents]. *)
Definition list_documents : io (list DocumentInfo) :=
  fun st =>
    Some (Ok (map (fun entry : string * document =>
                     {| info_document_id := fst entry;
                        info_filename :=
                          default "Unknown" (doc_filename (snd entry));
                        info_num_chunks := len (doc_chunks (snd entry));
                        info_embedding_model :=
                          doc_embedding_model (snd entry) |})
                  (map_to_list (documents_store st))),
          st).

(** A [for] loop over a list. *)
Fixpoint for_each {A} (l : list A) (body : A -> io unit) : io unit :=
  match l with
  | [] => mret tt
  | a :: l' => body a ;; for_each l' body
  end.

(** The keys [delete_document] looks up in the entry. *)
Definition path_keys : list (document -> option string) :=
  [doc_file_path; doc_index_path; doc_meta_path].

(** [delete_document]. *)
Definition delete_document (document_id : string) : io string :=
  known ← store_mem document_id;
  if negb known
  then raise document_not_found
  else
    doc ← store_get document_id;
    for_each path_keys (fun key =>
      match key doc with
      | Some path =>
          if is_empty path then mret tt
          else
            present ← path_exists path;
            if present : bool then os_remove path else mret tt
      | None => mret tt
      end) ;;
    store_del document_id ;;
    mret "Document deleted".

(** ** The service as a transition system *)

(** The identifier a call of [uuid.uuid4()] returns has not been used. *)
Definition fresh_uuid (st : state) (id : string) : Prop :=
  documents_store st !! id = None
  /\ disk st !! path_join UPLOAD_DIR (id +:+ ".pdf") = None
  /\ disk st !! path_join INDEX_DIR (id +:+ ".index") = None
  /\ disk st !! path_join INDEX_DIR (id +:+ "_meta.json") = None.

(** One request served, or a restart of the process. *)
Inductive step `{Tokenizer} `{SentenceTransformers} `{PdfReaders}
    `{ChatServices} : state -> state -> Prop :=
| step_upload env filename content embedding_model st r st' :
    fresh_uuid st (new_uuid env) ->
    upload_pdf env filename content embedding_model st = Some (r, st') ->
    step st st'
| step_chat request st r st' :
    chat request st = Some (r, st') -> step st st'
| step_list st r st' :
    list_documents st = Some (r, st') -> step st st'
| step_delete document_id st r st' :
    delete_document document_id st = Some (r, st') -> step st st'
| step_restart st :
    step st (restart st).

(** Chunk [i] and row [i] belong together: the rows of the index are the
    embeddings of the chunks, in the same order, under the model the
    document records. *)
Definition aligned `{SentenceTransformers} (embedding_model : string)
    (chunks : list string) (index : faiss_index) : Prop :=
  exists m,
    get_embedding_model embedding_model = Ok m
    /\ index_d index = model_dim m
    /\ index_xb index = map (model_encode m) chunks.

(** The alignment across the three places the chunks live in: the entries
    of the registry, the pairs of files a reload would read, and an entry
    against the metadata file of its identifier. *)
Definition registry_aligned `{SentenceTransformers} (st : state) : Prop :=
  forall id doc,
    documents_store st !! id = Some doc ->
    aligned (doc_embedding_model doc) (doc_chunks doc) (doc_index doc).

Definition files_aligned `{SentenceTransformers} (st : state) : Prop :=
  forall id blob meta index embed_model,
    disk st !! path_join INDEX_DIR (id +:+ ".index") = Some (FileIndex blob) ->
    disk st !! path_join INDEX_DIR (id +:+ "_meta.json")
      = Some (FileMeta meta) ->
    read_index_blob blob = Ok index ->
    meta_embedding_model meta = Some embed_model ->
    is_empty embed_model = false ->
    aligned embed_model (default [] (meta_chunks meta)) index.

Definition registry_matches_files (st : state) : Prop :=
  forall id doc meta,
    documents_store st !! id = Some doc ->
    disk st !! path_join INDEX_DIR (id +:+ "_meta.json")
      = Some (FileMeta meta) ->
    default [] (meta_chunks meta) = doc_chunks doc
    /\ meta_embedding_model meta = Some (doc_embedding_model doc).

Definition alignment `{SentenceTransformers} (st : state) : Prop :=
  registry_aligned st /\ files_aligned st /\ registry_matches_files st.

(** The user prompt [generate_answer] builds. *)
Definition user_prompt_for (query : string) (ctx : list string) : string :=
  "Context: " +:+ py_join nl ctx +:+ nl +:+ nl +:+ "Question: " +:+ query
  +:+ nl +:+ nl +:+ "Answer:".

(** The request [generate_answer] sends. *)
Definition request_for (query : string) (ctx : list string)
    (llm_model api_key : string) : completion_request :=
  completion the_system_prompt (user_prompt_for query ctx) llm_model api_key.

(** The service [generate_answer] asks and what it answers. *)
Definition remote_reply `{ChatServices} (provider : string)
    (request : completion_request) : result string :=
  if String.eqb provider "openai"
  then openai_chat_completions_create request
  else huggingface_chat_completion request.

Definition remote_call_for (provider : string) (request : completion_request)
    : remote_call :=
  if String.eqb provider "openai" then CallOpenAI request
  else CallHuggingFace request.

(** ** Collaborators for running the model on concrete inputs *)

(** One model, ["m1"], of dimension two. *)
Definition demo_model : model :=
  {| model_dim := 2;
     model_encode := fun text =>
       [Z.of_nat (String.length text) # 1; 1 # 1]%Q |}.

Definition demo_load (name : string) : result model :=
  if String.eqb name "m1" then Ok demo_model
  else Raise (Exception (name +:+ " is not a valid model identifier")).

Definition demo_transformers : SentenceTransformers.
Proof.
  refine {| SentenceTransformer := demo_load |}.
  intros name m text. unfold demo_load.
  destruct (String.eqb name "m1"); [|discriminate].
  intros [= <-]. reflexivity.
Defined.

(** A reader that takes the bytes after the header for the text of the
    only page. *)
Definition demo_reader : PdfReaders :=
  {| PdfReader := fun data =>
       if py_startswith data "%PDF"
       then Ok [Some (String.substring 4 (String.length data - 4) data)]
       else Raise (Exception "invalid pdf header") |}.

(** Services of which one is out of quota and the other knows a single
    model. *)
Definition demo_services : ChatServices :=
  {| huggingface_chat_completion := fun _ =>
       Raise (Exception "429 Too Many Requests: Rate Limit reached");
     openai_chat_completions_create := fun request =>
       if String.eqb (req_model request) "gpt-4o-mini"
       then Ok " It is in the first passage.  "
       else Raise (Exception ("The model `" +:+ req_model request
                              +:+ "` does not exist")) |}.

(** The index [upload_pdf] builds from the chunks of a document, and the
    entry it registers. *)
Definition built_index (m : model) (chunks : list string) : faiss_index :=
  {| index_d := model_dim m; index_xb := map (model_encode m) chunks |}.

Definition uploaded_document (m : model) (filename document_id : string)
    (chunks : list string) (embed_model : string) : document :=
  {| doc_filename := Some filename;
     doc_file_path := Some (path_join UPLOAD_DIR (document_id +:+ ".pdf"));
     doc_index_path := Some (path_join INDEX_DIR (document_id +:+ ".index"));
     doc_meta_path :=
       Some (path_join INDEX_DIR (document_id +:+ "_meta.json"));
     doc_chunks := chunks;
     doc_index := built_index m chunks;
     doc_embedding_model := embed_model |}.

Definition demo_env : upload_env :=
  {| new_uuid := "0f8fad5b-d9cb-469f-a165-70867728950e";
     save_outcome := Written;
     index_write_outcome := Written;
     meta_write_outcome := Written |}.

(** The response of a successful upload. *)
Definition upload_response (filename document_id : string)
    (chunks : list string) (embed_model : string) : UploadResponse :=
  {| up_document_id := document_id;
     up_filename := filename;
     up_num_chunks := len chunks;
     up_embedding_model := embed_model;
     up_message := "Document uploaded and indexed successfully" |}.

(** The entry the reload of [chat] registers. *)
Definition reloaded_document (index : faiss_index) (meta : metadata)
    (embed_model : string) : document :=
  {| doc_filename := None;
     doc_file_path := None;
     doc_index_path := None;
     doc_meta_path := None;
     doc_chunks := default [] (meta_chunks meta);
     doc_index := index;
     doc_embedding_model := embed_model |}.

(** What one round of the loop of [delete_document] does to the files: the
    file under a stored, non-empty path is gone afterwards. *)
Definition remove_path (path : option string) (fs : gmap string file)
    : gmap string file :=
  match path with
  | Some p => if is_empty p then fs else delete p fs
  | None => fs
  end.

(** A document that lives in its two files only, and a request for it. *)
Definition demo_index : faiss_index :=
  built_index demo_model ["alpha"; "be"].

Definition demo_persisted : state :=
  {| documents_store := ∅;
     disk :=
       <["indexes/doc-1.index" := FileIndex (write_index_blob demo_index)]>
         (<["indexes/doc-1_meta.json" :=
              FileMeta {| meta_chunks := Some ["alpha"; "be"];
                          meta_embedding_model := Some "m1" |}]> ∅) |}.

Definition demo_request : ChatRequest :=
  {| chat_document_id := "doc-1";
     chat_query := "what";
     chat_top_k := 5;
     chat_provider := "openai";
     chat_llm_model := "gpt-4o-mini";
     chat_api_key := "k" |}.

(* ================================================================== *)
(** * Part I, continued: notions used by the further properties *)
(* ================================================================== *)

(** A string of blanks only (the empty string included). *)
Fixpoint blank (s : string) : bool :=
  match s with
  | EmptyString => true
  | String c s' => is_space c && blank s'
  end.

(** An environment with another fate for the metadata file. *)
Definition with_meta_outcome (env : upload_env) (outcome : write_outcome)
    : upload_env :=
  {| new_uuid := new_uuid env;
     save_outcome := save_outcome env;
     index_write_outcome := index_write_outcome env;
     meta_write_outcome := outcome |}.

(** An environment with another fate for the index file. *)
Definition with_index_outcome (env : upload_env) (outcome : write_outcome)
    : upload_env :=
  {| new_uuid := new_uuid env;
     save_outcome := save_outcome env;
     index_write_outcome := outcome;
     meta_write_outcome := meta_write_outcome env |}.

(** The entry [process_pdf] registers, for the path of the saved file it is
    given. *)
Definition uploaded_document_at (m : model)
    (filename file_path document_id : string) (chunks : list string)
    (embed_model : string) : document :=
  {| doc_filename := Some filename;
     doc_file_path := Some file_path;
     doc_index_path := Some (path_join INDEX_DIR (document_id +:+ ".index"));
     doc_meta_path :=
       Some (path_join INDEX_DIR (document_id +:+ "_meta.json"));
     doc_chunks := chunks;
     doc_index := built_index m chunks;
     doc_embedding_model := embed_model |}.

(** The line of a listing for one entry of the registry. *)
Definition document_info (id : string) (doc : document) : DocumentInfo :=
  {| info_document_id := id;
     info_filename := default "Unknown" (doc_filename doc);
     info_num_chunks := len (doc_chunks doc);
     info_embedding_model := doc_embedding_model doc |}.



(** ** embed_store.py: the dictionary of loaded models *)

(** [_embedding_models]: the models loaded so far, by name. *)
Definition model_cache := gmap string model.

(** [get_embedding_model] with the dictionary it keeps: the names handed
    to [SentenceTransformer] on the way, what the call returns or raises,
    and the dictionary afterwards.  A load that raises stores nothing. *)
Definition get_embedding_model_cached `{SentenceTransformers}
    (model_name : string) (_embedding_models : model_cache)
    : list string * result model * model_cache :=
  if is_empty model_name
  then ([], Raise (ValueError "Embedding model name is required"),
        _embedding_models)
  else
    match _embedding_models !! model_name with
    | Some m => ([], Ok m, _embedding_models)
    | None =>
        match SentenceTransformer model_name with
        | Ok m =>
            ([model_name], Ok m, <[model_name := m]> _embedding_models)
        | Raise e => ([model_name], Raise e, _embedding_models)
        end
    end.

(** Every model the dictionary holds is the one its name loads. *)
Definition cache_sound `{SentenceTransformers} (c : model_cache) : Prop :=
  forall name m, c !! name = Some m -> SentenceTransformer name = Ok m.

(** A string without a blank in it. *)
Fixpoint spaceless (s : string) : bool :=
  match s with
  | EmptyString => true
  | String c s' => negb (is_space c) && spaceless s'
  end.
(* ================================================================== *)
(** * Part II: properties *)
(* ================================================================== *)

(** ** The chunker *)

Section ChunkLoop.
Context {A : Type} (emit : Z -> Z -> A).
Variables ntokens max_chunk_size overlap_size : Z.

Local Abbreviation iters := (iterations ntokens max_chunk_size overlap_size).
Local Abbreviation win := (window emit ntokens max_chunk_size overlap_size).
Local Abbreviation stride := (max_chunk_size - overlap_size).

Lemma iterations_done start :
  overlap_size < max_chunk_size -> ntokens <= start -> iters start = 0%nat.
Proof.
  intros Hpos Hge. unfold iterations, ceil_div.
  assert ((ntokens - start + stride - 1) / stride < 1); [|lia].
  apply Z.div_lt_upper_bound; lia.
Qed.

Lemma iterations_step start :
  overlap_size < max_chunk_size -> start < ntokens ->
  iters start = S (iters (start + stride)).
Proof.
  intros Hpos Hlt. unfold iterations, ceil_div.
  replace (ntokens - start + stride - 1)
    with (ntokens - (start + stride) + stride - 1 + 1 * stride) by lia.
  rewrite Z.div_add by lia.
  assert (0 <= (ntokens - (start + stride) + stride - 1) / stride).
  { apply Z.div_pos; lia. }
  lia.
Qed.

Lemma window_shift start k : win (start + stride) k = win start (S k).
Proof. unfold window. cbv zeta. f_equal; [|f_equal]; lia. Qed.

(** With a positive stride the loop returns as soon as the fuel exceeds
    the number of iterations, and appends one window per iteration. *)
Lemma chunk_loop_closed fuel : forall start chunks,
  overlap_size < max_chunk_size ->
  (iters start < fuel)%nat ->
  chunk_loop emit fuel ntokens max_chunk_size overlap_size start chunks
  = Some (chunks ++ map (win start) (seq 0 (iters start))).
Proof.
  induction fuel as [|fuel IH]; intros start chunks Hpos Hfuel; [lia|].
  simpl. destruct (Z.ltb_spec start ntokens) as [Hlt|Hge].
  - rewrite (iterations_step start Hpos Hlt) in *.
    rewrite IH by lia. f_equal.
    rewrite <- app_assoc. f_equal. simpl. f_equal.
    + unfold window. cbv zeta. f_equal; [|f_equal]; lia.
    + rewrite <- seq_shift, map_map. apply map_ext.
      intros k. apply window_shift.
  - rewrite iterations_done by lia. simpl. by rewrite app_nil_r.
Qed.

Lemma iterations_spec (i : nat) :
  overlap_size < max_chunk_size ->
  (i < iters 0)%nat <-> Z.of_nat i * stride < ntokens.
Proof.
  intros Hpos. unfold iterations, ceil_div. rewrite Z.sub_0_r.
  set (q := (ntokens + stride - 1) / stride).
  assert (Hq : stride * q <= ntokens + stride - 1 < stride * (q + 1)).
  { pose proof (Z.div_mod (ntokens + stride - 1) stride ltac:(lia)) as Hdm.
    pose proof (Z.mod_pos_bound (ntokens + stride - 1) stride ltac:(lia)).
    fold q in Hdm. lia. }
  split; intros Hi.
  - assert (Z.of_nat i + 1 <= q) by lia. nia.
  - assert (Z.of_nat i < q) by nia. lia.
Qed.

Lemma iterations_le_tokens :
  overlap_size < max_chunk_size -> 0 <= ntokens ->
  (iters 0 <= Z.to_nat ntokens)%nat.
Proof.
  intros Hpos Hn.
  destruct (Nat.le_gt_cases (iters 0) (Z.to_nat ntokens)) as [|Hgt]; [done|].
  apply iterations_spec in Hgt; [|done]. nia.
Qed.

(** With a non-positive stride and a token to read the loop never
    returns, whatever the fuel. *)
Lemma chunk_loop_diverges fuel : forall start chunks,
  max_chunk_size <= overlap_size -> start < ntokens ->
  chunk_loop emit fuel ntokens max_chunk_size overlap_size start chunks
  = None.
Proof.
  induction fuel as [|fuel IH]; intros start chunks Hle Hlt; [done|].
  simpl. destruct (Z.ltb_spec start ntokens); [|lia].
  apply IH; lia.
Qed.
End ChunkLoop.

(** *** Slices inside the sequence *)

Lemma slice_bound_inside n i : 0 <= i <= n -> slice_bound n i = i.
Proof.
  intros Hi. unfold slice_bound.
  destruct (Z.ltb_spec i 0); lia.
Qed.

Lemma py_slice_inside {A} (l : list A) (start stop : Z) :
  0 <= start <= stop -> stop <= len l ->
  py_slice l start stop
  = take (Z.to_nat (stop - start)) (drop (Z.to_nat start) l).
Proof.
  intros Hs He. unfold py_slice.
  rewrite !slice_bound_inside by lia. done.
Qed.

Lemma py_slice_length {A} (l : list A) (start stop : Z) :
  0 <= start <= stop -> stop <= len l ->
  len (py_slice l start stop) = stop - start.
Proof.
  intros Hs He. rewrite py_slice_inside by done.
  unfold len in *. rewrite length_take, length_drop. lia.
Qed.

Lemma py_slice_all {A} (l : list A) : py_slice l 0 (len l) = l.
Proof.
  rewrite py_slice_inside by (unfold len; lia).
  rewrite Z.sub_0_r. unfold len. rewrite Nat2Z.id. simpl.
  apply firstn_all.
Qed.

(** *** Closed forms of [chunk_text] and [chunk_spans] *)

Section Chunker.
Context `{Tokenizer}.
Variables (text : string) (max_chunk_size overlap_size : Z).

Local Abbreviation tokens := (encode text).
Local Abbreviation ntokens := (len (encode text)).
Local Abbreviation count := (iterations ntokens max_chunk_size overlap_size 0).
Local Abbreviation span_of :=
  (window (fun s e : Z => (s, e)) ntokens max_chunk_size overlap_size 0).

Lemma chunk_spans_closed fuel :
  overlap_size < max_chunk_size -> (length tokens < fuel)%nat ->
  chunk_spans fuel ntokens max_chunk_size overlap_size
  = Some (map span_of (seq 0 count)).
Proof.
  intros Hpos Hfuel. unfold chunk_spans.
  rewrite chunk_loop_closed; [done|done|].
  pose proof (iterations_le_tokens ntokens max_chunk_size overlap_size Hpos)
    as Hle.
  unfold len in *. rewrite Nat2Z.id in Hle. lia.
Qed.

Lemma chunk_text_closed fuel :
  overlap_size < max_chunk_size -> (length tokens < fuel)%nat ->
  chunk_text fuel text max_chunk_size overlap_size
  = Some (map (fun sp => decode (py_slice tokens (fst sp) (snd sp)))
              (map span_of (seq 0 count))).
Proof.
  intros Hpos Hfuel. unfold chunk_text. cbv zeta.
  rewrite chunk_loop_closed; [|done|].
  - simpl. by rewrite map_map.
  - pose proof (iterations_le_tokens ntokens max_chunk_size overlap_size Hpos)
      as Hle.
    unfold len in *. rewrite Nat2Z.id in Hle. lia.
Qed.

Lemma span_lookup (i : nat) (sp : Z * Z) :
  overlap_size < max_chunk_size ->
  map span_of (seq 0 count) !! i = Some sp ->
  Z.of_nat i * (max_chunk_size - overlap_size) < ntokens
  /\ sp = (Z.of_nat i * (max_chunk_size - overlap_size),
           Z.min (Z.of_nat i * (max_chunk_size - overlap_size)
                  + max_chunk_size) ntokens).
Proof.
  intros Hpos Hsp.
  rewrite list_lookup_fmap in Hsp.
  destruct (seq 0 count !! i) as [k|] eqn:Hk; [|done].
  apply lookup_seq in Hk as [-> Hlt]. simpl in *.
  split.
  - by apply iterations_spec.
  - injection Hsp as <-. unfold window. cbv zeta. f_equal; lia.
Qed.

Lemma count_value :
  overlap_size < max_chunk_size ->
  Z.of_nat count = ceil_div ntokens (max_chunk_size - overlap_size).
Proof.
  intros Hpos. unfold iterations. rewrite Z.sub_0_r.
  apply Z2Nat.id. unfold ceil_div. apply Z.div_pos; unfold len; lia.
Qed.

End Chunker.

(** *** Termination *)

(** C4 (as the code has it): for [overlap_size < max_chunk_size]
    [chunk_text] returns, for every text, as soon as the fuel exceeds the
    number of tokens.  For [overlap_size >= max_chunk_size] there is no
    configuration check: on a text with at least one token the loop never
    returns (and raises nothing), on a text without tokens it returns the
    empty list at once. *)
Theorem chunk_text_termination `{Tokenizer} (text : string)
    (max_chunk_size overlap_size : Z) :
  (overlap_size < max_chunk_size ->
   exists chunks, forall fuel, (length (encode text) < fuel)%nat ->
     chunk_text fuel text max_chunk_size overlap_size = Some chunks)
  /\ (max_chunk_size <= overlap_size -> encode text <> [] ->
      forall fuel, chunk_text fuel text max_chunk_size overlap_size = None)
  /\ (max_chunk_size <= overlap_size -> encode text = [] ->
      forall fuel, chunk_text (S fuel) text max_chunk_size overlap_size
                   = Some []).
Proof.
  split; [|split].
  - intros Hpos. eexists. intros fuel Hfuel.
    by apply chunk_text_closed.
  - intros Hle Hne fuel. unfold chunk_text. cbv zeta.
    apply chunk_loop_diverges; [done|].
    unfold len. destruct (encode text); [done|]. simpl. lia.
  - intros _ Hnil fuel. unfold chunk_text. cbv zeta.
    rewrite Hnil. done.
Qed.

Lemma chunk_text_termination_witness :
  (exists chunks, forall fuel, (10 < fuel)%nat ->
     chunk_text (H := byte_tokenizer) fuel "0123456789" 500 80 = Some chunks)
  /\ (forall fuel, chunk_text (H := byte_tokenizer) fuel "a" 80 80 = None)
  /\ (forall fuel, chunk_text (H := byte_tokenizer) (S fuel) "" 80 80
                   = Some []).
Proof.
  pose proof (chunk_text_termination (H := byte_tokenizer)
                "0123456789" 500 80) as [H1 _].
  pose proof (chunk_text_termination (H := byte_tokenizer)
                "a" 80 80) as (_ & H2 & _).
  pose proof (chunk_text_termination (H := byte_tokenizer)
                "" 80 80) as (_ & _ & H3).
  split; [|split].
  - apply H1. lia.
  - apply H2; [lia | discriminate].
  - apply H3; [lia | reflexivity].
Defined.

(** C4 as stated fails: with [overlap_size = max_chunk_size] and a
    one-token text no amount of fuel makes [chunk_text] finish, be it with
    a result or with an error. *)
Lemma chunk_text_no_config_error :
  ~ exists fuel outcome,
      chunk_text (H := byte_tokenizer) fuel "a" 80 80 = Some outcome.
Proof.
  intros (fuel & outcome & Hrun).
  assert (Hnone : chunk_text (H := byte_tokenizer) fuel "a" 80 80 = None).
  { unfold chunk_text. cbv zeta. apply chunk_loop_diverges; [lia|].
    vm_compute. reflexivity. }
  congruence.
Qed.

(** *** Number of chunks *)

(** C3 (as the code has it): for [overlap_size < max_chunk_size] and a
    text of [N] tokens, [chunk_text] returns exactly
    [ceil(N / (max_chunk_size - overlap_size))] chunks, hence none for
    [N = 0]; for [0 < N <= max_chunk_size - overlap_size] and a
    non-negative overlap it returns one chunk holding all tokens. *)
Theorem chunk_text_count `{Tokenizer} (text : string)
    (max_chunk_size overlap_size : Z) :
  overlap_size < max_chunk_size ->
  exists chunks,
    (forall fuel, (length (encode text) < fuel)%nat ->
       chunk_text fuel text max_chunk_size overlap_size = Some chunks)
    /\ len chunks
       = ceil_div (len (encode text)) (max_chunk_size - overlap_size)
    /\ (len (encode text) = 0 -> chunks = [])
    /\ (0 < len (encode text) <= max_chunk_size - overlap_size ->
        0 <= overlap_size ->
        chunks = [decode (encode text)]).
Proof.
  intros Hpos. eexists. split; [|split; [|split]].
  - intros fuel Hfuel. by apply chunk_text_closed.
  - unfold len at 1. rewrite !length_map, length_seq.
    by apply count_value.
  - intros Hzero.
    assert (Hc : iterations (len (encode text)) max_chunk_size overlap_size 0
                 = 0%nat).
    { apply iterations_done; lia. }
    by rewrite Hc.
  - intros [Hlo Hhi] Hov.
    assert (Hc : iterations (len (encode text)) max_chunk_size overlap_size 0
                 = 1%nat).
    { pose proof (iterations_spec (len (encode text)) max_chunk_size
                    overlap_size 0 Hpos) as H0.
      pose proof (iterations_spec (len (encode text)) max_chunk_size
                    overlap_size 1 Hpos) as H1.
      destruct H0 as [_ H0]. destruct H1 as [H1 _].
      specialize (H0 ltac:(lia)).
      destruct (decide (1 < iterations (len (encode text)) max_chunk_size
                              overlap_size 0)%nat) as [Hgt|]; [|lia].
      specialize (H1 Hgt). lia. }
    rewrite Hc. simpl. unfold window. cbv zeta. simpl.
    rewrite Z.min_r by lia. by rewrite py_slice_all.
Qed.

Lemma chunk_text_count_witness :
  exists chunks,
    (forall fuel, (10 < fuel)%nat ->
       chunk_text (H := byte_tokenizer) fuel "0123456789" 5 2 = Some chunks)
    /\ len chunks = 4.
Proof.
  destruct (chunk_text_count (H := byte_tokenizer) "0123456789" 5 2
              ltac:(lia)) as (chunks & Hrun & Hlen & _).
  exists chunks. split; [exact Hrun | exact Hlen].
Defined.

(** C3 as stated fails.  Ten tokens with windows of five overlapping by two
    give four chunks where the formula of the specification gives three;
    three tokens, not more than the overlap of four, give three chunks
    where it gives one; and no tokens give no chunk where it gives one. *)
Lemma chunk_count_spec_fails :
  (exists chunks,
     chunk_text (H := byte_tokenizer) 11 "0123456789" 5 2 = Some chunks
     /\ chunks = ["01234"; "34567"; "6789"; "9"]
     /\ 2 < 5
     /\ len chunks <> spec_chunk_count (len (byte_tokens "0123456789")) 5 2)
  /\ (exists chunks,
        chunk_text (H := byte_tokenizer) 4 "abc" 5 4 = Some chunks
        /\ chunks = ["abc"; "bc"; "c"]
        /\ len (byte_tokens "abc") <= 4 < 5
        /\ len chunks <> spec_chunk_count (len (byte_tokens "abc")) 5 4)
  /\ (exists chunks,
        chunk_text (H := byte_tokenizer) 1 "" 500 80 = Some chunks
        /\ chunks = []
        /\ len chunks <> spec_chunk_count (len (byte_tokens "")) 500 80).
Proof.
  split; [|split]; eexists;
    repeat split; try (vm_compute; reflexivity);
    try (vm_compute; discriminate).
Qed.

(** *** Window sizes and overlaps *)

(** C9 (as the code has it): for [0 <= overlap_size < max_chunk_size] every
    window lies inside the token sequence, is not empty and holds at most
    [max_chunk_size] tokens.  Two consecutive windows share exactly
    [overlap_size] tokens whenever the earlier one is full (the tail of the
    earlier one is the head of the later one); when the earlier one is
    already cut short by the end of the text, the later one lies wholly
    inside it.  When [2 * overlap_size <= max_chunk_size] every pair but
    the last shares exactly [overlap_size] tokens. *)
Theorem chunk_text_windows `{Tokenizer} (text : string)
    (max_chunk_size overlap_size : Z) :
  0 <= overlap_size < max_chunk_size ->
  exists spans,
    (forall fuel, (length (encode text) < fuel)%nat ->
       chunk_spans fuel (len (encode text)) max_chunk_size overlap_size
       = Some spans
       /\ chunk_text fuel text max_chunk_size overlap_size
          = Some (map (fun sp => decode (py_slice (encode text)
                                           (fst sp) (snd sp))) spans))
    /\ (forall (i : nat) sp, spans !! i = Some sp ->
          0 <= fst sp < snd sp /\ snd sp <= len (encode text)
          /\ len (py_slice (encode text) (fst sp) (snd sp))
             = snd sp - fst sp
          /\ snd sp - fst sp <= max_chunk_size)
    /\ (forall (i : nat) a b,
          spans !! i = Some a -> spans !! S i = Some b ->
          (snd a - fst a = max_chunk_size ->
             span_overlap a b = overlap_size
             /\ drop (Z.to_nat (max_chunk_size - overlap_size))
                     (py_slice (encode text) (fst a) (snd a))
                = take (Z.to_nat overlap_size)
                       (py_slice (encode text) (fst b) (snd b)))
          /\ (snd a - fst a < max_chunk_size ->
              span_overlap a b = snd b - fst b))
    /\ (2 * overlap_size <= max_chunk_size ->
        forall (i : nat) a b,
          spans !! i = Some a -> spans !! S i = Some b ->
          (S (S i) < length spans)%nat ->
          span_overlap a b = overlap_size).
Proof.
  intros [Hov Hpos].
  set (n := len (encode text)).
  assert (Hn : 0 <= n) by (unfold n, len; lia).
  eexists. split; [|split; [|split]].
  - intros fuel Hfuel. split.
    + by apply chunk_spans_closed.
    + by apply chunk_text_closed.
  - intros i sp Hsp.
    apply span_lookup in Hsp as [Hlt ->]; [|done]. fold n in Hlt |- *.
    assert (0 <= Z.of_nat i * (max_chunk_size - overlap_size)) by nia.
    simpl. rewrite py_slice_length by (fold n; lia). lia.
  - intros i a b Ha Hb.
    apply span_lookup in Ha as [Hia ->]; [|done].
    apply span_lookup in Hb as [Hib ->]; [|done].
    fold n in Hia, Hib |- *. unfold span_overlap. simpl.
    rewrite Nat2Z.inj_succ in *.
    set (s := max_chunk_size - overlap_size) in *.
    set (p := Z.of_nat i * s) in *.
    assert (Hp : 0 <= p) by (unfold p, s; nia).
    assert (Hq : Z.succ (Z.of_nat i) * s = p + s) by (unfold p; lia).
    rewrite Hq in *.
    split.
    + intros Hfull. split; [lia|].
      rewrite Z.min_l by lia.
      rewrite !py_slice_inside by (fold n; lia).
      rewrite skipn_firstn_comm, drop_drop, take_take.
      replace (Z.to_nat p + Z.to_nat s)%nat with (Z.to_nat (p + s)) by lia.
      f_equal; unfold s; lia.
    + intros Hshort. lia.
  - intros Htwice i a b Ha Hb Hnext.
    destruct (lookup_lt_is_Some_2 _ _ Hnext) as [c Hc].
    apply span_lookup in Ha as [Hia ->]; [|done].
    apply span_lookup in Hb as [Hib ->]; [|done].
    apply span_lookup in Hc as [Hic _]; [|done].
    fold n in Hia, Hib, Hic |- *. unfold span_overlap. simpl.
    rewrite !Nat2Z.inj_succ in *.
    set (s := max_chunk_size - overlap_size) in *.
    set (p := Z.of_nat i * s) in *.
    assert (Hp : 0 <= p) by (unfold p, s; nia).
    replace (Z.succ (Z.of_nat i) * s) with (p + s) in * by (unfold p; lia).
    replace (Z.succ (Z.succ (Z.of_nat i)) * s) with (p + s + s) in *
      by (unfold p; lia).
    unfold s in *. lia.
Qed.

Lemma chunk_text_windows_witness :
  exists spans,
    chunk_text (H := byte_tokenizer) 11 "0123456789" 5 2
    = Some (map (fun sp => byte_text (py_slice (byte_tokens "0123456789")
                                        (fst sp) (snd sp))) spans)
    /\ (forall a b, spans !! 0%nat = Some a -> spans !! 1%nat = Some b ->
          snd a - fst a = 5 -> span_overlap a b = 2).
Proof.
  destruct (chunk_text_windows (H := byte_tokenizer) "0123456789" 5 2
              ltac:(lia)) as (spans & Hrun & _ & Hpair & _).
  exists spans. split.
  - apply (Hrun 11%nat). simpl. lia.
  - intros a b Ha Hb Hfull. by apply (Hpair 0%nat a b Ha Hb).
Defined.

(** C9 as stated fails at its second half.  Seven tokens with windows of
    five overlapping by four: the fourth and the fifth window are both cut
    short, they share three tokens instead of four, and the fifth window is
    not the final one (two more follow). *)
Lemma chunk_overlap_spec_fails :
  exists spans a b,
    chunk_text (H := byte_tokenizer) 8 "0123456" 5 4
    = Some ["01234"; "12345"; "23456"; "3456"; "456"; "56"; "6"]
    /\ chunk_spans 8 (len (byte_tokens "0123456")) 5 4 = Some spans
    /\ spans !! 3%nat = Some a /\ spans !! 4%nat = Some b
    /\ (S 4 < length spans)%nat
    /\ 0 <= 4 < 5
    /\ span_overlap a b <> 4.
Proof.
  exists [(0, 5); (1, 6); (2, 7); (3, 7); (4, 7); (5, 7); (6, 7)],
         (3, 7), (4, 7).
  repeat split; try (vm_compute; reflexivity); try (vm_compute; discriminate).
  simpl. lia.
Qed.

(** ** Substring tests *)

Lemma prefix_spec (p s : string) :
  String.prefix p s = true <-> exists rest, s = p +:+ rest.
Proof.
  revert s. induction p as [|c p IH]; intros s.
  - destruct s; simpl; split; eauto.
  - destruct s as [|d s]; simpl.
    + split; [discriminate | intros [rest Hrest]; discriminate].
    + destruct (ascii_dec c d) as [->|Hne].
      * rewrite IH. split; intros [rest Hrest]; exists rest.
        -- by rewrite Hrest.
        -- simpl in Hrest. by injection Hrest.
      * split; [discriminate|]. intros [rest Hrest].
        simpl in Hrest. injection Hrest as Hcd _. congruence.
Qed.

(** [needle in hay] holds exactly when [hay] is some text, [needle], some
    text. *)
Lemma py_contains_spec (needle hay : string) :
  py_contains needle hay = true
  <-> exists before after, hay = before +:+ needle +:+ after.
Proof.
  induction hay as [|c hay IH].
  - change (py_contains needle "") with (String.prefix needle "" || false).
    rewrite orb_false_r, prefix_spec. split.
    + intros [rest Hrest]. by exists "", rest.
    + intros (before & after & Hhay). destruct before; [|discriminate].
      by exists after.
  - change (py_contains needle (String c hay))
      with (String.prefix needle (String c hay) || py_contains needle hay).
    rewrite orb_true_iff, prefix_spec, IH. split.
    + intros [[rest Hrest] | (before & after & Hhay)].
      * by exists "", rest.
      * exists (String c before), after. simpl. by rewrite Hhay.
    + intros (before & after & Hhay). destruct before as [|d before].
      * left. by exists after.
      * right. simpl in Hhay. injection Hhay as _ Hhay.
        by exists before, after.
Qed.

(** ** Answer generation *)

Section GenerateAnswer.
Context `{ChatServices}.
Variables (query : string) (ctx : list string).
Variables (provider llm_model api_key : string).

Lemma is_empty_true (s : string) : is_empty s = true <-> s = "".
Proof. destruct s; simpl; split; congruence. Qed.

Lemma is_empty_false (s : string) : is_empty s = false <-> s <> "".
Proof. destruct s; simpl; split; congruence. Qed.

(** Past the three checks [generate_answer] makes exactly one remote call,
    returns its stripped content, or raises its failure reclassified. *)
Lemma generate_answer_remote :
  provider ∈ supported_providers -> llm_model <> "" -> api_key <> "" ->
  generate_answer query ctx provider llm_model api_key
  = ([remote_call_for provider
        (request_for query ctx llm_model api_key)],
     match remote_reply provider (request_for query ctx llm_model api_key)
     with
     | Ok content => Ok (py_strip content)
     | Raise e => Raise (reclassify e)
     end).
Proof.
  intros Hprov Hmodel Hkey. unfold generate_answer.
  assert (Hne : is_empty provider = false).
  { apply is_empty_false. intros ->.
    apply (bool_decide_eq_true_2 _) in Hprov. discriminate. }
  rewrite Hne, bool_decide_eq_true_2 by done. simpl.
  apply is_empty_false in Hmodel, Hkey. rewrite Hmodel, Hkey.
  unfold remote_call_for, remote_reply, request_for, user_prompt_for.
  cbv zeta.
  destruct (String.eqb provider "openai");
    unfold _generate_openai, _generate_huggingface; cbv zeta;
    match goal with
    | |- context [?f (completion ?a ?b ?c ?d)] =>
        destruct (f (completion a b c d))
    end; reflexivity.
Qed.

End GenerateAnswer.

(** C8: [generate_answer] raises a [ValueError], having called neither
    service, when the provider is not one of the two supported tags or the
    model name or the key is empty.  Otherwise a failure [e] of the one
    remote call is raised again according to the lowered text of [e]: as
    the rate-limit error when it contains "rate limit"; else as a model
    error carrying the text of [e] when it contains "model"; else as a
    generation failure carrying the text of [e]. *)
Theorem generate_answer_errors `{ChatServices} (query : string)
    (ctx : list string) (provider llm_model api_key : string) :
  (provider ∉ supported_providers \/ llm_model = "" \/ api_key = "" ->
   exists msg,
     generate_answer query ctx provider llm_model api_key
     = ([], Raise (ValueError msg)))
  /\ (provider ∈ supported_providers -> llm_model <> "" -> api_key <> "" ->
      forall e,
        remote_reply provider (request_for query ctx llm_model api_key)
        = Raise e ->
        let lowered := py_lower (str_exn e) in
        let outcome :=
          snd (generate_answer query ctx provider llm_model api_key) in
        (py_contains "rate limit" lowered = true ->
         outcome = Raise (Exception "Rate limit exceeded. Try again later."))
        /\ (py_contains "rate limit" lowered = false ->
            py_contains "model" lowered = true ->
            outcome = Raise (Exception ("Model error: " +:+ str_exn e)))
        /\ (py_contains "rate limit" lowered = false ->
            py_contains "model" lowered = false ->
            outcome
            = Raise (Exception ("Failed to generate answer: "
                                +:+ str_exn e)))).
Proof.
  split.
  - intros Hbad. unfold generate_answer.
    destruct (is_empty provider
              || negb (bool_decide (provider ∈ supported_providers)))
      eqn:Hprov; [eauto|].
    destruct (is_empty llm_model) eqn:Hmodel; [eauto|].
    destruct (is_empty api_key) eqn:Hkey; [eauto|].
    exfalso.
    apply orb_false_iff in Hprov as [_ Hprov].
    apply negb_false_iff, bool_decide_eq_true in Hprov.
    apply is_empty_false in Hmodel, Hkey.
    destruct Hbad as [? | [? | ?]]; done.
  - intros Hprov Hmodel Hkey e Hreply lowered outcome.
    subst outcome lowered.
    rewrite generate_answer_remote, Hreply by done. simpl.
    unfold reclassify. cbv zeta.
    repeat split.
    + by intros ->.
    + by intros -> ->.
    + by intros -> ->.
Qed.

Lemma huggingface_supported : "huggingface" ∈ supported_providers.
Proof. apply list_elem_of_here. Qed.

Lemma openai_supported : "openai" ∈ supported_providers.
Proof. apply list_elem_of_further, list_elem_of_here. Qed.

Lemma generate_answer_errors_witness :
  (exists msg,
     generate_answer (H := demo_services) "q" ["c"] "anthropic" "m" "k"
     = ([], Raise (ValueError msg)))
  /\ snd (generate_answer (H := demo_services) "q" ["c"]
            "huggingface" "m" "k")
     = Raise (Exception "Rate limit exceeded. Try again later.")
  /\ snd (generate_answer (H := demo_services) "q" ["c"] "openai" "gpt-5" "k")
     = Raise (Exception "Model error: The model `gpt-5` does not exist").
Proof.
  pose proof (generate_answer_errors (H := demo_services)
                "q" ["c"] "anthropic" "m" "k") as [Hconfig _].
  pose proof (generate_answer_errors (H := demo_services)
                "q" ["c"] "huggingface" "m" "k") as [_ Hquota].
  pose proof (generate_answer_errors (H := demo_services)
                "q" ["c"] "openai" "gpt-5" "k") as [_ Hmodel].
  split; [|split].
  - apply Hconfig. left. apply (bool_decide_eq_false_1 _). reflexivity.
  - apply (Hquota huggingface_supported
                  ltac:(discriminate) ltac:(discriminate)
                  (Exception "429 Too Many Requests: Rate Limit reached")
                  eq_refl).
    reflexivity.
  - apply (Hmodel openai_supported
                  ltac:(discriminate) ltac:(discriminate)
                  (Exception "The model `gpt-5` does not exist")
                  eq_refl); reflexivity.
Defined.

(** ** The vector index: ranking *)

Lemma insert_hit_perm (h : Q * Z) (l : list (Q * Z)) :
  insert_hit h l ≡ₚ h :: l.
Proof.
  induction l as [|a l IH]; simpl; [done|].
  destruct (Qle_bool (fst a) (fst h)); [done|].
  rewrite IH. apply Permutation_swap.
Qed.

Lemma ranked_perm (xb : list vec) (q : vec) : ranked xb q ≡ₚ scored xb q.
Proof.
  unfold ranked. induction (scored xb q) as [|h l IH]; simpl; [done|].
  by rewrite insert_hit_perm, IH.
Qed.

Lemma insert_hit_sorted (h : Q * Z) (l : list (Q * Z)) :
  StronglySorted by_score l -> StronglySorted by_score (insert_hit h l).
Proof.
  induction l as [|a l IH]; intros Hsorted; simpl.
  - constructor; constructor.
  - apply StronglySorted_inv in Hsorted as [Hl Ha].
    destruct (Qle_bool (fst a) (fst h)) eqn:Hcmp.
    + apply Qle_bool_iff in Hcmp.
      constructor; [by constructor|].
      constructor; [done|].
      eapply Forall_impl; [exact Ha|].
      intros x Hx. unfold by_score in *. by eapply Qle_trans.
    + constructor; [by apply IH|].
      assert (Hlt : (fst h < fst a)%Q).
      { apply Qnot_le_lt. intros Hle.
        apply Qle_bool_iff in Hle. congruence. }
      rewrite Forall_forall. intros x Hx.
      rewrite insert_hit_perm in Hx.
      apply elem_of_cons in Hx as [->|Hx].
      * unfold by_score. by apply Qlt_le_weak.
      * rewrite Forall_forall in Ha. by apply Ha.
Qed.

Lemma ranked_sorted (xb : list vec) (q : vec) :
  StronglySorted by_score (ranked xb q).
Proof.
  unfold ranked. induction (scored xb q) as [|h l IH]; simpl.
  - constructor.
  - by apply insert_hit_sorted.
Qed.


Lemma ranked_length (xb : list vec) (q : vec) :
  length (ranked xb q) = length xb.
Proof.
  rewrite (Permutation_length (ranked_perm xb q)).
  unfold scored. apply length_imap.
Qed.

Lemma ranked_hit (xb : list vec) (q : vec) (h : Q * Z) :
  h ∈ ranked xb q ->
  exists (i : nat) v, xb !! i = Some v /\ h = (inner_product v q, Z.of_nat i).
Proof.
  rewrite ranked_perm. unfold scored.
  intros (i & v & -> & Hv)%elem_of_lookup_imap. eauto.
Qed.



(** ** Retrieval *)

Lemma filter_all {A} (P : A -> Prop) `{forall x, Decision (P x)}
    (l : list A) :
  Forall P l -> filter P l = l.
Proof.
  induction 1 as [|x l Hx Hl IH]; [done|].
  rewrite filter_cons_True by done. by rewrite IH.
Qed.

Lemma filter_none {A} (P : A -> Prop) `{forall x, Decision (P x)}
    (l : list A) :
  Forall (fun x => ~ P x) l -> filter P l = [].
Proof.
  induction 1 as [|x l Hx Hl IH]; [done|].
  by rewrite filter_cons_False.
Qed.

(** Dropping the label [-1] from a row of labels leaves the labels of the
    real hits. *)
Lemma search_row_labels (xb : list vec) (k : nat) (q : vec) :
  filter (fun i => i <> -1) (map snd (search_row xb k q))
  = map snd (take k (ranked xb q)).
Proof.
  unfold search_row. cbv zeta.
  rewrite map_app, filter_app.
  rewrite filter_all, filter_none.
  - apply app_nil_r.
  - rewrite Forall_forall. intros i Hi Hne. apply Hne.
    apply list_elem_of_fmap in Hi as (h & -> & Hh).
    by apply elem_of_replicate in Hh as [-> _].
  - rewrite Forall_forall. intros i Hi.
    apply list_elem_of_fmap in Hi as (h & -> & Hh).
    apply (subseteq_take k) in Hh.
    apply ranked_hit in Hh as (j & v & _ & ->). simpl. lia.
Qed.

Lemma traverse_getitem {A} `{Inhabited A} (l : list A) (labels : list Z) :
  Forall (fun i => 0 <= i < len l) labels ->
  traverse (py_getitem l) labels
  = Ok (map (fun i => l !!! Z.to_nat i) labels).
Proof.
  induction 1 as [|i labels Hi Hrest IH]; [done|].
  simpl. rewrite IH. unfold py_getitem.
  destruct (Z.ltb_spec i 0); [lia|].
  destruct (Z.leb_spec 0 i); [|lia].
  destruct (Z.ltb_spec i (len l)); [|lia]. simpl.
  unfold len in *.
  destruct (lookup_lt_is_Some_2 l (Z.to_nat i) ltac:(lia)) as [x Hx].
  rewrite Hx. simpl. by rewrite (list_lookup_total_correct _ _ _ Hx).
Qed.


Section Retrieve.
Context `{SentenceTransformers}.
Variables (query : string) (index : faiss_index) (chunks : list string).
Variables (top_k : Z) (embedding_model : string) (m : model).

Hypothesis model_loaded : get_embedding_model embedding_model = Ok m.
Hypothesis index_dim : index_d index = model_dim m.
Hypothesis index_rows : index_xb index = map (model_encode m) chunks.
Hypothesis top_k_pos : 0 < top_k.

Local Abbreviation hits :=
  (take (Z.to_nat top_k) (ranked (index_xb index) (model_encode m query))).
Local Abbreviation chunk_of := (fun i : Z => chunks !!! Z.to_nat i).

Lemma model_name_not_empty : is_empty embedding_model = false.
Proof.
  unfold get_embedding_model in model_loaded.
  by destruct (is_empty embedding_model).
Qed.

(** A hit carries the label of a chunk and the similarity of that chunk. *)
Lemma hit_chunk (h : Q * Z) :
  h ∈ hits ->
  exists c, 0 <= snd h < len chunks
            /\ chunks !! Z.to_nat (snd h) = Some c
            /\ chunk_of (snd h) = c
            /\ fst h = similarity m query c.
Proof.
  intros Hh. apply (subseteq_take (Z.to_nat top_k)) in Hh.
  apply ranked_hit in Hh as (i & v & Hv & ->).
  rewrite index_rows in Hv. rewrite list_lookup_fmap in Hv.
  destruct (chunks !! i) as [c|] eqn:Hc; [|done].
  injection Hv as <-. exists c. simpl. rewrite Nat2Z.id.
  repeat split; try done; try lia.
  - apply lookup_lt_Some in Hc. unfold len. lia.
  - by apply list_lookup_total_correct.
Qed.

Lemma retrieve_closed :
  retrieve query index chunks top_k embedding_model
  = Ok (map chunk_of (map snd hits)).
Proof.
  unfold retrieve, embed_texts.
  rewrite model_name_not_empty, model_loaded. simpl.
  unfold index_search. simpl. rewrite index_dim, Nat.eqb_refl. simpl.
  destruct (Z.ltb_spec 0 top_k); [|lia]. simpl.
  unfold py_getitem. simpl.
  rewrite search_row_labels.
  apply traverse_getitem.
  rewrite Forall_forall. intros i Hi.
  apply list_elem_of_fmap in Hi as (h & -> & Hh).
  by apply hit_chunk in Hh as (c & Hrange & _).
Qed.


Lemma hits_length :
  length hits = Nat.min (Z.to_nat top_k) (length chunks).
Proof.
  rewrite length_take, ranked_length, index_rows, length_map. done.
Qed.


End Retrieve.



Example retrieve_demo :
  retrieve (H := demo_transformers) "xyz"
    {| index_d := 2;
       index_xb := map (model_encode demo_model) ["aa"; "b"; "cccc"] |}
    ["aa"; "b"; "cccc"] 2 "m1" = Ok ["cccc"; "aa"]
  /\ retrieve (H := demo_transformers) "xyz"
       {| index_d := 2;
          index_xb := map (model_encode demo_model) ["aa"; "b"; "cccc"] |}
       ["aa"; "b"; "cccc"] 5 "m1" = Ok ["cccc"; "aa"; "b"].
Proof. split; vm_compute; reflexivity. Qed.

(** ** Paths *)

Lemma chars_app (a b : string) :
  list_ascii_of_string (a +:+ b)
  = list_ascii_of_string a ++ list_ascii_of_string b.
Proof. induction a as [|c a IH]; [done|]. simpl. by rewrite <- IH. Qed.

Lemma chars_inj (a b : string) :
  list_ascii_of_string a = list_ascii_of_string b -> a = b.
Proof.
  intros Heq.
  rewrite <- (string_of_list_ascii_of_string a),
          <- (string_of_list_ascii_of_string b).
  by rewrite Heq.
Qed.

Lemma app_inv_suffix (a b suffix : string) :
  a +:+ suffix = b +:+ suffix -> a = b.
Proof.
  intros Heq. apply chars_inj.
  apply (f_equal list_ascii_of_string) in Heq.
  rewrite !chars_app in Heq. by apply app_inv_tail in Heq.
Qed.

(** The last character of a text. *)
Lemma last_char_app (a b : string) (c : ascii) :
  last (list_ascii_of_string b) = Some c ->
  last (list_ascii_of_string (a +:+ b)) = Some c.
Proof. intros Hb. by rewrite chars_app, last_app, Hb. Qed.

(** [os.path.join] keeps its last component at the end. *)
Lemma path_join_suffix (a b : string) :
  exists front, path_join a b = front +:+ b.
Proof.
  unfold path_join.
  destruct (py_startswith b "/"); [by exists ""|].
  destruct (is_empty a || py_endswith a "/"); [by exists a|].
  exists (a +:+ "/"). apply chars_inj. rewrite !chars_app.
  by rewrite app_assoc.
Qed.

Lemma path_join_last (a id suffix : string) (c : ascii) :
  last (list_ascii_of_string suffix) = Some c ->
  last (list_ascii_of_string (path_join a (id +:+ suffix))) = Some c.
Proof.
  intros Hc. destruct (path_join_suffix a (id +:+ suffix)) as [front ->].
  by do 2 apply last_char_app.
Qed.

(** Files of different kinds never share a path. *)
Lemma path_join_kinds (a b id1 id2 suffix1 suffix2 : string) (c1 c2 : ascii) :
  last (list_ascii_of_string suffix1) = Some c1 ->
  last (list_ascii_of_string suffix2) = Some c2 ->
  c1 <> c2 ->
  path_join a (id1 +:+ suffix1) <> path_join b (id2 +:+ suffix2).
Proof.
  intros H1 H2 Hne Heq.
  pose proof (path_join_last a id1 suffix1 c1 H1) as Hl1.
  pose proof (path_join_last b id2 suffix2 c2 H2) as Hl2.
  rewrite Heq in Hl1. congruence.
Qed.

Lemma prefix_slash_cons (c : ascii) (s : string) :
  String.prefix "/" (String c s) = bool_decide (c = "/"%char).
Proof.
  change (String.prefix "/" (String c s))
    with (if ascii_dec "/"%char c then String.prefix "" s else false).
  destruct (ascii_dec "/"%char c) as [<-|Hne].
  - by destruct s.
  - by rewrite bool_decide_eq_false_2.
Qed.

Lemma prefix_slash_app (id suffix : string) :
  String.prefix "/" suffix = false ->
  String.prefix "/" (id +:+ suffix) = String.prefix "/" id.
Proof.
  intros Hs. destruct id as [|c id]; [done|].
  change (String c id +:+ suffix) with (String c (id +:+ suffix)).
  by rewrite !prefix_slash_cons.
Qed.

(** Inside the index directory the path determines the identifier. *)
Lemma index_dir_path_inj (id1 id2 suffix : string) :
  String.prefix "/" suffix = false ->
  path_join INDEX_DIR (id1 +:+ suffix) = path_join INDEX_DIR (id2 +:+ suffix) ->
  id1 = id2.
Proof.
  intros Hs. unfold path_join, py_startswith.
  rewrite !prefix_slash_app by done.
  change (is_empty INDEX_DIR || py_endswith INDEX_DIR "/") with false.
  cbv iota.
  destruct (String.prefix "/" id1) eqn:H1, (String.prefix "/" id2) eqn:H2;
    intros Heq.
  - by apply app_inv_suffix in Heq.
  - destruct id1 as [|c id1]; [done|]. rewrite prefix_slash_cons in H1.
    apply bool_decide_eq_true in H1 as ->. discriminate Heq.
  - destruct id2 as [|c id2]; [done|]. rewrite prefix_slash_cons in H2.
    apply bool_decide_eq_true in H2 as ->. discriminate Heq.
  - apply (inj (String.app INDEX_DIR)) in Heq.
    apply (inj (String.app "/")) in Heq.
    by apply app_inv_suffix in Heq.
Qed.

Lemma index_path_inj (id1 id2 : string) :
  path_join INDEX_DIR (id1 +:+ ".index") = path_join INDEX_DIR (id2 +:+ ".index")
  -> id1 = id2.
Proof. by apply index_dir_path_inj. Qed.

Lemma meta_path_inj (id1 id2 : string) :
  path_join INDEX_DIR (id1 +:+ "_meta.json")
  = path_join INDEX_DIR (id2 +:+ "_meta.json")
  -> id1 = id2.
Proof. by apply index_dir_path_inj. Qed.

Lemma index_path_not_meta (id1 id2 : string) :
  path_join INDEX_DIR (id1 +:+ ".index")
  <> path_join INDEX_DIR (id2 +:+ "_meta.json").
Proof. by apply (path_join_kinds _ _ _ _ _ _ "x" "n")%char. Qed.

Lemma index_path_not_pdf (id1 id2 : string) :
  path_join INDEX_DIR (id1 +:+ ".index")
  <> path_join UPLOAD_DIR (id2 +:+ ".pdf").
Proof. by apply (path_join_kinds _ _ _ _ _ _ "x" "f")%char. Qed.

Lemma meta_path_not_pdf (id1 id2 : string) :
  path_join INDEX_DIR (id1 +:+ "_meta.json")
  <> path_join UPLOAD_DIR (id2 +:+ ".pdf").
Proof. by apply (path_join_kinds _ _ _ _ _ _ "n" "f")%char. Qed.

(** ** Persisting an index *)

Lemma unflatten_concat (d : nat) (xb : list vec) :
  Forall (fun v => length v = d) xb ->
  unflatten d (length xb) (concat xb) = xb.
Proof.
  induction 1 as [|v xb Hv Hxb IH]; [done|].
  simpl. rewrite take_app_length', drop_app_length' by done.
  by rewrite IH.
Qed.

Lemma concat_length_rows (d : nat) (xb : list vec) :
  Forall (fun v => length v = d) xb ->
  length (concat xb) = (d * length xb)%nat.
Proof.
  induction 1 as [|v xb Hv Hxb IH]; simpl; [lia|].
  rewrite length_app, IH, Hv. lia.
Qed.

(** Reading back what [faiss.write_index] wrote yields the index. *)
Lemma read_write_index (index : faiss_index) :
  Forall (fun v => length v = index_d index) (index_xb index) ->
  read_index_blob (write_index_blob index) = Ok index.
Proof.
  intros Hrows. unfold read_index_blob, write_index_blob, ntotal. simpl.
  rewrite (concat_length_rows _ _ Hrows), Nat.eqb_refl.
  rewrite (unflatten_concat _ _ Hrows). by destruct index.
Qed.

(** ** Handlers: reasoning about sequencing *)

Lemma bind_inv {A B} (m : io A) (k : A -> io B) (st : state)
    (out : result B * state) :
  (m ≫= k) st = Some out ->
  (exists a st1, m st = Some (Ok a, st1) /\ k a st1 = Some out)
  \/ (exists e st1, m st = Some (Raise e, st1) /\ out = (Raise e, st1)).
Proof.
  unfold mbind, io_bind.
  destruct (m st) as [[[a|e] st1]|]; intros Hrun; [left|right|]; eauto.
  - injection Hrun as <-. eauto.
  - discriminate.
Qed.

Lemma try_except_inv {A} (body : io A) (handler : exn -> io A) (st : state)
    (out : result A * state) :
  try_except body handler st = Some out ->
  (exists a st1, body st = Some (Ok a, st1) /\ out = (Ok a, st1))
  \/ (exists e st1, body st = Some (Raise e, st1)
                    /\ handler e st1 = Some out).
Proof.
  unfold try_except.
  destruct (body st) as [[[a|e] st1]|]; intros Hrun; [left|right|]; eauto.
  - injection Hrun as <-. eauto.
  - discriminate.
Qed.

Lemma write_file_inv (path : string) (content : file)
    (outcome : write_outcome) (st : state) (r : result unit) (st' : state) :
  write_file path content outcome st = Some (r, st') ->
  documents_store st' = documents_store st
  /\ ((r = Ok tt /\ disk st' = <[path := content]> (disk st))
      \/ (exists e, r = Raise e
                    /\ (disk st' = disk st
                        \/ exists data,
                             disk st' = <[path := FileBytes data]> (disk st)))).
Proof.
  unfold write_file. destruct outcome as [|e [data|]]; intros [= <- <-];
    (split; [done|]).
  - by left.
  - right. exists e. split; [done|]. right. by exists data.
  - right. exists e. split; [done|]. by left.
Qed.

Lemma embed_texts_inv `{SentenceTransformers} (texts : list string)
    (model_name : string) (vectors : matrix) :
  embed_texts texts model_name = Ok vectors ->
  exists m, get_embedding_model model_name = Ok m
            /\ vectors = {| shape1 := model_dim m;
                            rows := map (model_encode m) texts |}.
Proof.
  unfold embed_texts. destruct (is_empty model_name); [done|].
  destruct (get_embedding_model model_name) as [m|e]; [|done].
  simpl. intros [= <-]. eauto.
Qed.

Lemma index_add_new (vectors : matrix) (index : faiss_index) :
  index_add (IndexFlatIP (shape1 vectors)) vectors = Ok index ->
  index = {| index_d := shape1 vectors; index_xb := rows vectors |}.
Proof.
  unfold index_add, IndexFlatIP. simpl. rewrite Nat.eqb_refl. simpl.
  by intros [= <-].
Qed.

Lemma embedded_rows_shape `{SentenceTransformers} (name : string) (m : model)
    (texts : list string) :
  get_embedding_model name = Ok m ->
  Forall (fun v => length v = model_dim m) (map (model_encode m) texts).
Proof.
  unfold get_embedding_model. destruct (is_empty name); [done|].
  intros Hload. rewrite Forall_forall. intros v Hv.
  apply list_elem_of_fmap in Hv as (text & -> & _).
  by eapply encode_shape.
Qed.

Lemma lift_inv {A} (r : result A) (st : state) (out : result A * state) :
  lift r st = Some out -> out = (r, st).
Proof. by intros [= <-]. Qed.

Lemma extract_text_state `{PdfReaders} (path : string) (st : state)
    (r : result string) (st' : state) :
  extract_text_from_pdf path st = Some (r, st') -> st' = st.
Proof.
  unfold extract_text_from_pdf, read_file, mbind, io_bind, lift, raise,
    mret, io_ret.
  destruct (disk st !! path) as [[data|blob|meta]|];
    try (by intros [= _ <-]).
  by destruct (PdfReader data); intros [= _ <-].
Qed.

Lemma chunk_text_default_inv `{Tokenizer} (text : string) (st : state)
    (r : result (list string)) (st' : state) :
  chunk_text_default text st = Some (r, st') ->
  st' = st
  /\ exists chunks,
       r = Ok chunks
       /\ chunk_text (S (length (encode text))) text
                     default_max_chunk_size default_overlap_size
          = Some chunks.
Proof.
  unfold chunk_text_default.
  destruct (chunk_text _ _ _ _) as [chunks|]; [|done].
  intros [= <- <-]. eauto.
Qed.

(** The failure that changes nothing. *)
Ltac nothing_changed :=
  right; eexists; split; [reflexivity|]; split; [reflexivity|];
  split; [reflexivity|]; by left.

Section Upload.
Context `{Tokenizer} `{SentenceTransformers} `{PdfReaders}.
Variables (env : upload_env) (filename content embedding_model : string).

Local Abbreviation u := (new_uuid env).
Local Abbreviation file_path := (path_join UPLOAD_DIR (new_uuid env +:+ ".pdf")).
Local Abbreviation index_path :=
  (path_join INDEX_DIR (new_uuid env +:+ ".index")).
Local Abbreviation meta_path :=
  (path_join INDEX_DIR (new_uuid env +:+ "_meta.json")).

(** What [process_pdf] leaves behind: on success the two files and the
    entry; on failure the registry as it was, at most the two files of
    the index directory touched, and no metadata record written. *)
Lemma process_pdf_outcome (embed_model : string) (st : state)
    (r : result UploadResponse) (st' : state) :
  process_pdf env filename file_path u embed_model st = Some (r, st') ->
  (exists m chunks,
     r = Ok (upload_response filename u chunks embed_model)
     /\ get_embedding_model embed_model = Ok m
     /\ chunks <> []
     /\ st' = {| documents_store :=
                   <[u := uploaded_document m filename u chunks embed_model]>
                     (documents_store st);
                 disk :=
                   <[meta_path :=
                       FileMeta {| meta_chunks := Some chunks;
                                   meta_embedding_model := Some embed_model |}]>
                     (<[index_path :=
                          FileIndex (write_index_blob (built_index m chunks))]>
                        (disk st)) |})
  \/ (exists e,
        r = Raise e
        /\ documents_store st' = documents_store st
        /\ (forall p, p <> index_path -> p <> meta_path ->
                      disk st' !! p = disk st !! p)
        /\ (disk st' !! meta_path = disk st !! meta_path
            \/ exists data, disk st' !! meta_path = Some (FileBytes data))).
Proof.
  intros Hrun. unfold process_pdf in Hrun.
  apply bind_inv in Hrun as [(text & st1 & Hext & Hrun)
                            | (e & st1 & Hext & [= -> ->])].
  2: { apply extract_text_state in Hext as ->. nothing_changed. }
  apply extract_text_state in Hext as ->.
  destruct (is_empty (py_strip text)).
  { injection Hrun as <- <-. nothing_changed. }
  apply bind_inv in Hrun as [(chunks & st1 & Hchunk & Hrun)
                            | (e & st1 & Hchunk & _)].
  2: { by apply chunk_text_default_inv in Hchunk as (_ & ? & ? & _). }
  apply chunk_text_default_inv in Hchunk as (-> & _ & _ & _).
  destruct (bool_decide (chunks = [])) eqn:Hnil.
  { injection Hrun as <- <-. nothing_changed. }
  apply bool_decide_eq_false in Hnil. cbv zeta in Hrun.
  apply bind_inv in Hrun as [(vectors & st1 & Hemb & Hrun)
                            | (e & st1 & Hemb & [= -> ->])].
  2: { apply lift_inv in Hemb as [= _ ->]. nothing_changed. }
  apply lift_inv in Hemb as [= Hvec ->].
  symmetry in Hvec. apply embed_texts_inv in Hvec as (m & Hload & ->).
  apply bind_inv in Hrun as [(index & st1 & Hadd & Hrun)
                            | (e & st1 & Hadd & [= -> ->])].
  2: { apply lift_inv in Hadd as [= _ ->]. nothing_changed. }
  apply lift_inv in Hadd as [= Hidx ->].
  symmetry in Hidx. apply index_add_new in Hidx as ->. simpl in Hrun.
  fold (built_index m chunks) in Hrun.
  apply bind_inv in Hrun as [([] & st1 & Hwi & Hrun)
                            | (e & st1 & Hwi & [= -> ->])].
  2: { apply write_file_inv in Hwi as (Hstore & [[? _] | (? & _ & Hdisk)]);
         [done|].
       right. exists e. split; [done|]. split; [done|].
       destruct Hdisk as [-> | [data ->]]; [eauto|].
       split.
       - intros p Hp _. by rewrite lookup_insert_ne.
       - left. rewrite lookup_insert_ne; [done|]. apply index_path_not_meta. }
  apply write_file_inv in Hwi as (Hstore1 & [[_ Hdisk1] | (? & ? & _)]);
    [|done].
  apply bind_inv in Hrun as [([] & st2 & Hwm & Hrun)
                            | (e & st2 & Hwm & [= -> ->])].
  2: { apply write_file_inv in Hwm as (Hstore & [[? _] | (? & _ & Hdisk)]);
         [done|].
       right. exists e. split; [done|]. split; [congruence|].
       destruct Hdisk as [-> | [data ->]]; rewrite Hdisk1.
       - split.
         + intros p Hp _. by rewrite lookup_insert_ne.
         + left. rewrite lookup_insert_ne; [done|]. apply index_path_not_meta.
       - split.
         + intros p Hp Hq. by rewrite !lookup_insert_ne.
         + right. exists data. by rewrite lookup_insert_eq. }
  apply write_file_inv in Hwm as (Hstore2 & [[_ Hdisk2] | (? & ? & _)]);
    [|done].
  injection Hrun as <- <-.
  left. exists m, chunks. split; [done|]. split; [done|].
  split; [done|]. unfold uploaded_document.
  by rewrite Hstore2, Hstore1, Hdisk2, Hdisk1.
Qed.

(** The state once the incoming file is saved. *)
Local Abbreviation saved st :=
  {| documents_store := documents_store st;
     disk := <[file_path := FileBytes content]> (disk st) |}.

(** The ways [upload_pdf] can end: a request refused before anything is
    written; the file not saved; or the file saved and [process_pdf] run,
    whose result is returned, raised again when it is an [HTTPException],
    and otherwise answered by removing the saved file. *)
Lemma upload_pdf_cases (st : state) (r : result UploadResponse)
    (st' : state) :
  upload_pdf env filename content embedding_model st = Some (r, st') ->
  (exists msg, r = Raise (HTTPException 400 msg) /\ st' = st)
  \/ (exists e0,
        r = Raise (HTTPException 500 ("Failed to save file: " +:+ str_exn e0))
        /\ documents_store st' = documents_store st
        /\ (disk st' = disk st
            \/ exists data,
                 disk st' = <[file_path := FileBytes data]> (disk st)))
  \/ (exists r0 st0,
        process_pdf env filename file_path u (py_strip embedding_model)
                    (saved st) = Some (r0, st0)
        /\ ((exists resp, r0 = Ok resp /\ r = Ok resp /\ st' = st0)
            \/ (exists e, r0 = Raise e /\ is_http e = true
                          /\ r = Raise e /\ st' = st0)
            \/ (exists e,
                  r0 = Raise e /\ is_http e = false
                  /\ r = Raise (HTTPException 500
                                  ("Failed to process PDF: " +:+ str_exn e))
                  /\ st' = {| documents_store := documents_store st0;
                              disk := delete file_path (disk st0) |}))).
Proof.
  unfold upload_pdf.
  destruct (negb (py_endswith (py_lower filename) ".pdf")).
  { intros [= <- <-]. left. eauto. }
  destruct (is_empty embedding_model || is_empty (py_strip embedding_model)).
  { intros [= <- <-]. left. eauto. }
  cbv zeta. intros Hrun. right.
  apply bind_inv in Hrun as [([] & st1 & Hsave & Hrun)
                            | (e & st1 & Hsave & [= -> ->])].
  - right.
    apply try_except_inv in Hsave as [(? & ? & Hw & [= <- <-])
                                     | (e & ? & _ & [=])].
    apply write_file_inv in Hw as (Hstore & [[_ Hdisk] | (? & ? & _)]);
      [|done].
    assert (Hst1 : st1 = saved st).
    { destruct st1. simpl in *. by subst. }
    subst st1.
    apply try_except_inv in Hrun as [(resp & st0 & Hbody & [= -> ->])
                                    | (e & st0 & Hbody & Hhandler)].
    + exists (Ok resp), st0. split; [done|]. left. eauto.
    + exists (Raise e), st0. split; [done|]. right.
      destruct (is_http e) eqn:Hhttp.
      * injection Hhandler as <- <-. left. eauto.
      * right. exists e. split; [done|]. split; [done|].
        unfold mbind, io_bind, path_exists, os_remove, raise, mret, io_ret
          in Hhandler.
        destruct (bool_decide (is_Some (disk st0 !! file_path))) eqn:Hthere;
          injection Hhandler as <- <-; [done|].
        split; [done|]. destruct st0 as [store0 disk0]. simpl in *.
        f_equal. symmetry. apply delete_id.
        apply bool_decide_eq_false in Hthere.
        by apply eq_None_not_Some.
  - left.
    apply try_except_inv in Hsave as [(? & ? & _ & [=])
                                     | (e0 & st0 & Hw & [= <- <-])].
    apply write_file_inv in Hw as (Hstore & [[? _] | (? & _ & Hdisk)]);
      [done|].
    exists e0. eauto.
Qed.

End Upload.

(** ** Upload: what a failure leaves behind *)

Section UploadFailure.
Context `{Tokenizer} `{SentenceTransformers} `{PdfReaders}.
Variables (env : upload_env) (filename content embedding_model : string).

Local Abbreviation file_path := (path_join UPLOAD_DIR (new_uuid env +:+ ".pdf")).


(** After a failed upload the file of the new identifier is still there
    only if the request was refused before anything was written, if saving
    itself failed, or if [process_pdf] raised an [HTTPException]: every
    other failure of [process_pdf] removes the saved file. *)
Lemma upload_failure_file_left (st : state) (e : exn) (st' : state) :
  upload_pdf env filename content embedding_model st = Some (Raise e, st') ->
  is_Some (disk st' !! file_path) ->
  st' = st
  \/ (exists e0,
        e = HTTPException 500 ("Failed to save file: " +:+ str_exn e0))
  \/ (is_http e = true
      /\ process_pdf env filename file_path (new_uuid env)
                     (py_strip embedding_model)
                     {| documents_store := documents_store st;
                        disk := <[file_path := FileBytes content]> (disk st) |}
         = Some (Raise e, st')).
Proof.
  intros Hrun Hleft.
  apply upload_pdf_cases in Hrun
    as [(msg & _ & ->) | [(e0 & [= ->] & _) | (r0 & st0 & Hbody & Hend)]].
  - by left.
  - right. left. by exists e0.
  - destruct Hend as [(? & _ & [=] & _)
                     | [(e1 & -> & Hhttp & [= <-] & ->)
                       | (e1 & _ & _ & _ & ->)]].
    + right. right. done.
    + simpl in Hleft. rewrite lookup_delete_eq in Hleft.
      by destruct Hleft.
Qed.

End UploadFailure.

(** C2, where the code departs from it.  A file is saved, the reader finds
    no text in it, and [upload_pdf] raises the 400 error of that case with
    the saved file still in place; nothing is registered. *)
Theorem upload_without_text_keeps_file `{Tokenizer} `{SentenceTransformers}
    `{PdfReaders} (env : upload_env) (filename content embedding_model : string)
    (pages : list (option string)) (st : state) :
  py_endswith (py_lower filename) ".pdf" = true ->
  is_empty (py_strip embedding_model) = false ->
  save_outcome env = Written ->
  PdfReader content = Ok pages ->
  is_empty (py_strip (py_join " " (py_split
              (py_join " " (map (default "") pages))))) = true ->
  upload_pdf env filename content embedding_model st
  = Some (Raise (HTTPException 400 "Could not extract text from PDF"),
          {| documents_store := documents_store st;
             disk := <[path_join UPLOAD_DIR (new_uuid env +:+ ".pdf")
                         := FileBytes content]> (disk st) |}).
Proof.
  intros Hpdf Hmodel Hsave Hpages Hblank. unfold upload_pdf.
  rewrite Hpdf. simpl.
  assert (Hne : is_empty embedding_model = false).
  { destruct embedding_model; [done|done]. }
  rewrite Hne, Hmodel. simpl.
  unfold mbind, io_bind, try_except, write_file. rewrite Hsave.
  unfold process_pdf, extract_text_from_pdf, read_file, mbind, io_bind.
  simpl. rewrite lookup_insert_eq. unfold lift. rewrite Hpages.
  unfold mret, io_ret. cbv zeta. rewrite Hblank. reflexivity.
Qed.

Lemma upload_without_text_keeps_file_witness :
  upload_pdf (H := byte_tokenizer) (H0 := demo_transformers)
    (H1 := demo_reader) demo_env "scan.pdf" "%PDF  " "m1" initial_state
  = Some (Raise (HTTPException 400 "Could not extract text from PDF"),
          {| documents_store := ∅;
             disk := <["uploads/0f8fad5b-d9cb-469f-a165-70867728950e.pdf"
                         := FileBytes "%PDF  "]> ∅ |}).
Proof.
  exact (upload_without_text_keeps_file (H := byte_tokenizer)
           (H0 := demo_transformers) (H1 := demo_reader)
           demo_env "scan.pdf" "%PDF  " "m1" [Some "  "] initial_state
           eq_refl eq_refl eq_refl eq_refl eq_refl).
Defined.

(** ** Reload and chat *)

Section Reload.
Variable document_id : string.

Local Abbreviation index_path :=
  (path_join INDEX_DIR (document_id +:+ ".index")).
Local Abbreviation meta_path :=
  (path_join INDEX_DIR (document_id +:+ "_meta.json")).

(** With one of the two files missing the reload ends in the not-found
    error and changes nothing. *)
Lemma load_document_missing (st : state) :
  disk st !! index_path = None \/ disk st !! meta_path = None ->
  load_document document_id st = Some (Raise document_not_found, st).
Proof.
  intros Hmissing. unfold load_document, mbind, io_bind, path_exists.
  cbv zeta.
  destruct Hmissing as [Hnone | Hnone]; rewrite Hnone.
  - rewrite bool_decide_eq_false_2 by (by intros [? ?]). done.
  - rewrite (bool_decide_eq_false_2 (is_Some None)) by (by intros [? ?]).
    by rewrite orb_true_r.
Qed.

(** The reload either fails and changes nothing, or registers under the
    identifier the index it read, the chunks of the metadata record and
    the model name that record holds. *)
Lemma load_document_outcome (st : state) (r : result unit) (st' : state) :
  load_document document_id st = Some (r, st') ->
  (exists e, r = Raise e /\ st' = st)
  \/ (exists blob meta index embed_model,
        r = Ok tt
        /\ disk st !! index_path = Some (FileIndex blob)
        /\ disk st !! meta_path = Some (FileMeta meta)
        /\ read_index_blob blob = Ok index
        /\ meta_embedding_model meta = Some embed_model
        /\ is_empty embed_model = false
        /\ st' = {| documents_store :=
                      <[document_id :=
                          reloaded_document index meta embed_model]>
                        (documents_store st);
                    disk := disk st |}).
Proof.
  unfold load_document, mbind, io_bind, path_exists, try_except,
    faiss_read_index, json_load, read_file, mbind, io_bind, lift, raise,
    mret, io_ret, store_set.
  cbv zeta.
  destruct (disk st !! index_path) as [fi|] eqn:Hfi.
  2: { rewrite bool_decide_eq_false_2 by (by intros [? ?]). simpl.
       intros [= <- <-]. left. eauto. }
  destruct (disk st !! meta_path) as [fm|] eqn:Hfm.
  2: { rewrite (bool_decide_eq_false_2 (is_Some None)) by (by intros [? ?]).
       rewrite orb_true_r. intros [= <- <-]. left. eauto. }
  rewrite !bool_decide_eq_true_2 by eauto. simpl. rewrite Hfi.
  destruct fi as [data|blob|meta0]; simpl;
    try (intros [= <- <-]; left; eauto; fail).
  destruct (read_index_blob blob) as [index|e] eqn:Hread; simpl.
  2: { destruct (is_http e); intros [= <- <-]; left; eauto. }
  rewrite Hfm.
  destruct fm as [data|blob0|meta]; simpl;
    try (intros [= <- <-]; left; eauto; fail).
  destruct (meta_embedding_model meta) as [embed_model|] eqn:Hmodel; simpl.
  2: { intros [= <- <-]. left. eauto. }
  destruct (is_empty embed_model) eqn:Hempty; simpl.
  { intros [= <- <-]. left. eauto. }
  intros [= <- <-]. right. exists blob, meta, index, embed_model.
  repeat split; done.
Qed.

End Reload.

Section Chat.
Context `{SentenceTransformers} `{ChatServices}.
Variable request : ChatRequest.

Local Abbreviation id := (chat_document_id request).

(** An accepted request for an entry of the registry is answered from that
    entry; the state stays as it is. *)
Lemma chat_known (st : state) (doc : document) :
  request_refusal request = None ->
  documents_store st !! id = Some doc ->
  chat request st = Some (answer_request request doc, st).
Proof.
  intros Hok Hdoc. unfold chat. rewrite Hok.
  unfold mbind, io_bind, store_mem, store_get, lift, mret, io_ret.
  rewrite Hdoc. rewrite bool_decide_eq_true_2 by eauto. simpl.
  by rewrite Hdoc.
Qed.

(** An accepted request for an identifier the registry does not hold goes
    through the reload. *)
Lemma chat_unknown (st : state) :
  request_refusal request = None ->
  documents_store st !! id = None ->
  chat request st
  = match load_document id st with
    | None => None
    | Some (Raise e, st') => Some (Raise e, st')
    | Some (Ok _, st') =>
        match documents_store st' !! id with
        | Some doc => Some (answer_request request doc, st')
        | None => Some (Raise (Exception id), st')
        end
    end.
Proof.
  intros Hok Hdoc. unfold chat. rewrite Hok.
  unfold mbind, io_bind, store_mem, store_get, lift, mret, io_ret.
  rewrite Hdoc. rewrite bool_decide_eq_false_2 by (by intros [? ?]).
  destruct (load_document id st) as [[[[]|e] st']|]; [|done|done].
  by destruct (documents_store st' !! id).
Qed.

(** [chat] always returns, and never touches the files. *)
Lemma chat_cases (st : state) :
  exists r st', chat request st = Some (r, st') /\ disk st' = disk st
    /\ (documents_store st' = documents_store st
        \/ exists blob meta index embed_model,
             documents_store st !! id = None
             /\ disk st !! path_join INDEX_DIR (id +:+ ".index")
                = Some (FileIndex blob)
             /\ disk st !! path_join INDEX_DIR (id +:+ "_meta.json")
                = Some (FileMeta meta)
             /\ read_index_blob blob = Ok index
             /\ meta_embedding_model meta = Some embed_model
             /\ is_empty embed_model = false
             /\ documents_store st'
                = <[id := reloaded_document index meta embed_model]>
                    (documents_store st)
             /\ r = answer_request request
                      (reloaded_document index meta embed_model)).
Proof.
  destruct (request_refusal request) as [e|] eqn:Hok.
  { exists (Raise e), st. unfold chat. rewrite Hok. eauto. }
  destruct (documents_store st !! id) as [doc|] eqn:Hdoc.
  { exists (answer_request request doc), st.
    rewrite (chat_known st doc) by done. eauto. }
  rewrite (chat_unknown st) by done.
  destruct (load_document id st) as [[r st']|] eqn:Hload.
  2: { exfalso. revert Hload.
       unfold load_document, mbind, io_bind, path_exists, try_except,
         faiss_read_index, json_load, read_file, mbind, io_bind, lift, raise,
         mret, io_ret, store_set.
       cbv zeta. repeat case_match; discriminate. }
  apply load_document_outcome in Hload
    as [(e & -> & ->)
       | (blob & meta & index & em & -> & Hfi & Hfm & Hread & Hm & Hne & ->)].
  - exists (Raise e), st. eauto.
  - simpl. rewrite lookup_insert_eq. do 2 eexists.
    split; [done|]. split; [done|]. right.
    exists blob, meta, index, em. repeat split; done.
Qed.

End Chat.

(** ** Delete *)

Lemma remove_round (path : option string) (st : state) :
  match path with
  | Some p =>
      if is_empty p then mret tt
      else
        present ← path_exists p;
        if present : bool then os_remove p else mret tt
  | None => mret tt
  end st
  = Some (Ok tt, {| documents_store := documents_store st;
                    disk := remove_path path (disk st) |}).
Proof.
  destruct st as [store fs].
  destruct path as [p|]; [|done]. simpl.
  destruct (is_empty p); [done|].
  unfold mbind, io_bind, path_exists, os_remove, mret, io_ret. simpl.
  destruct (fs !! p) as [f|] eqn:Hp.
  - by rewrite bool_decide_eq_true_2 by eauto.
  - rewrite bool_decide_eq_false_2 by (by intros [? ?]).
    by rewrite delete_id.
Qed.

Lemma bind_ok_step {A B} (m : io A) (k : A -> io B) (st : state) (a : A)
    (st1 : state) :
  m st = Some (Ok a, st1) -> (m ≫= k) st = k a st1.
Proof. intros Hm. unfold mbind, io_bind. by rewrite Hm. Qed.

(** Deleting an entry of the registry removes the files under the paths
    the entry stores, then the entry. *)
Lemma delete_document_known (document_id : string) (doc : document)
    (st : state) :
  documents_store st !! document_id = Some doc ->
  delete_document document_id st
  = Some (Ok "Document deleted",
          {| documents_store := delete document_id (documents_store st);
             disk := remove_path (doc_meta_path doc)
                       (remove_path (doc_index_path doc)
                          (remove_path (doc_file_path doc) (disk st))) |}).
Proof.
  intros Hdoc. unfold delete_document, path_keys, for_each.
  erewrite bind_ok_step;
    [|unfold store_mem; by rewrite Hdoc, bool_decide_eq_true_2 by eauto].
  simpl.
  erewrite bind_ok_step; [|unfold store_get; by rewrite Hdoc].
  erewrite bind_ok_step;
    [|do 3 (erewrite bind_ok_step; [|apply remove_round]); reflexivity].
  reflexivity.
Qed.

Lemma delete_document_unknown (document_id : string) (st : state) :
  documents_store st !! document_id = None ->
  delete_document document_id st = Some (Raise document_not_found, st).
Proof.
  intros Hdoc. unfold delete_document, mbind, io_bind, store_mem.
  rewrite Hdoc, bool_decide_eq_false_2 by (by intros [? ?]). done.
Qed.

Lemma remove_path_other (path : option string) (fs : gmap string file)
    (p : string) :
  path <> Some p -> remove_path path fs !! p = fs !! p.
Proof.
  intros Hne. destruct path as [q|]; [|done]. simpl.
  destruct (is_empty q); [done|].
  apply lookup_delete_ne. congruence.
Qed.

Lemma remove_path_shrinks (path : option string) (fs : gmap string file)
    (p : string) (f : file) :
  remove_path path fs !! p = Some f -> fs !! p = Some f.
Proof.
  destruct path as [q|]; [|done]. simpl.
  destruct (is_empty q); [done|].
  intros Hp. by apply lookup_delete_Some in Hp as [_ Hp].
Qed.



Example chat_after_restart :
  exists st',
    chat (H := demo_transformers) (H0 := demo_services) demo_request
         demo_persisted
    = Some (Ok {| resp_answer := "It is in the first passage.";
                  resp_sources := ["alpha"; "be"];
                  resp_model_used := "gpt-4o-mini";
                  resp_provider := "openai" |}, st')
    /\ (doc_embedding_model <$> documents_store st' !! "doc-1") = Some "m1".
Proof. eexists. split; vm_compute; reflexivity. Qed.

(** C10: [delete_document] changes a file only under a path the entry
    stores.  An entry the reload of [chat] has registered stores no path:
    deleting it removes the entry and leaves every file, the index file
    and the metadata file included, as it was.  For an identifier the
    registry does not hold, whatever the files, [delete_document] ends in
    the not-found error and changes nothing. *)
Theorem delete_document_frame `{SentenceTransformers} `{ChatServices} :
  (forall document_id st r st' p,
     delete_document document_id st = Some (r, st') ->
     disk st' !! p <> disk st !! p ->
     exists doc,
       documents_store st !! document_id = Some doc
       /\ (doc_file_path doc = Some p \/ doc_index_path doc = Some p
           \/ doc_meta_path doc = Some p))
  /\ (forall request st r st' doc,
        documents_store st !! chat_document_id request = None ->
        chat request st = Some (r, st') ->
        documents_store st' !! chat_document_id request = Some doc ->
        doc_file_path doc = None /\ doc_index_path doc = None
        /\ doc_meta_path doc = None
        /\ is_Some (disk st' !! path_join INDEX_DIR
                                  (chat_document_id request +:+ ".index"))
        /\ is_Some (disk st' !! path_join INDEX_DIR
                                  (chat_document_id request +:+ "_meta.json"))
        /\ delete_document (chat_document_id request) st'
           = Some (Ok "Document deleted",
                   {| documents_store :=
                        delete (chat_document_id request)
                               (documents_store st');
                      disk := disk st' |}))
  /\ (forall document_id st,
        documents_store st !! document_id = None ->
        delete_document document_id st
        = Some (Raise document_not_found, st)).
Proof.
  split; [|split].
  - intros document_id st r st' p Hrun Hchanged.
    destruct (documents_store st !! document_id) as [doc|] eqn:Hdoc.
    + exists doc. split; [done|].
      rewrite (delete_document_known _ _ _ Hdoc) in Hrun.
      injection Hrun as _ <-. simpl in Hchanged.
      destruct (decide (doc_file_path doc = Some p)); [by left|].
      destruct (decide (doc_index_path doc = Some p)); [by right; left|].
      destruct (decide (doc_meta_path doc = Some p)); [by right; right|].
      by rewrite !remove_path_other in Hchanged.
    + rewrite (delete_document_unknown _ _ Hdoc) in Hrun.
      by injection Hrun as _ <-.
  - intros request st r st' doc Hnew Hrun Hdoc.
    destruct (chat_cases request st) as (r0 & st0 & Hrun0 & Hdisk & Hstore).
    rewrite Hrun in Hrun0. injection Hrun0 as <- <-.
    destruct Hstore as [Hsame | (blob & meta & index & em & _ & Hfi & Hfm
                                 & _ & _ & _ & Hstore & _)].
    { rewrite Hsame, Hnew in Hdoc. discriminate. }
    rewrite Hstore, lookup_insert_eq in Hdoc. injection Hdoc as <-.
    split; [done|]. split; [done|]. split; [done|].
    split; [by rewrite Hdisk, Hfi|]. split; [by rewrite Hdisk, Hfm|].
    erewrite delete_document_known by (by rewrite Hstore, lookup_insert_eq).
    reflexivity.
  - intros document_id st Hnew. by apply delete_document_unknown.
Qed.

Lemma delete_document_frame_witness :
  exists r st',
    chat (H := demo_transformers) (H0 := demo_services) demo_request
         demo_persisted = Some (r, st')
    /\ disk st' = disk demo_persisted
    /\ delete_document "doc-1" st'
       = Some (Ok "Document deleted",
               {| documents_store := delete "doc-1" (documents_store st');
                  disk := disk st' |}).
Proof.
  destruct (chat_cases (H := demo_transformers) (H0 := demo_services)
              demo_request demo_persisted)
    as (r & st' & Hrun & Hdisk & _).
  exists r, st'. split; [exact Hrun|]. split; [exact Hdisk|].
  destruct (delete_document_frame (H := demo_transformers)
              (H0 := demo_services)) as (_ & Hreload & _).
  refine (proj2 (proj2 (proj2 (proj2 (proj2
            (Hreload demo_request demo_persisted r st'
               (reloaded_document demo_index
                  {| meta_chunks := Some ["alpha"; "be"];
                     meta_embedding_model := Some "m1" |} "m1")
               eq_refl Hrun _)))))).
  revert Hrun. vm_compute. intros [= _ <-]. reflexivity.
Defined.

(** ** Persist and reload *)

Lemma load_document_persisted (document_id : string) (st : state)
    (blob : index_blob) (meta : metadata) (index : faiss_index)
    (embed_model : string) :
  disk st !! path_join INDEX_DIR (document_id +:+ ".index")
    = Some (FileIndex blob) ->
  disk st !! path_join INDEX_DIR (document_id +:+ "_meta.json")
    = Some (FileMeta meta) ->
  read_index_blob blob = Ok index ->
  meta_embedding_model meta = Some embed_model ->
  is_empty embed_model = false ->
  load_document document_id st
  = Some (Ok tt,
          {| documents_store :=
               <[document_id := reloaded_document index meta embed_model]>
                 (documents_store st);
             disk := disk st |}).
Proof.
  intros Hfi Hfm Hread Hmodel Hne.
  unfold load_document, mbind, io_bind, path_exists, try_except,
    faiss_read_index, json_load, read_file, mbind, io_bind, lift, raise,
    mret, io_ret, store_set.
  cbv zeta. rewrite Hfi, Hfm.
  rewrite !bool_decide_eq_true_2 by eauto. simpl.
  rewrite Hfi, Hread. simpl. rewrite Hfm. simpl.
  by rewrite Hmodel, Hne.
Qed.

Lemma loaded_model_name `{SentenceTransformers} (name : string) (m : model) :
  get_embedding_model name = Ok m -> is_empty name = false.
Proof. unfold get_embedding_model. by destruct (is_empty name). Qed.

(** What a successful upload leaves: the three files and the entry. *)
Lemma upload_pdf_success `{Tokenizer} `{SentenceTransformers} `{PdfReaders}
    (env : upload_env) (filename content embedding_model : string)
    (st : state) (resp : UploadResponse) (st' : state) :
  upload_pdf env filename content embedding_model st = Some (Ok resp, st') ->
  exists m chunks,
    get_embedding_model (py_strip embedding_model) = Ok m
    /\ chunks <> []
    /\ resp = upload_response filename (new_uuid env) chunks
                              (py_strip embedding_model)
    /\ st' = {| documents_store :=
                  <[new_uuid env :=
                      uploaded_document m filename (new_uuid env) chunks
                                        (py_strip embedding_model)]>
                    (documents_store st);
                disk :=
                  <[path_join INDEX_DIR (new_uuid env +:+ "_meta.json") :=
                      FileMeta
                        {| meta_chunks := Some chunks;
                           meta_embedding_model :=
                             Some (py_strip embedding_model) |}]>
                    (<[path_join INDEX_DIR (new_uuid env +:+ ".index") :=
                         FileIndex (write_index_blob (built_index m chunks))]>
                       (<[path_join UPLOAD_DIR (new_uuid env +:+ ".pdf") :=
                            FileBytes content]> (disk st))) |}.
Proof.
  intros Hrun.
  apply upload_pdf_cases in Hrun
    as [(msg & [=] & _) | [(e0 & [=] & _) | (r0 & st0 & Hbody & Hend)]].
  destruct Hend as [(resp0 & -> & [= <-] & ->)
                   | [(e & _ & _ & [=] & _) | (e & _ & _ & [=] & _)]].
  apply process_pdf_outcome in Hbody
    as [(m & chunks & [= ->] & Hload & Hne & ->) | (e & [=] & _)].
  exists m, chunks. done.
Qed.

Lemma built_index_shape `{SentenceTransformers} (name : string) (m : model)
    (chunks : list string) :
  get_embedding_model name = Ok m ->
  Forall (fun v => length v = index_d (built_index m chunks))
         (index_xb (built_index m chunks)).
Proof. intros Hload. simpl. by eapply embedded_rows_shape. Qed.

(** C6: persisting an index and loading it again gives the index back, so
    every search on the loaded index returns what the same search returns
    on the index before (labels, order and scores).  This holds for the
    index built from any matrix of vectors, and across the service: after a
    successful upload and a restart, an accepted [chat] request for the
    document reloads an entry with the index, the chunks and the model name
    of the entry the upload had registered, so retrieval returns the same
    chunks in the same order. *)
Theorem persist_reload_round_trip `{Tokenizer} `{SentenceTransformers}
    `{PdfReaders} `{ChatServices} :
  (forall (vectors : matrix) (index : faiss_index),
     Forall (fun v => length v = shape1 vectors) (rows vectors) ->
     index_add (IndexFlatIP (shape1 vectors)) vectors = Ok index ->
     exists loaded,
       read_index_blob (write_index_blob index) = Ok loaded
       /\ forall x k, index_search loaded x k = index_search index x k)
  /\ (forall env filename content embedding_model st resp st' request,
        upload_pdf env filename content embedding_model st
        = Some (Ok resp, st') ->
        request_refusal request = None ->
        chat_document_id request = up_document_id resp ->
        exists doc doc' st'',
          documents_store st' !! up_document_id resp = Some doc
          /\ chat request (restart st')
             = Some (answer_request request doc', st'')
          /\ documents_store st'' !! up_document_id resp = Some doc'
          /\ doc_index doc' = doc_index doc
          /\ doc_chunks doc' = doc_chunks doc
          /\ doc_embedding_model doc' = doc_embedding_model doc
          /\ (forall x k, index_search (doc_index doc') x k
                          = index_search (doc_index doc) x k)
          /\ answer_request request doc' = answer_request request doc).
Proof.
  split.
  - intros vectors index Hshape Hadd.
    apply index_add_new in Hadd as ->.
    exists {| index_d := shape1 vectors; index_xb := rows vectors |}.
    split; [by apply read_write_index | done].
  - intros env filename content embedding_model st resp st' request
           Hrun Hok Hid.
    apply upload_pdf_success in Hrun
      as (m & chunks & Hload & Hne & -> & ->).
    simpl in Hid. simpl.
    set (doc := uploaded_document m filename (new_uuid env) chunks
                                  (py_strip embedding_model)).
    set (meta := {| meta_chunks := Some chunks;
                    meta_embedding_model :=
                      Some (py_strip embedding_model) |}).
    exists doc, (reloaded_document (built_index m chunks) meta
                   (py_strip embedding_model)).
    eexists. split; [apply lookup_insert_eq|].
    split.
    { rewrite chat_unknown; [|done|apply lookup_empty].
      rewrite Hid.
      erewrite (load_document_persisted (new_uuid env) _ _ meta
                  (built_index m chunks) (py_strip embedding_model)).
      - simpl. rewrite lookup_insert_eq. reflexivity.
      - simpl. rewrite lookup_insert_ne by (symmetry; apply index_path_not_meta).
        apply lookup_insert_eq.
      - simpl. apply lookup_insert_eq.
      - apply read_write_index. by eapply built_index_shape.
      - done.
      - by eapply loaded_model_name. }
    split; [apply lookup_insert_eq|].
    repeat split; done.
Qed.

Lemma persist_reload_round_trip_witness :
  (exists loaded,
     read_index_blob
       (write_index_blob {| index_d := 2;
                            index_xb := [[1; 0]; [0; 1]]%Q |}) = Ok loaded
     /\ forall x k,
          index_search loaded x k
          = index_search {| index_d := 2;
                            index_xb := [[1; 0]; [0; 1]]%Q |} x k)
  /\ exists resp st' doc doc' st'',
       upload_pdf (H := byte_tokenizer) (H0 := demo_transformers)
         (H1 := demo_reader) demo_env "paper.pdf" "%PDFhello world" "m1"
         initial_state = Some (Ok resp, st')
       /\ documents_store st' !! up_document_id resp = Some doc
       /\ chat (H := demo_transformers) (H0 := demo_services)
            {| chat_document_id := up_document_id resp;
               chat_query := "hello"; chat_top_k := 1;
               chat_provider := "openai"; chat_llm_model := "gpt-4o-mini";
               chat_api_key := "k" |} (restart st')
          = Some (answer_request (H := demo_transformers)
                    (H0 := demo_services)
                    {| chat_document_id := up_document_id resp;
                       chat_query := "hello"; chat_top_k := 1;
                       chat_provider := "openai";
                       chat_llm_model := "gpt-4o-mini";
                       chat_api_key := "k" |} doc', st'')
       /\ doc_index doc' = doc_index doc.
Proof.
  destruct (persist_reload_round_trip (H := byte_tokenizer)
              (H0 := demo_transformers) (H1 := demo_reader)
              (H2 := demo_services)) as [Hblob Hservice].
  split.
  - apply (Hblob {| shape1 := 2; rows := [[1; 0]; [0; 1]]%Q |}).
    + repeat constructor.
    + reflexivity.
  - destruct (upload_pdf (H := byte_tokenizer) (H0 := demo_transformers)
                (H1 := demo_reader) demo_env "paper.pdf" "%PDFhello world"
                "m1" initial_state) as [[[resp|e] st']|] eqn:Hup.
    + destruct (Hservice demo_env "paper.pdf" "%PDFhello world" "m1"
                  initial_state resp st'
                  {| chat_document_id := up_document_id resp;
                     chat_query := "hello"; chat_top_k := 1;
                     chat_provider := "openai";
                     chat_llm_model := "gpt-4o-mini";
                     chat_api_key := "k" |} Hup eq_refl eq_refl)
        as (doc & doc' & st'' & Hdoc & Hchat & _ & Hindex & _).
      exists resp, st', doc, doc', st''. by repeat split.
    + vm_compute in Hup. discriminate.
    + vm_compute in Hup. discriminate.
Defined.

(** ** The alignment of chunks and rows *)

Section Alignment.
Context `{Tokenizer} `{SentenceTransformers} `{PdfReaders} `{ChatServices}.

Lemma built_index_aligned (name : string) (m : model)
    (chunks : list string) :
  get_embedding_model name = Ok m -> aligned name chunks (built_index m chunks).
Proof. intros Hload. by exists m. Qed.

(** Entries and files that only disappear keep the alignment. *)
Lemma alignment_shrink (st st' : state) :
  alignment st ->
  (forall id doc, documents_store st' !! id = Some doc ->
                  documents_store st !! id = Some doc) ->
  (forall p f, disk st' !! p = Some f -> disk st !! p = Some f) ->
  alignment st'.
Proof.
  intros (Hreg & Hfiles & Hmatch) Hstore Hdisk. split; [|split].
  - intros id doc Hdoc. eapply Hreg. by apply Hstore.
  - intros id blob meta index em Hfi Hfm. eapply Hfiles; by apply Hdisk.
  - intros id doc meta Hdoc Hfm. eapply Hmatch; [by apply Hstore|].
    by apply Hdisk.
Qed.

(** The registry unchanged, the index and metadata files of every other
    identifier unchanged, and no metadata record under the identifier [u]:
    the alignment is kept. *)
Lemma alignment_frame (u : string) (st st' : state) :
  alignment st ->
  documents_store st' = documents_store st ->
  (forall id, id <> u ->
     disk st' !! path_join INDEX_DIR (id +:+ ".index")
     = disk st !! path_join INDEX_DIR (id +:+ ".index")
     /\ disk st' !! path_join INDEX_DIR (id +:+ "_meta.json")
        = disk st !! path_join INDEX_DIR (id +:+ "_meta.json")) ->
  (forall meta, disk st' !! path_join INDEX_DIR (u +:+ "_meta.json")
                <> Some (FileMeta meta)) ->
  alignment st'.
Proof.
  intros (Hreg & Hfiles & Hmatch) Hstore Hother Hnometa. split; [|split].
  - intros id doc Hdoc. rewrite Hstore in Hdoc. by eapply Hreg.
  - intros id blob meta index em Hfi Hfm.
    destruct (decide (id = u)) as [->|Hne]; [by apply Hnometa in Hfm|].
    destruct (Hother id Hne) as [Hi Hm]. rewrite Hi in Hfi. rewrite Hm in Hfm.
    by eapply Hfiles.
  - intros id doc meta Hdoc Hfm. rewrite Hstore in Hdoc.
    destruct (decide (id = u)) as [->|Hne]; [by apply Hnometa in Hfm|].
    destruct (Hother id Hne) as [_ Hm]. rewrite Hm in Hfm.
    by eapply Hmatch.
Qed.

(** The files of another identifier are not among the three files of [u]. *)
Lemma other_paths (u id : string) :
  id <> u ->
  let touched := [path_join UPLOAD_DIR (u +:+ ".pdf");
                  path_join INDEX_DIR (u +:+ ".index");
                  path_join INDEX_DIR (u +:+ "_meta.json")] in
  (path_join INDEX_DIR (id +:+ ".index") ∉ touched)
  /\ (path_join INDEX_DIR (id +:+ "_meta.json") ∉ touched).
Proof.
  intros Hne touched. unfold touched.
  rewrite !not_elem_of_cons. repeat split; try apply not_elem_of_nil.
  - apply index_path_not_pdf.
  - intros Heq. by apply index_path_inj in Heq.
  - apply index_path_not_meta.
  - apply meta_path_not_pdf.
  - intros Heq. symmetry in Heq. by apply index_path_not_meta in Heq.
  - intros Heq. by apply meta_path_inj in Heq.
Qed.

(** A failed upload under a fresh identifier: the registry is as before,
    only the three files of the identifier may differ, and there is no
    metadata record under it. *)
Lemma upload_failure_frame (env : upload_env)
    (filename content embedding_model : string) (st : state) (e : exn)
    (st' : state) :
  fresh_uuid st (new_uuid env) ->
  upload_pdf env filename content embedding_model st = Some (Raise e, st') ->
  documents_store st' = documents_store st
  /\ (forall p,
        p ∉ [path_join UPLOAD_DIR (new_uuid env +:+ ".pdf");
             path_join INDEX_DIR (new_uuid env +:+ ".index");
             path_join INDEX_DIR (new_uuid env +:+ "_meta.json")] ->
        disk st' !! p = disk st !! p)
  /\ (forall meta,
        disk st' !! path_join INDEX_DIR (new_uuid env +:+ "_meta.json")
        <> Some (FileMeta meta)).
Proof.
  intros (_ & _ & _ & Hnometa) Hrun.
  apply upload_pdf_cases in Hrun
    as [(msg & _ & ->) | [(e0 & _ & Hstore & Hdisk)
                         | (r0 & st0 & Hbody & Hend)]].
  - split; [done|]. split; [done|]. intros meta. by rewrite Hnometa.
  - split; [done|]. destruct Hdisk as [-> | [data ->]].
    + split; [done|]. intros meta. by rewrite Hnometa.
    + split.
      * intros p Hp. rewrite !not_elem_of_cons in Hp.
        by rewrite lookup_insert_ne by (intros <-; tauto).
      * intros meta. rewrite lookup_insert_ne, Hnometa; [done|].
        intros Heq. symmetry in Heq. by apply meta_path_not_pdf in Heq.
  - apply process_pdf_outcome in Hbody
      as [(m & chunks & -> & _) | (e1 & -> & Hstore & Hframe & Hmeta)].
    { destruct Hend as [(? & _ & [=] & _) | [(? & [=] & _) | (? & [=] & _)]]. }
    simpl in Hstore, Hframe, Hmeta.
    assert (Hmeta0 : forall meta,
              disk st0 !! path_join INDEX_DIR (new_uuid env +:+ "_meta.json")
              <> Some (FileMeta meta)).
    { intros meta. destruct Hmeta as [-> | [data ->]]; [|done].
      rewrite lookup_insert_ne, Hnometa; [done|].
      intros Heq. symmetry in Heq. by apply meta_path_not_pdf in Heq. }
    assert (Hframe0 : forall p,
              p ∉ [path_join UPLOAD_DIR (new_uuid env +:+ ".pdf");
                   path_join INDEX_DIR (new_uuid env +:+ ".index");
                   path_join INDEX_DIR (new_uuid env +:+ "_meta.json")] ->
              disk st0 !! p = disk st !! p).
    { intros p Hp. rewrite !not_elem_of_cons in Hp.
      rewrite Hframe by (intros ->; tauto).
      by rewrite lookup_insert_ne by (intros <-; tauto). }
    destruct Hend as [(? & [=] & _)
                     | [(e2 & _ & _ & _ & ->) | (e2 & _ & _ & _ & ->)]].
    + done.
    + simpl. split; [done|]. split.
      * intros p Hp. rewrite lookup_delete_ne; [by apply Hframe0|].
        rewrite !not_elem_of_cons in Hp. intros <-. tauto.
      * intros meta. rewrite lookup_delete_ne; [apply Hmeta0|].
        intros Heq. symmetry in Heq. by apply meta_path_not_pdf in Heq.
Qed.

(** A successful upload keeps the alignment: the new entry, the new index
    file and the new metadata record are built from one chunk list. *)
Lemma alignment_upload_success (u filename content embed_model : string)
    (m : model) (chunks : list string) (st : state) :
  alignment st ->
  get_embedding_model embed_model = Ok m ->
  alignment
    {| documents_store :=
         <[u := uploaded_document m filename u chunks embed_model]>
           (documents_store st);
       disk :=
         <[path_join INDEX_DIR (u +:+ "_meta.json") :=
             FileMeta {| meta_chunks := Some chunks;
                         meta_embedding_model := Some embed_model |}]>
           (<[path_join INDEX_DIR (u +:+ ".index") :=
                FileIndex (write_index_blob (built_index m chunks))]>
              (<[path_join UPLOAD_DIR (u +:+ ".pdf") :=
                   FileBytes content]> (disk st))) |}.
Proof.
  intros (Hreg & Hfiles & Hmatch) Hload.
  assert (Hother : forall id p,
            id <> u ->
            p = path_join INDEX_DIR (id +:+ ".index")
            \/ p = path_join INDEX_DIR (id +:+ "_meta.json") ->
            (<[path_join INDEX_DIR (u +:+ "_meta.json") :=
                 FileMeta {| meta_chunks := Some chunks;
                             meta_embedding_model := Some embed_model |}]>
               (<[path_join INDEX_DIR (u +:+ ".index") :=
                    FileIndex (write_index_blob (built_index m chunks))]>
                  (<[path_join UPLOAD_DIR (u +:+ ".pdf") :=
                       FileBytes content]> (disk st)))) !! p
            = disk st !! p).
  { intros id p Hne Hp.
    destruct (other_paths u id Hne) as [Hi Hm]. cbv zeta in Hi, Hm.
    rewrite !not_elem_of_cons in Hi, Hm.
    destruct Hp as [-> | ->];
      rewrite !lookup_insert_ne by (intros Heq; symmetry in Heq; tauto);
      done. }
  split; [|split];
    unfold registry_aligned, files_aligned, registry_matches_files; simpl.
  - intros id doc Hdoc.
    destruct (decide (id = u)) as [->|Hne].
    + rewrite lookup_insert_eq in Hdoc. injection Hdoc as <-.
      by apply built_index_aligned.
    + rewrite lookup_insert_ne in Hdoc by done. by eapply Hreg.
  - intros id blob meta index em Hfi Hfm Hread Hmodel Hempty.
    destruct (decide (id = u)) as [->|Hne].
    + rewrite lookup_insert_eq in Hfm. injection Hfm as <-.
      rewrite lookup_insert_ne in Hfi
        by (intros Heq; symmetry in Heq; by apply index_path_not_meta in Heq).
      rewrite lookup_insert_eq in Hfi. injection Hfi as <-.
      rewrite read_write_index in Hread by (by eapply built_index_shape).
      injection Hread as <-. simpl in Hmodel. injection Hmodel as <-.
      by apply built_index_aligned.
    + rewrite (Hother id) in Hfi by eauto.
      rewrite (Hother id) in Hfm by eauto.
      by eapply Hfiles.
  - intros id doc meta Hdoc Hfm.
    destruct (decide (id = u)) as [->|Hne].
    + rewrite lookup_insert_eq in Hdoc. injection Hdoc as <-.
      rewrite lookup_insert_eq in Hfm. by injection Hfm as <-.
    + rewrite lookup_insert_ne in Hdoc by done.
      rewrite (Hother id) in Hfm by eauto.
      by eapply Hmatch.
Qed.

(** Every step of the service keeps the alignment. *)
Lemma alignment_step (st st' : state) :
  alignment st -> step st st' -> alignment st'.
Proof.
  intros Hinv Hstep.
  destruct Hstep as [env filename content embedding_model st r st' Hfresh Hrun
                    | request st r st' Hrun
                    | st r st' Hrun
                    | document_id st r st' Hrun
                    | st].
  - destruct r as [resp|e].
    + apply upload_pdf_success in Hrun
        as (m & chunks & Hload & _ & _ & ->).
      by apply alignment_upload_success.
    + destruct (upload_failure_frame _ _ _ _ _ _ _ Hfresh Hrun)
        as (Hstore & Hframe & Hnometa).
      apply (alignment_frame (new_uuid env) st st'); try done.
      intros id Hne.
      destruct (other_paths (new_uuid env) id Hne) as [Hi Hm].
      split; by apply Hframe.
  - destruct (chat_cases request st) as (r0 & st0 & Hrun0 & Hdisk & Hstore).
    rewrite Hrun in Hrun0. injection Hrun0 as <- <-.
    destruct Hinv as (Hreg & Hfiles & Hmatch).
    destruct Hstore as [Hsame | (blob & meta & index & em & Hnew & Hfi & Hfm
                                 & Hread & Hmodel & Hempty & Hstore & _)].
    + split; [|split].
      * intros id doc Hdoc. rewrite Hsame in Hdoc. by eapply Hreg.
      * intros id b mt ix e Hi Hm. rewrite Hdisk in Hi, Hm. by eapply Hfiles.
      * intros id doc mt Hdoc Hm. rewrite Hsame in Hdoc. rewrite Hdisk in Hm.
        by eapply Hmatch.
    + split; [|split].
      * intros id doc Hdoc. rewrite Hstore in Hdoc.
        destruct (decide (id = chat_document_id request)) as [->|Hne].
        -- rewrite lookup_insert_eq in Hdoc. injection Hdoc as <-.
           simpl. by eapply Hfiles.
        -- rewrite lookup_insert_ne in Hdoc by done. by eapply Hreg.
      * intros id b mt ix e Hi Hm. rewrite Hdisk in Hi, Hm. by eapply Hfiles.
      * intros id doc mt Hdoc Hm. rewrite Hstore in Hdoc. rewrite Hdisk in Hm.
        destruct (decide (id = chat_document_id request)) as [->|Hne].
        -- rewrite lookup_insert_eq in Hdoc. injection Hdoc as <-.
           rewrite Hfm in Hm. injection Hm as <-. done.
        -- rewrite lookup_insert_ne in Hdoc by done. by eapply Hmatch.
  - by injection Hrun as _ <-.
  - destruct (documents_store st !! document_id) as [doc|] eqn:Hdoc.
    + rewrite (delete_document_known _ _ _ Hdoc) in Hrun.
      injection Hrun as _ <-.
      apply (alignment_shrink st); [done| |]; simpl.
      * intros id d Hd. by apply lookup_delete_Some in Hd as [_ Hd].
      * intros p f Hp. by do 3 apply remove_path_shrinks in Hp.
    + rewrite (delete_document_unknown _ _ Hdoc) in Hrun.
      by injection Hrun as _ <-.
  - apply (alignment_shrink st); [done| |]; simpl; [|done].
    intros id doc Hdoc. by rewrite lookup_empty in Hdoc.
Qed.

End Alignment.

Lemma alignment_initial `{SentenceTransformers} : alignment initial_state.
Proof.
  split; [|split].
  - intros id doc Hdoc. simpl in Hdoc. by rewrite lookup_empty in Hdoc.
  - intros id blob meta index em Hfi. simpl in Hfi.
    by rewrite lookup_empty in Hfi.
  - intros id doc meta Hdoc. simpl in Hdoc. by rewrite lookup_empty in Hdoc.
Qed.

(** C1: chunk [i] of a document is row [i] of its index, in the registry
    and in the files, and stays so.  The alignment (entries of the
    registry; index file against metadata file; entry against metadata
    file) holds in the initial state, is kept by every upload under a
    fresh identifier, every chat request (with or without reload), every
    listing, every delete and every restart, hence holds in every state
    the service reaches.  For an entry of an aligned state, row [i] of the
    index is the embedding of chunk [i], and [retrieve] returns for every
    label of the search other than [-1] the chunk at that position, whose
    embedding is the row with that label. *)
Theorem alignment_invariant `{Tokenizer} `{SentenceTransformers}
    `{PdfReaders} `{ChatServices} :
  alignment initial_state
  /\ (forall st st', alignment st -> step st st' -> alignment st')
  /\ (forall st, rtc step initial_state st -> alignment st)
  /\ (forall st id doc,
        alignment st ->
        documents_store st !! id = Some doc ->
        exists m,
          get_embedding_model (doc_embedding_model doc) = Ok m
          /\ (forall i : nat,
                index_xb (doc_index doc) !! i
                = model_encode m <$> doc_chunks doc !! i)
          /\ (forall meta,
                disk st !! path_join INDEX_DIR (id +:+ "_meta.json")
                = Some (FileMeta meta) ->
                default [] (meta_chunks meta) = doc_chunks doc)
          /\ (forall query top_k,
                0 < top_k ->
                exists found row results,
                  index_search (doc_index doc)
                    {| shape1 := model_dim m;
                       rows := [model_encode m query] |} top_k = Ok found
                  /\ snd found = [row]
                  /\ retrieve query (doc_index doc) (doc_chunks doc) top_k
                              (doc_embedding_model doc) = Ok results
                  /\ Forall2
                       (fun i c =>
                          0 <= i
                          /\ doc_chunks doc !! Z.to_nat i = Some c
                          /\ index_xb (doc_index doc) !! Z.to_nat i
                             = Some (model_encode m c))
                       (filter (fun i => i <> -1) row) results)).
Proof.
  split; [apply alignment_initial|].
  split; [apply alignment_step|].
  split.
  { apply (rtc_ind_r (fun st => alignment st) initial_state);
      [apply alignment_initial|].
    intros st1 st2 _ Hstep IH. by eapply alignment_step. }
  intros st id doc (Hreg & _ & Hmatch) Hdoc.
  destruct (Hreg id doc Hdoc) as (m & Hload & Hdim & Hrows).
  exists m. split; [done|]. split; [|split].
  - intros i. by rewrite Hrows, list_lookup_fmap.
  - intros meta Hmeta. by destruct (Hmatch id doc meta Hdoc Hmeta).
  - intros query top_k Hpos.
    set (row := map snd (search_row (index_xb (doc_index doc))
                           (Z.to_nat top_k) (model_encode m query))).
    exists ([map fst (search_row (index_xb (doc_index doc))
                        (Z.to_nat top_k) (model_encode m query))], [row]),
           row.
    eexists. split; [|split; [done|split]].
    + unfold index_search. simpl. rewrite Hdim, Nat.eqb_refl. simpl.
      by destruct (Z.ltb_spec 0 top_k); [|lia].
    + by apply (retrieve_closed query (doc_index doc) (doc_chunks doc)
                  top_k (doc_embedding_model doc) m).
    + unfold row. rewrite search_row_labels.
      apply Forall2_fmap_r, Forall_Forall2_diag.
      rewrite Forall_forall. intros i Hi.
      apply list_elem_of_fmap in Hi as (h & -> & Hh).
      destruct (hit_chunk query (doc_index doc) (doc_chunks doc) top_k m
                  Hdim Hrows h Hh) as (c & Hrange & Hc & Hget & _).
      simpl. rewrite Hget. split; [lia|]. split; [done|].
      by rewrite Hrows, list_lookup_fmap, Hc.
Qed.

Lemma alignment_invariant_witness :
  exists r st',
    upload_pdf (H := byte_tokenizer) (H0 := demo_transformers)
      (H1 := demo_reader) demo_env "paper.pdf" "%PDFhello world" "m1"
      initial_state = Some (r, st')
    /\ alignment (H := demo_transformers) st'
    /\ alignment (H := demo_transformers) (restart st').
Proof.
  destruct (alignment_invariant (H := byte_tokenizer)
              (H0 := demo_transformers) (H1 := demo_reader)
              (H2 := demo_services)) as (Hinit & Hstep & _).
  destruct (upload_pdf (H := byte_tokenizer) (H0 := demo_transformers)
              (H1 := demo_reader) demo_env "paper.pdf" "%PDFhello world"
              "m1" initial_state) as [[r st']|] eqn:Hup.
  - exists r, st'. split; [reflexivity|].
    assert (Hst' : alignment (H := demo_transformers) st').
    { apply (Hstep initial_state st' Hinit).
      apply (step_upload demo_env "paper.pdf" "%PDFhello world" "m1"
               initial_state r st'); [|exact Hup].
      repeat split; reflexivity. }
    split; [exact Hst'|].
    apply (Hstep st' (restart st') Hst'). apply step_restart.
  - vm_compute in Hup. discriminate.
Defined.

(* ================================================================== *)
(** * Part III: further properties of the handlers *)
(* ================================================================== *)

(** ** Every handler returns *)

Lemma chunk_text_default_returns `{Tokenizer} (text : string) (st : state) :
  exists chunks, chunk_text_default text st = Some (Ok chunks, st).
Proof.
  unfold chunk_text_default.
  rewrite chunk_text_closed
    by (unfold default_overlap_size, default_max_chunk_size; lia).
  eauto.
Qed.




Lemma extract_text_returns `{PdfReaders} (path : string) (st : state) :
  exists r st', extract_text_from_pdf path st = Some (r, st').
Proof.
  unfold extract_text_from_pdf, read_file, mbind, io_bind, lift, raise,
    mret, io_ret.
  destruct (disk st !! path) as [[data|blob|meta]|]; eauto.
  destruct (PdfReader data); eauto.
Qed.




(** ** Blank strings and [strip] *)

Lemma is_empty_rev_app (s1 s2 : string) :
  is_empty (String.rev_app s1 s2) = is_empty s1 && is_empty s2.
Proof.
  revert s2. induction s1 as [|c s1 IH]; intros s2; simpl; [done|].
  rewrite IH. simpl. apply andb_false_r.
Qed.

Lemma blank_rev_app (s1 s2 : string) :
  blank (String.rev_app s1 s2) = blank s1 && blank s2.
Proof.
  revert s2. induction s1 as [|c s1 IH]; intros s2; simpl; [done|].
  rewrite IH. simpl. by destruct (is_space c), (blank s1), (blank s2).
Qed.

Lemma is_empty_rev (s : string) : is_empty (String.rev s) = is_empty s.
Proof. unfold String.rev. rewrite is_empty_rev_app. apply andb_true_r. Qed.

Lemma blank_rev (s : string) : blank (String.rev s) = blank s.
Proof. unfold String.rev. rewrite blank_rev_app. apply andb_true_r. Qed.

Lemma is_empty_lstrip (s : string) : is_empty (py_lstrip s) = blank s.
Proof.
  induction s as [|c s IH]; simpl; [done|].
  by destruct (is_space c).
Qed.

Lemma blank_lstrip (s : string) : blank (py_lstrip s) = blank s.
Proof.
  induction s as [|c s IH]; simpl; [done|].
  destruct (is_space c) eqn:Hc; [done|]. simpl. by rewrite Hc.
Qed.

(** [not s.strip()] holds exactly for the strings of blanks. *)
Lemma strip_blank (s : string) : is_empty (py_strip s) = blank s.
Proof.
  unfold py_strip.
  by rewrite is_empty_rev, is_empty_lstrip, blank_rev, blank_lstrip.
Qed.

Lemma empty_is_blank (s : string) : is_empty s = true -> blank s = true.
Proof. by destruct s. Qed.

Lemma empty_or_blank (s : string) :
  is_empty s || is_empty (py_strip s) = blank s.
Proof.
  rewrite strip_blank. destruct (is_empty s) eqn:He; [|done].
  simpl. symmetry. by apply empty_is_blank.
Qed.

(** ** Validation *)





(** ** Upload: success and partial failure *)

Lemma path_join_not_empty (a id suffix : string) :
  is_empty suffix = false -> is_empty (path_join a (id +:+ suffix)) = false.
Proof.
  intros Hs. destruct (path_join_suffix a (id +:+ suffix)) as [front ->].
  destruct suffix as [|c suffix]; [done|].
  destruct front as [|d front]; [|done].
  destruct id as [|d id]; done.
Qed.

(** X4: after a successful upload the document can be queried at once: the
    entry is registered with at least one chunk, the model name without
    the blanks around it and the paths of its three files, all three files
    exist, the response reports the number of chunks of the entry, and an
    accepted [chat] request for the new identifier is answered from the
    entry without any reload and without changing the state. *)
Theorem upload_then_chat `{Tokenizer} `{SentenceTransformers} `{PdfReaders}
    `{ChatServices} (env : upload_env)
    (filename content embedding_model : string) (st : state)
    (resp : UploadResponse) (st' : state) :
  upload_pdf env filename content embedding_model st = Some (Ok resp, st') ->
  exists doc,
    documents_store st' !! up_document_id resp = Some doc
    /\ up_document_id resp = new_uuid env
    /\ doc_chunks doc <> []
    /\ up_num_chunks resp = len (doc_chunks doc)
    /\ doc_embedding_model doc = py_strip embedding_model
    /\ up_embedding_model resp = py_strip embedding_model
    /\ doc_filename doc = Some filename
    /\ (exists p, doc_file_path doc = Some p
                  /\ disk st' !! p = Some (FileBytes content))
    /\ (exists p, doc_index_path doc = Some p
                  /\ disk st' !! p
                     = Some (FileIndex (write_index_blob (doc_index doc))))
    /\ (exists p, doc_meta_path doc = Some p
                  /\ disk st' !! p
                     = Some (FileMeta
                               {| meta_chunks := Some (doc_chunks doc);
                                  meta_embedding_model :=
                                    Some (doc_embedding_model doc) |}))
    /\ (forall request,
          request_refusal request = None ->
          chat_document_id request = up_document_id resp ->
          chat request st' = Some (answer_request request doc, st')).
Proof.
  intros Hrun.
  apply upload_pdf_success in Hrun as (m & chunks & Hload & Hne & -> & ->).
  eexists. split; [apply lookup_insert_eq|]. simpl.
  repeat split; try done.
  - eexists. split; [done|].
    rewrite lookup_insert_ne
      by (intros Heq; by apply meta_path_not_pdf in Heq).
    rewrite lookup_insert_ne
      by (intros Heq; by apply index_path_not_pdf in Heq).
    apply lookup_insert_eq.
  - eexists. split; [done|].
    rewrite lookup_insert_ne; [apply lookup_insert_eq|].
    intros Heq. symmetry in Heq. by apply index_path_not_meta in Heq.
  - eexists. split; [done|]. apply lookup_insert_eq.
  - intros request Hok Hid. apply chat_known; [done|].
    rewrite Hid. simpl. apply lookup_insert_eq.
Qed.

Lemma upload_then_chat_witness :
  exists resp st' doc,
    upload_pdf (H := byte_tokenizer) (H0 := demo_transformers)
      (H1 := demo_reader) demo_env "paper.pdf" "%PDFhello world" " m1 "
      initial_state = Some (Ok resp, st')
    /\ documents_store st' !! up_document_id resp = Some doc
    /\ doc_embedding_model doc = "m1"
    /\ doc_chunks doc <> [].
Proof.
  destruct (upload_pdf (H := byte_tokenizer) (H0 := demo_transformers)
              (H1 := demo_reader) demo_env "paper.pdf" "%PDFhello world"
              " m1 " initial_state) as [[[resp|e] st']|] eqn:Hup.
  - destruct (upload_then_chat (H := byte_tokenizer)
                (H0 := demo_transformers) (H1 := demo_reader)
                (H2 := demo_services) demo_env "paper.pdf"
                "%PDFhello world" " m1 " initial_state resp st' Hup)
      as (doc & Hdoc & _ & Hne & _ & Hmodel & _).
    exists resp, st', doc. by repeat split.
  - vm_compute in Hup. discriminate.
  - vm_compute in Hup. discriminate.
Defined.

Lemma bind_raise_step {A B} (m : io A) (k : A -> io B) (st : state)
    (e : exn) (st1 : state) :
  m st = Some (Raise e, st1) -> (m ≫= k) st = Some (Raise e, st1).
Proof. intros Hm. unfold mbind, io_bind. by rewrite Hm. Qed.

Section UploadRuns.
Context `{Tokenizer} `{SentenceTransformers} `{PdfReaders}.
Variables (filename content embedding_model : string).

(** Past the checks and with the file saved, [upload_pdf] is its second
    [try] block run on the state with the saved file. *)
Lemma upload_pdf_saved (env : upload_env) (st : state) :
  py_endswith (py_lower filename) ".pdf" = true ->
  blank embedding_model = false ->
  save_outcome env = Written ->
  upload_pdf env filename content embedding_model st
  = try_except
      (process_pdf env filename
         (path_join UPLOAD_DIR (new_uuid env +:+ ".pdf")) (new_uuid env)
         (py_strip embedding_model))
      (fun e =>
         if is_http e then raise e
         else
           (present ←
              path_exists (path_join UPLOAD_DIR (new_uuid env +:+ ".pdf"));
            if present : bool
            then os_remove (path_join UPLOAD_DIR (new_uuid env +:+ ".pdf"))
            else mret tt) ;;
           raise (HTTPException 500
                    ("Failed to process PDF: " +:+ str_exn e)))
      {| documents_store := documents_store st;
         disk := <[path_join UPLOAD_DIR (new_uuid env +:+ ".pdf")
                     := FileBytes content]> (disk st) |}.
Proof.
  intros Hpdf Hmodel Hsave. unfold upload_pdf.
  rewrite Hpdf, empty_or_blank, Hmodel. simpl.
  unfold mbind at 1, io_bind at 1, try_except at 1, write_file.
  by rewrite Hsave.
Qed.

(** A successful upload has passed the checks and saved the file. *)
Lemma upload_pdf_success_saved (env : upload_env) (st : state)
    (resp : UploadResponse) (st' : state) :
  upload_pdf env filename content embedding_model st = Some (Ok resp, st') ->
  py_endswith (py_lower filename) ".pdf" = true
  /\ blank embedding_model = false
  /\ save_outcome env = Written.
Proof.
  unfold upload_pdf.
  destruct (py_endswith (py_lower filename) ".pdf"); [|done]. simpl.
  rewrite empty_or_blank. destruct (blank embedding_model); [done|].
  cbv zeta. intros Hrun. split; [done|]. split; [done|].
  destruct (save_outcome env) as [|e leftover] eqn:Hsave; [done|].
  exfalso. revert Hrun.
  unfold mbind at 1, io_bind at 1, try_except at 1, write_file.
  by destruct leftover.
Qed.

(** The steps of [process_pdf] before the first write do not depend on
    what happens to the writes. *)
Lemma process_pdf_until_write (env : upload_env)
    (file_path document_id embed_model : string) (st : state) :
  (exists e, forall env',
     process_pdf env' filename file_path document_id embed_model st
     = Some (Raise e, st))
  \/ (exists m chunks,
        get_embedding_model embed_model = Ok m
        /\ chunks <> []
        /\ forall env',
             process_pdf env' filename file_path document_id embed_model st
             = (write_file (path_join INDEX_DIR (document_id +:+ ".index"))
                  (FileIndex (write_index_blob (built_index m chunks)))
                  (index_write_outcome env') ;;
                write_file (path_join INDEX_DIR (document_id +:+ "_meta.json"))
                  (FileMeta {| meta_chunks := Some chunks;
                               meta_embedding_model := Some embed_model |})
                  (meta_write_outcome env') ;;
                store_set document_id
                  (uploaded_document_at m filename file_path document_id
                                        chunks embed_model) ;;
                mret (upload_response filename document_id chunks
                                      embed_model)) st).
Proof.
  destruct (extract_text_returns file_path st) as (rt & st1 & Hext).
  pose proof (extract_text_state _ _ _ _ Hext) as ->.
  destruct rt as [text|e].
  2: { left. exists e. intros env'. unfold process_pdf.
       by erewrite bind_raise_step by exact Hext. }
  destruct (is_empty (py_strip text)) eqn:Hblank.
  { left. eexists. intros env'. unfold process_pdf.
    erewrite bind_ok_step by exact Hext. by rewrite Hblank. }
  destruct (chunk_text_default_returns text st) as [chunks Hchunks].
  destruct (bool_decide (chunks = [])) eqn:Hnil.
  { left. eexists. intros env'. unfold process_pdf.
    erewrite bind_ok_step by exact Hext. rewrite Hblank.
    erewrite bind_ok_step by exact Hchunks. by rewrite Hnil. }
  destruct (embed_texts chunks embed_model) as [vectors|e] eqn:Hemb.
  2: { left. exists e. intros env'. unfold process_pdf.
       erewrite bind_ok_step by exact Hext. rewrite Hblank.
       erewrite bind_ok_step by exact Hchunks. rewrite Hnil. cbv zeta.
       erewrite bind_raise_step; [done|]. unfold lift. by rewrite Hemb. }
  apply embed_texts_inv in Hemb as Hshape.
  destruct Hshape as (m & Hload & ->).
  right. exists m, chunks. split; [done|].
  split; [by apply bool_decide_eq_false in Hnil|].
  intros env'. unfold process_pdf.
  erewrite bind_ok_step by exact Hext. rewrite Hblank.
  erewrite bind_ok_step by exact Hchunks. rewrite Hnil. cbv zeta.
  erewrite bind_ok_step; [|unfold lift; by rewrite Hemb].
  erewrite bind_ok_step;
    [|unfold lift, index_add, IndexFlatIP; simpl;
      by rewrite Nat.eqb_refl].
  reflexivity.
Qed.

End UploadRuns.

(** X5: a failed upload can leave a file behind.  Take an upload that
    succeeds when the metadata record is written, and let that one write
    fail instead, with an exception that is not an [HTTPException]: the
    request ends in the 500 error of the processing, nothing is registered
    and the saved file is removed, but the index file written just before
    stays on disk (with whatever part of the metadata file was written). *)
Theorem upload_metadata_failure `{Tokenizer} `{SentenceTransformers}
    `{PdfReaders} (env : upload_env)
    (filename content embedding_model : string) (st : state)
    (resp : UploadResponse) (st_ok : state) (e : exn)
    (leftover : option string) :
  upload_pdf (with_meta_outcome env Written) filename content
             embedding_model st = Some (Ok resp, st_ok) ->
  is_http e = false ->
  exists st',
    upload_pdf (with_meta_outcome env (WriteFails e leftover)) filename
               content embedding_model st
    = Some (Raise (HTTPException 500
                     ("Failed to process PDF: " +:+ str_exn e)), st')
    /\ documents_store st' = documents_store st
    /\ disk st' !! path_join UPLOAD_DIR (new_uuid env +:+ ".pdf") = None
    /\ disk st' !! path_join INDEX_DIR (new_uuid env +:+ ".index")
       = disk st_ok !! path_join INDEX_DIR (new_uuid env +:+ ".index")
    /\ (exists blob,
          disk st' !! path_join INDEX_DIR (new_uuid env +:+ ".index")
          = Some (FileIndex blob))
    /\ disk st' !! path_join INDEX_DIR (new_uuid env +:+ "_meta.json")
       = match leftover with
         | Some data => Some (FileBytes data)
         | None => disk st !! path_join INDEX_DIR
                                (new_uuid env +:+ "_meta.json")
         end.
Proof.
  intros Hok Hnohttp.
  destruct (upload_pdf_success_saved _ _ _ _ _ _ _ Hok)
    as (Hpdf & Hblank & Hsave).
  rewrite (upload_pdf_saved filename content embedding_model
             (with_meta_outcome env Written)) in Hok by done.
  rewrite (upload_pdf_saved filename content embedding_model
             (with_meta_outcome env (WriteFails e leftover))) by done.
  simpl in Hok |- *.
  set (file_path := path_join UPLOAD_DIR (new_uuid env +:+ ".pdf")) in *.
  set (index_path := path_join INDEX_DIR (new_uuid env +:+ ".index")) in *.
  set (meta_path := path_join INDEX_DIR (new_uuid env +:+ "_meta.json")) in *.
  assert (Hfi : file_path <> index_path).
  { intros Heq. symmetry in Heq. by apply index_path_not_pdf in Heq. }
  assert (Hfm : file_path <> meta_path).
  { intros Heq. symmetry in Heq. by apply meta_path_not_pdf in Heq. }
  assert (Him : index_path <> meta_path) by apply index_path_not_meta.
  destruct (process_pdf_until_write filename env file_path (new_uuid env)
              (py_strip embedding_model)
              {| documents_store := documents_store st;
                 disk := <[file_path := FileBytes content]> (disk st) |})
    as [(e0 & Hfail) | (m & chunks & Hload & Hne & Hrun)].
  { exfalso. revert Hok. unfold try_except. rewrite Hfail.
    destruct (is_http e0); [done|].
    unfold mbind, io_bind, path_exists, os_remove, raise, mret, io_ret.
    by destruct (bool_decide _). }
  unfold try_except in Hok |- *. rewrite Hrun in Hok. rewrite Hrun.
  unfold mbind, io_bind, write_file, store_set, mret, io_ret in Hok |- *.
  simpl in Hok |- *. fold index_path meta_path in Hok |- *.
  destruct (index_write_outcome env) as [|e1 leftover1].
  2: { exfalso. destruct leftover1; simpl in Hok;
         (destruct (is_http e1); [done|]);
         unfold mbind, io_bind, path_exists, os_remove, raise, mret, io_ret
           in Hok; by destruct (bool_decide _). }
  simpl in Hok. injection Hok as _ <-.
  destruct leftover as [data|]; simpl; rewrite Hnohttp;
    unfold mbind, io_bind, path_exists, os_remove, raise, mret, io_ret;
    simpl.
  - rewrite bool_decide_eq_true_2.
    2: { rewrite !lookup_insert_ne by done. rewrite lookup_insert_eq.
         by eexists. }
    eexists. split; [reflexivity|]. simpl.
    split; [done|]. split; [apply lookup_delete_eq|].
    rewrite !lookup_delete_ne by done.
    rewrite (lookup_insert_ne _ meta_path index_path) by done.
    rewrite (lookup_insert_ne _ meta_path index_path) by done.
    rewrite !lookup_insert_eq.
    split; [done|]. split; [by eexists|]. done.
  - rewrite bool_decide_eq_true_2.
    2: { rewrite !lookup_insert_ne by done. rewrite lookup_insert_eq.
         by eexists. }
    eexists. split; [reflexivity|]. simpl.
    split; [done|]. split; [apply lookup_delete_eq|].
    rewrite !lookup_delete_ne by done.
    rewrite (lookup_insert_ne _ meta_path index_path) by done.
    rewrite !lookup_insert_eq.
    split; [done|]. split; [by eexists|].
    by rewrite !lookup_insert_ne by done.
Qed.

Lemma upload_metadata_failure_witness :
  exists st',
    upload_pdf (H := byte_tokenizer) (H0 := demo_transformers)
      (H1 := demo_reader)
      (with_meta_outcome demo_env
         (WriteFails (Exception "No space left on device") None))
      "paper.pdf" "%PDFhello world" "m1" initial_state
    = Some (Raise (HTTPException 500
              "Failed to process PDF: No space left on device"), st')
    /\ documents_store st' = ∅
    /\ disk st' !! "uploads/0f8fad5b-d9cb-469f-a165-70867728950e.pdf" = None
    /\ exists blob,
         disk st' !! "indexes/0f8fad5b-d9cb-469f-a165-70867728950e.index"
         = Some (FileIndex blob).
Proof.
  destruct (upload_pdf (H := byte_tokenizer) (H0 := demo_transformers)
              (H1 := demo_reader) (with_meta_outcome demo_env Written)
              "paper.pdf" "%PDFhello world" "m1" initial_state)
    as [[[resp|e] st_ok]|] eqn:Hup.
  - destruct (upload_metadata_failure (H := byte_tokenizer)
                (H0 := demo_transformers) (H1 := demo_reader) demo_env
                "paper.pdf" "%PDFhello world" "m1" initial_state resp st_ok
                (Exception "No space left on device") None Hup eq_refl)
      as (st' & Hrun & Hstore & Hpdf & _ & Hindex & _).
    exists st'. repeat split; done.
  - vm_compute in Hup. discriminate.
  - vm_compute in Hup. discriminate.
Defined.

(** ** Life of a document *)

(** X6: upload, then delete.  Deleting a document right after its upload
    succeeds, removes the entry and the three files of the document and
    touches no other file; from then on an accepted [chat] request for the
    identifier and a second delete both end in the not-found error. *)
Theorem upload_then_delete `{Tokenizer} `{SentenceTransformers} `{PdfReaders}
    `{ChatServices} (env : upload_env)
    (filename content embedding_model : string) (st : state)
    (resp : UploadResponse) (st1 : state) :
  upload_pdf env filename content embedding_model st = Some (Ok resp, st1) ->
  exists st2,
    delete_document (up_document_id resp) st1
    = Some (Ok "Document deleted", st2)
    /\ documents_store st2 !! up_document_id resp = None
    /\ (forall id, id <> up_document_id resp ->
                   documents_store st2 !! id = documents_store st !! id)
    /\ disk st2 !! path_join UPLOAD_DIR (up_document_id resp +:+ ".pdf")
       = None
    /\ disk st2 !! path_join INDEX_DIR (up_document_id resp +:+ ".index")
       = None
    /\ disk st2 !! path_join INDEX_DIR (up_document_id resp +:+ "_meta.json")
       = None
    /\ (forall p,
          p <> path_join UPLOAD_DIR (up_document_id resp +:+ ".pdf") ->
          p <> path_join INDEX_DIR (up_document_id resp +:+ ".index") ->
          p <> path_join INDEX_DIR (up_document_id resp +:+ "_meta.json") ->
          disk st2 !! p = disk st !! p)
    /\ (forall request,
          request_refusal request = None ->
          chat_document_id request = up_document_id resp ->
          chat request st2 = Some (Raise document_not_found, st2))
    /\ delete_document (up_document_id resp) st2
       = Some (Raise document_not_found, st2).
Proof.
  intros Hrun.
  apply upload_pdf_success in Hrun as (m & chunks & Hload & Hne & -> & ->).
  simpl.
  erewrite delete_document_known by apply lookup_insert_eq.
  unfold remove_path. simpl.
  rewrite !path_join_not_empty by done.
  eexists. split; [reflexivity|].
  set (u := new_uuid env).
  set (file_path := path_join UPLOAD_DIR (u +:+ ".pdf")).
  set (index_path := path_join INDEX_DIR (u +:+ ".index")).
  set (meta_path := path_join INDEX_DIR (u +:+ "_meta.json")).
  assert (Hfi : file_path <> index_path).
  { intros Heq. symmetry in Heq. by apply index_path_not_pdf in Heq. }
  assert (Hfm : file_path <> meta_path).
  { intros Heq. symmetry in Heq. by apply meta_path_not_pdf in Heq. }
  assert (Him : index_path <> meta_path) by apply index_path_not_meta.
  simpl. fold file_path index_path meta_path.
  assert (Hif : index_path <> file_path) by done.
  assert (Hmf : meta_path <> file_path) by done.
  assert (Hmi : meta_path <> index_path) by done.
  split; [apply lookup_delete_eq|].
  split.
  { intros id Hid. rewrite lookup_delete_ne by done.
    by rewrite lookup_insert_ne by done. }
  split.
  { rewrite lookup_delete_ne by done. rewrite lookup_delete_ne by done.
    apply lookup_delete_eq. }
  split.
  { rewrite lookup_delete_ne by done. apply lookup_delete_eq. }
  split; [apply lookup_delete_eq|].
  split.
  { intros p Hp1 Hp2 Hp3.
    do 3 rewrite lookup_delete_ne by done.
    by do 3 rewrite lookup_insert_ne by done. }
  split.
  - intros request Hok Hid. simpl in Hid.
    rewrite chat_unknown;
      [|done|rewrite Hid; simpl; apply lookup_delete_eq].
    rewrite load_document_missing; [done|].
    right. rewrite Hid. simpl. apply lookup_delete_eq.
  - apply delete_document_unknown. simpl. apply lookup_delete_eq.
Qed.

Lemma upload_then_delete_witness :
  exists resp st1 st2,
    upload_pdf (H := byte_tokenizer) (H0 := demo_transformers)
      (H1 := demo_reader) demo_env "paper.pdf" "%PDFhello world" "m1"
      initial_state = Some (Ok resp, st1)
    /\ delete_document (up_document_id resp) st1
       = Some (Ok "Document deleted", st2)
    /\ documents_store st2 !! up_document_id resp = None
    /\ delete_document (up_document_id resp) st2
       = Some (Raise document_not_found, st2).
Proof.
  destruct (upload_pdf (H := byte_tokenizer) (H0 := demo_transformers)
              (H1 := demo_reader) demo_env "paper.pdf" "%PDFhello world"
              "m1" initial_state) as [[[resp|e] st1]|] eqn:Hup.
  - destruct (upload_then_delete (H := byte_tokenizer)
                (H0 := demo_transformers) (H1 := demo_reader)
                (H2 := demo_services) demo_env "paper.pdf"
                "%PDFhello world" "m1" initial_state resp st1 Hup)
      as (st2 & Hdel & Hgone & _ & _ & _ & _ & _ & _ & Hagain).
    exists resp, st1, st2. by repeat split.
  - vm_compute in Hup. discriminate.
  - vm_compute in Hup. discriminate.
Defined.

(** X7: [chat] leaves the files alone and reloads a document at most once:
    after a [chat] request, whatever its outcome, the files are as before
    and no entry of another identifier has changed; the same request on
    the resulting state leaves that state as it is and, the embedding
    model and the provider answering as before, has the same outcome. *)
Theorem chat_idempotent `{SentenceTransformers} `{ChatServices}
    (request : ChatRequest) (st : state) (r : result ChatResponse)
    (st1 : state) :
  chat request st = Some (r, st1) ->
  disk st1 = disk st
  /\ chat request st1 = Some (r, st1)
  /\ (forall id, id <> chat_document_id request ->
                 documents_store st1 !! id = documents_store st !! id).
Proof.
  intros Hrun.
  destruct (chat_cases request st) as (r0 & st0 & Hrun0 & Hdisk & Hstore).
  rewrite Hrun in Hrun0. injection Hrun0 as <- <-.
  split; [done|].
  destruct (request_refusal request) as [e|] eqn:Hok.
  { unfold chat in Hrun |- *. rewrite Hok in Hrun |- *.
    injection Hrun as <- <-. done. }
  destruct (documents_store st !! chat_document_id request) as [doc|]
    eqn:Hdoc.
  { rewrite (chat_known request st doc) in Hrun by done.
    injection Hrun as <- <-. split; [by apply chat_known|done]. }
  destruct Hstore as [Hsame | (blob & meta & index & em & _ & _ & _ & _ & _
                               & _ & Hstore & ->)].
  - assert (st1 = st) as ->.
    { destruct st, st1. simpl in *. by subst. }
    done.
  - split.
    + apply chat_known; [done|]. rewrite Hstore. apply lookup_insert_eq.
    + intros id Hid. rewrite Hstore. by apply lookup_insert_ne.
Qed.

Lemma chat_idempotent_witness :
  exists r st1,
    chat (H := demo_transformers) (H0 := demo_services) demo_request
         demo_persisted = Some (r, st1)
    /\ disk st1 = disk demo_persisted
    /\ chat (H := demo_transformers) (H0 := demo_services) demo_request st1
       = Some (r, st1).
Proof.
  destruct (chat (H := demo_transformers) (H0 := demo_services) demo_request
              demo_persisted) as [[r st1]|] eqn:Hrun.
  - destruct (chat_idempotent (H := demo_transformers)
                (H0 := demo_services) demo_request demo_persisted r st1 Hrun)
      as (Hdisk & Hagain & _).
    exists r, st1. by repeat split.
  - vm_compute in Hrun. discriminate.
Defined.

(** X8: deleting a document that [chat] has reloaded undoes the reload and
    nothing more.  When a request for an identifier outside the registry
    has registered an entry, deleting the identifier succeeds and gives
    back the state before the request: the entry is gone, and the index
    file and the metadata file stay on disk, since a reloaded entry
    records no paths.  The document can so be reloaded again. *)
Theorem delete_undoes_reload `{SentenceTransformers} `{ChatServices}
    (request : ChatRequest) (st : state) (r : result ChatResponse)
    (st1 : state) :
  documents_store st !! chat_document_id request = None ->
  chat request st = Some (r, st1) ->
  is_Some (documents_store st1 !! chat_document_id request) ->
  delete_document (chat_document_id request) st1
  = Some (Ok "Document deleted", st).
Proof.
  intros Hnew Hrun [doc Hdoc].
  destruct (chat_cases request st) as (r0 & st0 & Hrun0 & Hdisk & Hstore).
  rewrite Hrun in Hrun0. injection Hrun0 as <- <-.
  destruct Hstore as [Hsame | (blob & meta & index & em & _ & _ & _ & _ & _
                               & _ & Hstore & _)].
  { rewrite Hsame, Hnew in Hdoc. discriminate. }
  rewrite (delete_document_known _ doc _ Hdoc).
  rewrite Hstore, lookup_insert_eq in Hdoc. injection Hdoc as <-.
  simpl. rewrite Hstore, Hdisk.
  rewrite delete_insert_eq, delete_id by done.
  by destruct st.
Qed.

Lemma delete_undoes_reload_witness :
  exists r st1,
    chat (H := demo_transformers) (H0 := demo_services) demo_request
         demo_persisted = Some (r, st1)
    /\ delete_document "doc-1" st1
       = Some (Ok "Document deleted", demo_persisted).
Proof.
  destruct (chat (H := demo_transformers) (H0 := demo_services) demo_request
              demo_persisted) as [[r st1]|] eqn:Hrun.
  - exists r, st1. split; [reflexivity|].
    refine (delete_undoes_reload (H := demo_transformers)
              (H0 := demo_services) demo_request demo_persisted r st1
              eq_refl Hrun _).
    revert Hrun. vm_compute. intros [= _ <-]. by eexists.
  - vm_compute in Hrun. discriminate.
Defined.

(** ** Listing *)

(** X9: [list_documents] changes nothing and returns one line for every
    entry of the registry and no other line, each identifier once; a line
    gives the number of chunks and the model name of its entry, and the
    file name of the upload or, for an entry that [chat] has reloaded,
    "Unknown".  Right after a restart the listing is empty, whatever files
    exist. *)
Theorem list_documents_lines (st : state) :
  exists infos,
    list_documents st = Some (Ok infos, st)
    /\ length infos = size (documents_store st)
    /\ NoDup (map info_document_id infos)
    /\ (forall info,
          info ∈ infos
          <-> exists id doc, documents_store st !! id = Some doc
                             /\ info = document_info id doc)
    /\ (forall id index meta embed_model,
          documents_store st !! id
          = Some (reloaded_document index meta embed_model) ->
          exists info, info ∈ infos /\ info_document_id info = id
                       /\ info_filename info = "Unknown")
    /\ list_documents (restart st) = Some (Ok [], restart st).
Proof.
  eexists. split; [reflexivity|].
  split; [by rewrite length_map, length_map_to_list|].
  split.
  { rewrite map_map. simpl. apply NoDup_fst_map_to_list. }
  split.
  { intros info. change (map ?f ?l) with (f <$> l).
    rewrite list_elem_of_fmap. split.
    - intros ([id doc] & -> & Hin).
      apply elem_of_map_to_list in Hin. by exists id, doc.
    - intros (id & doc & Hdoc & ->). exists (id, doc). split; [done|].
      by apply elem_of_map_to_list. }
  split.
  { intros id index meta em Hdoc.
    exists (document_info id (reloaded_document index meta em)).
    split; [|done]. change (map ?f ?l) with (f <$> l).
    rewrite list_elem_of_fmap.
    exists (id, reloaded_document index meta em). split; [done|].
    by apply elem_of_map_to_list. }
  unfold list_documents, restart. simpl. by rewrite map_to_list_empty.
Qed.

(** ** Paths of different documents *)

Lemma upload_dir_path_inj (id1 id2 : string) :
  path_join UPLOAD_DIR (id1 +:+ ".pdf") = path_join UPLOAD_DIR (id2 +:+ ".pdf")
  -> id1 = id2.
Proof.
  unfold path_join, py_startswith.
  rewrite !prefix_slash_app by done.
  change (is_empty UPLOAD_DIR || py_endswith UPLOAD_DIR "/") with false.
  cbv iota.
  destruct (String.prefix "/" id1) eqn:H1, (String.prefix "/" id2) eqn:H2;
    intros Heq.
  - by apply app_inv_suffix in Heq.
  - destruct id1 as [|c id1]; [done|]. rewrite prefix_slash_cons in H1.
    apply bool_decide_eq_true in H1 as ->. discriminate Heq.
  - destruct id2 as [|c id2]; [done|]. rewrite prefix_slash_cons in H2.
    apply bool_decide_eq_true in H2 as ->. discriminate Heq.
  - apply (inj (String.app UPLOAD_DIR)) in Heq.
    apply (inj (String.app "/")) in Heq.
    by apply app_inv_suffix in Heq.
Qed.

(** X10: the files of different documents never coincide.  The path of the
    saved file, of the index file and of the metadata file each determine
    the identifier they are built from, for every identifier (one that
    starts with a slash or contains one included), and no path of one of
    the three kinds is a path of another kind. *)
Theorem document_paths_disjoint (id1 id2 : string) :
  (path_join UPLOAD_DIR (id1 +:+ ".pdf") = path_join UPLOAD_DIR (id2 +:+ ".pdf")
   -> id1 = id2)
  /\ (path_join INDEX_DIR (id1 +:+ ".index")
      = path_join INDEX_DIR (id2 +:+ ".index") -> id1 = id2)
  /\ (path_join INDEX_DIR (id1 +:+ "_meta.json")
      = path_join INDEX_DIR (id2 +:+ "_meta.json") -> id1 = id2)
  /\ path_join UPLOAD_DIR (id1 +:+ ".pdf")
     <> path_join INDEX_DIR (id2 +:+ ".index")
  /\ path_join UPLOAD_DIR (id1 +:+ ".pdf")
     <> path_join INDEX_DIR (id2 +:+ "_meta.json")
  /\ path_join INDEX_DIR (id1 +:+ ".index")
     <> path_join INDEX_DIR (id2 +:+ "_meta.json").
Proof.
  split; [apply upload_dir_path_inj|].
  split; [apply index_path_inj|].
  split; [apply meta_path_inj|].
  split.
  { intros Heq. symmetry in Heq. by apply index_path_not_pdf in Heq. }
  split.
  { intros Heq. symmetry in Heq. by apply meta_path_not_pdf in Heq. }
  apply index_path_not_meta.
Qed.

Lemma document_paths_disjoint_witness :
  "a/b" = "a/b"
  /\ path_join UPLOAD_DIR ("/x" +:+ ".pdf")
     <> path_join INDEX_DIR ("/x" +:+ ".index").
Proof.
  split.
  - exact (proj1 (proj2 (document_paths_disjoint "a/b" "a/b")) eq_refl).
  - exact (proj1 (proj2 (proj2 (proj2
             (document_paths_disjoint "/x" "/x"))))).
Defined.


(** ** Entries store their own paths *)

Section OwnPaths.
Context `{Tokenizer} `{SentenceTransformers} `{PdfReaders} `{ChatServices}.




End OwnPaths.


(** ** The chunker: what the windows cover *)

Lemma blocks_concat {A} (s : nat) (n : nat) : forall l : list A,
  (length l <= n * s)%nat ->
  concat (map (fun k => take s (drop (k * s) l)) (seq 0 n)) = l.
Proof.
  induction n as [|n IH]; intros l Hlen.
  - destruct l; [done|]. simpl in Hlen. lia.
  - simpl. rewrite <- seq_shift, map_map.
    rewrite (map_ext _ (fun k => take s (drop (k * s) (drop s l)))).
    + rewrite IH by (rewrite length_drop; lia). apply take_drop.
    + intros k. rewrite drop_drop. do 2 f_equal; lia.
Qed.

Section Coverage.
Context `{Tokenizer}.
Variables (text : string) (max_chunk_size overlap_size : Z).
Hypothesis sizes : 0 <= overlap_size < max_chunk_size.

Local Abbreviation tokens := (encode text).
Local Abbreviation n := (len (encode text)).
Local Abbreviation stride := (max_chunk_size - overlap_size).
Local Abbreviation count := (iterations n max_chunk_size overlap_size 0).
Local Abbreviation span_of :=
  (window (fun s e : Z => (s, e)) n max_chunk_size overlap_size 0).

Lemma seq_member_window (k : nat) :
  k ∈ seq 0 count -> Z.of_nat k * stride < n.
Proof.
  intros Hk. apply elem_of_seq in Hk as [_ Hk].
  apply iterations_spec; [lia|done].
Qed.

(** The first [stride] tokens of window [k] are the tokens from
    [k * stride] on, [stride] of them at most. *)
Lemma window_head (k : nat) :
  Z.of_nat k * stride < n ->
  take (Z.to_nat stride)
       (py_slice tokens (fst (span_of k)) (snd (span_of k)))
  = take (Z.to_nat stride) (drop (k * Z.to_nat stride) tokens).
Proof.
  intros Hk. unfold window. cbv zeta. simpl.
  assert (0 <= Z.of_nat k * stride) by nia.
  rewrite py_slice_inside by (unfold len in *; lia).
  replace (Z.to_nat (0 + Z.of_nat k * stride)) with (k * Z.to_nat stride)%nat
    by nia.
  rewrite take_take.
  destruct (Z.le_ge_cases (0 + Z.of_nat k * stride + max_chunk_size) n).
  - rewrite Z.min_l by done. f_equal. lia.
  - rewrite Z.min_r by lia.
    replace (Z.to_nat (n - (0 + Z.of_nat k * stride)))
      with (length (drop (k * Z.to_nat stride) tokens))
      by (rewrite length_drop; unfold len in *; nia).
    rewrite <- take_take. f_equal. by apply take_ge.
Qed.

Lemma windows_rebuild :
  concat (map (fun sp => take (Z.to_nat stride)
                              (py_slice tokens (fst sp) (snd sp)))
              (map span_of (seq 0 count)))
  = tokens.
Proof.
  rewrite map_map.
  rewrite (map_ext_in _ (fun k => take (Z.to_nat stride)
                                    (drop (k * Z.to_nat stride) tokens))).
  - apply blocks_concat.
    destruct (decide (length tokens <= count * Z.to_nat stride)%nat)
      as [|Hgt]; [done|].
    exfalso.
    assert (Hc : ~ (count < count)%nat) by lia. apply Hc.
    apply iterations_spec; [lia|]. unfold len.
    set (c := count) in *.
    assert (Hs : Z.of_nat (Z.to_nat stride) = stride) by lia.
    assert (Hlt : (c * Z.to_nat stride < length tokens)%nat) by lia.
    apply Nat2Z.inj_lt in Hlt. rewrite Nat2Z.inj_mul, Hs in Hlt. exact Hlt.
  - intros k Hk. apply window_head.
    apply seq_member_window. by apply list_elem_of_In.
Qed.

End Coverage.

(** X12: no token is lost.  For [0 <= overlap_size < max_chunk_size] the
    windows of [chunk_text] start at the first token, every token position
    lies in a window, and cutting every window down to its first
    [max_chunk_size - overlap_size] tokens and concatenating the pieces
    gives back the token sequence of the text. *)
Theorem chunk_text_covers `{Tokenizer} (text : string)
    (max_chunk_size overlap_size : Z) :
  0 <= overlap_size < max_chunk_size ->
  exists spans,
    (forall fuel, (length (encode text) < fuel)%nat ->
       chunk_spans fuel (len (encode text)) max_chunk_size overlap_size
       = Some spans
       /\ chunk_text fuel text max_chunk_size overlap_size
          = Some (map (fun sp => decode (py_slice (encode text)
                                           (fst sp) (snd sp))) spans))
    /\ concat (map (fun sp =>
                      take (Z.to_nat (max_chunk_size - overlap_size))
                           (py_slice (encode text) (fst sp) (snd sp)))
                   spans)
       = encode text
    /\ (forall p, 0 <= p < len (encode text) ->
          exists (i : nat) sp,
            spans !! i = Some sp /\ fst sp <= p < snd sp)
    /\ (encode text <> [] -> exists sp, spans !! 0%nat = Some sp
                                        /\ fst sp = 0).
Proof.
  intros Hsizes.
  exists (map (window (fun s e : Z => (s, e)) (len (encode text))
                 max_chunk_size overlap_size 0)
            (seq 0 (iterations (len (encode text)) max_chunk_size
                               overlap_size 0))).
  split; [|split; [|split]].
  - intros fuel Hfuel. split.
    + apply chunk_spans_closed; [lia|done].
    + apply chunk_text_closed; [lia|done].
  - by apply windows_rebuild.
  - intros p Hp.
    set (s := max_chunk_size - overlap_size).
    set (k := Z.to_nat (p / s)).
    assert (Hs : 0 < s) by (unfold s; lia).
    assert (Hk : Z.of_nat k = p / s).
    { unfold k. apply Z2Nat.id. apply Z.div_pos; lia. }
    pose proof (Z.mul_div_le p s Hs) as Hlo.
    pose proof (Z.mod_pos_bound p s Hs) as Hmod.
    pose proof (Z.div_mod p s ltac:(lia)) as Hdm.
    assert (Hin : (k < iterations (len (encode text)) max_chunk_size
                                  overlap_size 0)%nat).
    { apply iterations_spec; [lia|]. fold s. rewrite Hk. nia. }
    exists k. eexists. split.
    + rewrite list_lookup_fmap, lookup_seq_lt by done. reflexivity.
    + unfold window. cbv zeta. simpl. fold s. rewrite Hk.
      split; [nia|]. apply Z.min_glb_lt; [|lia]. unfold s in *. nia.
  - intros Hne.
    assert (Hin : (0 < iterations (len (encode text)) max_chunk_size
                                  overlap_size 0)%nat).
    { apply iterations_spec; [lia|]. unfold len.
      destruct (encode text); [done|]. simpl. lia. }
    eexists. split.
    + rewrite list_lookup_fmap, lookup_seq_lt by done. reflexivity.
    + unfold window. simpl. lia.
Qed.

Lemma chunk_text_covers_witness :
  exists spans,
    chunk_text (H := byte_tokenizer) 11 "0123456789" 5 2
    = Some (map (fun sp => byte_text (py_slice (byte_tokens "0123456789")
                                        (fst sp) (snd sp))) spans)
    /\ concat (map (fun sp => take 3 (py_slice (byte_tokens "0123456789")
                                        (fst sp) (snd sp))) spans)
       = byte_tokens "0123456789".
Proof.
  destruct (chunk_text_covers (H := byte_tokenizer) "0123456789" 5 2
              ltac:(lia)) as (spans & Hrun & Hall & _).
  exists spans. split; [|exact Hall].
  apply (Hrun 11%nat). simpl. lia.
Defined.

(** X13: a negative overlap leaves gaps.  For [overlap_size < 0] the
    windows are [max_chunk_size] wide but start every
    [max_chunk_size - overlap_size] tokens, and [chunk_text] raises no
    error for it: a token whose position [p] has
    [max_chunk_size <= p mod (max_chunk_size - overlap_size)] is in no
    chunk. *)
Theorem chunk_text_negative_overlap `{Tokenizer} (text : string)
    (max_chunk_size overlap_size : Z) :
  0 < max_chunk_size -> overlap_size < 0 ->
  exists spans,
    (forall fuel, (length (encode text) < fuel)%nat ->
       chunk_spans fuel (len (encode text)) max_chunk_size overlap_size
       = Some spans
       /\ chunk_text fuel text max_chunk_size overlap_size
          = Some (map (fun sp => decode (py_slice (encode text)
                                           (fst sp) (snd sp))) spans))
    /\ forall p sp,
         max_chunk_size <= p mod (max_chunk_size - overlap_size) ->
         sp ∈ spans -> ~ (fst sp <= p < snd sp).
Proof.
  intros Hmax Hneg.
  exists (map (window (fun s e : Z => (s, e)) (len (encode text))
                 max_chunk_size overlap_size 0)
            (seq 0 (iterations (len (encode text)) max_chunk_size
                               overlap_size 0))).
  split.
  - intros fuel Hfuel. split.
    + apply chunk_spans_closed; [lia|done].
    + apply chunk_text_closed; [lia|done].
  - intros p sp Hgap Hsp [Hlo Hhi].
    apply list_elem_of_fmap in Hsp as (k & -> & _).
    unfold window in Hlo, Hhi. cbv zeta in Hlo, Hhi. simpl in Hlo, Hhi.
    set (s := max_chunk_size - overlap_size) in *.
    assert (Hr : p - Z.of_nat k * s = p mod s).
    { apply (Z.mod_unique_pos p s (Z.of_nat k)); lia. }
    lia.
Qed.

Lemma chunk_text_negative_overlap_witness :
  exists spans,
    chunk_spans 11 (len (byte_tokens "0123456789")) 3 (-2) = Some spans
    /\ forall sp, sp ∈ spans -> ~ (fst sp <= 4 < snd sp).
Proof.
  destruct (chunk_text_negative_overlap (H := byte_tokenizer) "0123456789"
              3 (-2) ltac:(lia) ltac:(lia)) as (spans & Hrun & Hgap).
  exists spans. split.
  - apply (Hrun 11%nat). simpl. lia.
  - intros sp. apply Hgap. vm_compute. discriminate.
Defined.

(** X14: a text of at most [max_chunk_size] tokens.  Every window then
    runs to the end of the text, so chunk number [k] is the text of the
    tokens from position [k * (max_chunk_size - overlap_size)] on: the
    whole text first, then shorter and shorter endings of it. *)
Theorem chunk_text_short_text `{Tokenizer} (text : string)
    (max_chunk_size overlap_size : Z) (fuel : nat) :
  overlap_size < max_chunk_size ->
  len (encode text) <= max_chunk_size ->
  (length (encode text) < fuel)%nat ->
  chunk_text fuel text max_chunk_size overlap_size
  = Some (map (fun k : nat =>
                 decode (drop (k * Z.to_nat (max_chunk_size - overlap_size))
                              (encode text)))
              (seq 0 (iterations (len (encode text)) max_chunk_size
                                 overlap_size 0))).
Proof.
  intros Hpos Hshort Hfuel.
  rewrite chunk_text_closed by done. f_equal.
  rewrite map_map. apply map_ext_in. intros k Hk.
  apply list_elem_of_In, elem_of_seq in Hk as [_ Hk]. simpl in Hk.
  apply iterations_spec in Hk; [|done].
  unfold window. cbv zeta. simpl.
  set (s := max_chunk_size - overlap_size) in *.
  assert (0 <= Z.of_nat k * s) by nia.
  rewrite Z.min_r by lia.
  rewrite py_slice_inside by (unfold len in *; lia).
  replace (Z.to_nat (0 + Z.of_nat k * s)) with (k * Z.to_nat s)%nat by nia.
  f_equal. apply take_ge. rewrite length_drop. unfold len in *. nia.
Qed.

Lemma chunk_text_short_text_witness :
  chunk_text (H := byte_tokenizer) 6 "hello" 8 5
  = Some ["hello"; "lo"].
Proof.
  rewrite (chunk_text_short_text (H := byte_tokenizer) "hello" 8 5 6);
    [reflexivity | lia | by vm_compute | vm_compute; lia].
Defined.

(** ** Retrieval: the chunks that are left out *)

Lemma StronglySorted_take_drop {A} (R : A -> A -> Prop) (l : list A) :
  StronglySorted R l ->
  forall (k : nat) a b, a ∈ take k l -> b ∈ drop k l -> R a b.
Proof.
  induction 1 as [|x l Hl IH Hx]; intros k a b Ha Hb.
  - rewrite take_nil in Ha. by apply elem_of_nil in Ha.
  - destruct k as [|k]; simpl in Ha, Hb.
    + by apply elem_of_nil in Ha.
    + apply elem_of_cons in Ha as [-> | Ha].
      * rewrite Forall_forall in Hx. apply Hx.
        by apply (subseteq_drop k l).
      * by apply (IH k).
Qed.

(** X15: [retrieve] returns the best chunks.  For a chunk list aligned
    with the index and a positive [top_k], a chunk whose row is not among
    the rows [retrieve] selects is no more similar to the query than any
    chunk it returns. *)
Theorem retrieve_best_chunks `{SentenceTransformers} (query : string)
    (index : faiss_index) (chunks : list string) (top_k : Z)
    (embedding_model : string) (m : model) :
  get_embedding_model embedding_model = Ok m ->
  index_d index = model_dim m ->
  index_xb index = map (model_encode m) chunks ->
  0 < top_k ->
  exists labels : list Z,
    retrieve query index chunks top_k embedding_model
    = Ok (map (fun i => chunks !!! Z.to_nat i) labels)
    /\ forall (j : nat) (c : string),
         chunks !! j = Some c -> Z.of_nat j ∉ labels ->
         forall i, i ∈ labels ->
           (similarity m query c
            <= similarity m query (chunks !!! Z.to_nat i))%Q.
Proof.
  intros Hload Hdim Hrows Hpos.
  set (q := model_encode m query).
  set (hits := take (Z.to_nat top_k) (ranked (index_xb index) q)).
  exists (map snd hits). split.
  - by eapply retrieve_closed.
  - intros j c Hc Hout i Hi.
    apply list_elem_of_fmap in Hi as (h & -> & Hh).
    destruct (hit_chunk query index chunks top_k m Hdim Hrows h Hh)
      as (ch & _ & _ & -> & Hscore).
    rewrite <- Hscore.
    set (hj := (inner_product (model_encode m c) q, Z.of_nat j)).
    assert (Hranked : hj ∈ ranked (index_xb index) q).
    { rewrite ranked_perm. unfold scored.
      apply elem_of_lookup_imap. exists j, (model_encode m c).
      split; [done|].
      rewrite Hrows. change (map ?f ?l) with (f <$> l).
      by rewrite list_lookup_fmap, Hc. }
    rewrite <- (take_drop (Z.to_nat top_k) (ranked (index_xb index) q))
      in Hranked.
    apply elem_of_app in Hranked as [Hin | Hrest].
    + exfalso. apply Hout.
      apply list_elem_of_fmap. by exists hj.
    + change (similarity m query c) with (fst hj).
      apply (StronglySorted_take_drop by_score _
               (ranked_sorted (index_xb index) q) (Z.to_nat top_k));
        done.
Qed.

Lemma retrieve_best_chunks_witness :
  exists labels : list Z,
    retrieve (H := demo_transformers) "xyz"
      {| index_d := 2;
         index_xb := map (model_encode demo_model) ["aa"; "b"; "cccc"] |}
      ["aa"; "b"; "cccc"] 2 "m1"
    = Ok (map (fun i => ["aa"; "b"; "cccc"] !!! Z.to_nat i) labels)
    /\ forall (j : nat) (c : string),
         ["aa"; "b"; "cccc"] !! j = Some c -> Z.of_nat j ∉ labels ->
         forall i, i ∈ labels ->
           (similarity demo_model "xyz" c
            <= similarity demo_model "xyz"
                 (["aa"; "b"; "cccc"] !!! Z.to_nat i))%Q.
Proof.
  apply (retrieve_best_chunks (H := demo_transformers) "xyz"
           {| index_d := 2;
              index_xb := map (model_encode demo_model) ["aa"; "b"; "cccc"] |}
           ["aa"; "b"; "cccc"] 2 "m1" demo_model);
    [reflexivity | reflexivity | reflexivity | lia].
Defined.

(** ** The errors of the handlers *)







(** ** Chat: the answer for a registered document *)

Lemma request_accepted (request : ChatRequest) :
  request_refusal request = None ->
  chat_provider request ∈ supported_providers
  /\ chat_llm_model request <> "" /\ chat_api_key request <> "".
Proof.
  unfold request_refusal.
  destruct (is_empty (py_strip (chat_query request))); [done|].
  destruct (is_empty (chat_provider request)
            || negb (bool_decide
                       (chat_provider request ∈ supported_providers)))
    eqn:Hprov; [done|].
  destruct (is_empty (chat_llm_model request)
            || is_empty (py_strip (chat_llm_model request)))
    eqn:Hmodel; [done|].
  destruct (is_empty (chat_api_key request)
            || is_empty (py_strip (chat_api_key request)))
    eqn:Hkey; [done|].
  intros _.
  apply orb_false_iff in Hprov as [_ Hprov].
  apply negb_false_iff, bool_decide_eq_true in Hprov.
  apply orb_false_iff in Hmodel as [Hmodel _].
  apply orb_false_iff in Hkey as [Hkey _].
  by apply is_empty_false in Hmodel, Hkey.
Qed.

Lemma reclassify_not_http (e : exn) : is_http (reclassify e) = false.
Proof.
  unfold reclassify. cbv zeta.
  by repeat match goal with |- context [if ?b then _ else _] => destruct b end.
Qed.

(** X17: the answer for a registered document.  For an accepted request
    with a positive [top_k] and a document that has chunks, aligned with
    its index, [chat] never answers 404: it retrieves
    [min top_k (number of chunks)] sources and asks the selected provider
    once, with the prompt built from the query and these sources.  The
    content the provider returns comes back stripped, next to the sources,
    the model name and the provider of the request; a failure of the
    provider comes back as a 500 error that carries the reclassified
    text.  The state is left as it is. *)
Theorem chat_answer `{SentenceTransformers} `{ChatServices}
    (request : ChatRequest) (st : state) (doc : document) :
  request_refusal request = None ->
  documents_store st !! chat_document_id request = Some doc ->
  aligned (doc_embedding_model doc) (doc_chunks doc) (doc_index doc) ->
  doc_chunks doc <> [] ->
  0 < chat_top_k request ->
  exists sources,
    retrieve (chat_query request) (doc_index doc) (doc_chunks doc)
             (chat_top_k request) (doc_embedding_model doc) = Ok sources
    /\ len sources = Z.min (chat_top_k request) (len (doc_chunks doc))
    /\ chat request st
       = Some (match remote_reply (chat_provider request)
                       (request_for (chat_query request) sources
                          (chat_llm_model request) (chat_api_key request))
               with
               | Ok content =>
                   Ok {| resp_answer := py_strip content;
                         resp_sources := sources;
                         resp_model_used := chat_llm_model request;
                         resp_provider := chat_provider request |}
               | Raise e =>
                   Raise (HTTPException 500
                            ("Failed to generate response: "
                             +:+ str_exn (reclassify e)))
               end, st).
Proof.
  intros Hok Hdoc (m & Hload & Hdim & Hrows) Hchunks Hpos.
  destruct (request_accepted request Hok) as (Hprov & Hmodel & Hkey).
  set (hits := take (Z.to_nat (chat_top_k request))
                    (ranked (index_xb (doc_index doc))
                            (model_encode m (chat_query request)))).
  set (sources := map (fun i : Z => doc_chunks doc !!! Z.to_nat i)
                      (map snd hits)).
  assert (Hretrieve :
            retrieve (chat_query request) (doc_index doc) (doc_chunks doc)
                     (chat_top_k request) (doc_embedding_model doc)
            = Ok sources) by (by eapply retrieve_closed).
  assert (Hlen : len sources
                 = Z.min (chat_top_k request) (len (doc_chunks doc))).
  { unfold sources, len. rewrite !length_map. unfold hits.
    rewrite (hits_length (chat_query request) (doc_index doc)
               (doc_chunks doc) (chat_top_k request) m Hrows). lia. }
  assert (Hne : sources <> []).
  { intros Hnil. rewrite Hnil in Hlen. unfold len in Hlen. simpl in Hlen.
    destruct (doc_chunks doc); [done|]. simpl in Hlen. lia. }
  exists sources. split; [done|]. split; [done|].
  rewrite (chat_known request st doc) by done. f_equal. f_equal.
  unfold answer_request. rewrite Hretrieve. simpl.
  rewrite bool_decide_eq_false_2 by done.
  rewrite generate_answer_remote by done. simpl.
  destruct (remote_reply _ _) as [content|e]; simpl; [done|].
  by rewrite reclassify_not_http.
Qed.

Lemma chat_answer_witness :
  exists sources,
    retrieve (H := demo_transformers) (chat_query demo_request)
      demo_index ["alpha"; "be"] (chat_top_k demo_request) "m1"
    = Ok sources
    /\ len sources = Z.min (chat_top_k demo_request) 2
    /\ exists r,
         chat (H := demo_transformers) (H0 := demo_services) demo_request
              {| documents_store :=
                   {[ chat_document_id demo_request :=
                        reloaded_document demo_index
                          {| meta_chunks := Some ["alpha"; "be"];
                             meta_embedding_model := Some "m1" |} "m1" ]};
                 disk := ∅ |}
         = Some (r, {| documents_store :=
                         {[ chat_document_id demo_request :=
                              reloaded_document demo_index
                                {| meta_chunks := Some ["alpha"; "be"];
                                   meta_embedding_model := Some "m1" |}
                                "m1" ]};
                       disk := ∅ |}).
Proof.
  destruct (chat_answer (H := demo_transformers) (H0 := demo_services)
              demo_request
              {| documents_store :=
                   {[ chat_document_id demo_request :=
                        reloaded_document demo_index
                          {| meta_chunks := Some ["alpha"; "be"];
                             meta_embedding_model := Some "m1" |} "m1" ]};
                 disk := ∅ |}
              (reloaded_document demo_index
                 {| meta_chunks := Some ["alpha"; "be"];
                    meta_embedding_model := Some "m1" |} "m1"))
    as (sources & Hretrieve & Hlen & Hchat).
  - reflexivity.
  - apply lookup_singleton_eq.
  - exists demo_model. repeat split; reflexivity.
  - discriminate.
  - vm_compute. reflexivity.
  - exists sources. split; [exact Hretrieve|]. split; [exact Hlen|].
    eexists. exact Hchat.
Defined.

(** X18: a [top_k] that is not positive.  [chat] does not check
    [request.top_k]; for an accepted request and a registered document
    aligned with its index, the search of the index fails on its
    assertion that [k] is positive, the assertion has no text, and the
    client gets the 500 error with nothing after the colon.  No provider
    is asked, the state is left as it is. *)
Theorem chat_top_k_not_positive `{SentenceTransformers} `{ChatServices}
    (request : ChatRequest) (st : state) (doc : document) :
  request_refusal request = None ->
  documents_store st !! chat_document_id request = Some doc ->
  aligned (doc_embedding_model doc) (doc_chunks doc) (doc_index doc) ->
  chat_top_k request <= 0 ->
  retrieve (chat_query request) (doc_index doc) (doc_chunks doc)
           (chat_top_k request) (doc_embedding_model doc)
  = Raise AssertionError
  /\ chat request st
     = Some (Raise (HTTPException 500 "Failed to generate response: "), st).
Proof.
  intros Hok Hdoc (m & Hload & Hdim & Hrows) Hk.
  assert (Hretrieve :
            retrieve (chat_query request) (doc_index doc) (doc_chunks doc)
                     (chat_top_k request) (doc_embedding_model doc)
            = Raise AssertionError).
  { unfold retrieve, embed_texts.
    rewrite (model_name_not_empty _ _ Hload), Hload. simpl.
    unfold index_search. simpl. rewrite Hdim, Nat.eqb_refl. simpl.
    by destruct (Z.ltb_spec 0 (chat_top_k request)); [lia|]. }
  split; [done|].
  rewrite (chat_known request st doc) by done.
  unfold answer_request. by rewrite Hretrieve.
Qed.

Lemma chat_top_k_not_positive_witness :
  chat (H := demo_transformers) (H0 := demo_services)
       {| chat_document_id := "doc-1"; chat_query := "which passage?";
          chat_top_k := 0; chat_provider := "openai";
          chat_llm_model := "gpt-4o-mini"; chat_api_key := "sk-1" |}
       {| documents_store :=
            {[ "doc-1" :=
                 reloaded_document demo_index
                   {| meta_chunks := Some ["alpha"; "be"];
                      meta_embedding_model := Some "m1" |} "m1" ]};
          disk := ∅ |}
  = Some (Raise (HTTPException 500 "Failed to generate response: "),
          {| documents_store :=
               {[ "doc-1" :=
                    reloaded_document demo_index
                      {| meta_chunks := Some ["alpha"; "be"];
                         meta_embedding_model := Some "m1" |} "m1" ]};
             disk := ∅ |}).
Proof.
  apply (chat_top_k_not_positive (H := demo_transformers)
           (H0 := demo_services)
           {| chat_document_id := "doc-1"; chat_query := "which passage?";
              chat_top_k := 0; chat_provider := "openai";
              chat_llm_model := "gpt-4o-mini"; chat_api_key := "sk-1" |}
           {| documents_store :=
                {[ "doc-1" :=
                     reloaded_document demo_index
                       {| meta_chunks := Some ["alpha"; "be"];
                          meta_embedding_model := Some "m1" |} "m1" ]};
              disk := ∅ |}
           (reloaded_document demo_index
              {| meta_chunks := Some ["alpha"; "be"];
                 meta_embedding_model := Some "m1" |} "m1")).
  - reflexivity.
  - apply lookup_singleton_eq.
  - exists demo_model. repeat split; reflexivity.
  - simpl. lia.
Defined.

(** ** Answer generation: the request that is sent *)

Lemma app_assoc_str (a b c : string) : (a +:+ b) +:+ c = a +:+ b +:+ c.
Proof. apply chars_inj. rewrite !chars_app. by rewrite app_assoc. Qed.

Lemma app_empty_r_str (a : string) : a +:+ "" = a.
Proof. apply chars_inj. rewrite chars_app. apply app_nil_r. Qed.

Lemma contains_refl (s : string) : py_contains s s = true.
Proof.
  apply py_contains_spec. exists "", "". by rewrite app_empty_r_str.
Qed.

Lemma contains_app_l (needle a b : string) :
  py_contains needle a = true -> py_contains needle (a +:+ b) = true.
Proof.
  rewrite !py_contains_spec. intros (before & after & ->).
  exists before, (after +:+ b). by rewrite !app_assoc_str.
Qed.

Lemma contains_app_r (needle a b : string) :
  py_contains needle b = true -> py_contains needle (a +:+ b) = true.
Proof.
  rewrite !py_contains_spec. intros (before & after & ->).
  exists (a +:+ before), after. by rewrite !app_assoc_str.
Qed.

Lemma join_contains (sep c : string) (l : list string) :
  c ∈ l -> py_contains c (py_join sep l) = true.
Proof.
  unfold py_join. induction l as [|x xs IH]; intros Hc.
  - by apply elem_of_nil in Hc.
  - destruct xs as [|y ys].
    + apply list_elem_of_singleton in Hc as ->. apply contains_refl.
    + change (String.concat sep (x :: y :: ys))
        with (x +:+ sep +:+ String.concat sep (y :: ys)).
      apply elem_of_cons in Hc as [-> | Hc].
      * apply contains_app_l, contains_refl.
      * by apply contains_app_r, contains_app_r, IH.
Qed.

(** X19: the request [generate_answer] sends.  Past its three checks it
    makes exactly one remote call: to the OpenAI service when the provider
    is "openai" and to the Hugging Face service otherwise, never to both,
    with the model name and the key it was given, the fixed system prompt,
    at most 500 tokens and temperature 0.2.  The user prompt contains the
    question and every context chunk.  The content of the reply is returned
    stripped. *)
Theorem generate_answer_request `{ChatServices} (query : string)
    (ctx : list string) (provider llm_model api_key : string) :
  provider ∈ supported_providers -> llm_model <> "" -> api_key <> "" ->
  exists request,
    fst (generate_answer query ctx provider llm_model api_key)
    = [if String.eqb provider "openai" then CallOpenAI request
       else CallHuggingFace request]
    /\ req_model request = llm_model
    /\ req_credential request = api_key
    /\ req_system request = the_system_prompt
    /\ req_max_tokens request = 500
    /\ req_temperature request = (2 # 10)%Q
    /\ py_contains query (req_user request) = true
    /\ (forall c, c ∈ ctx -> py_contains c (req_user request) = true)
    /\ forall content,
         (if String.eqb provider "openai"
          then openai_chat_completions_create request
          else huggingface_chat_completion request) = Ok content ->
         snd (generate_answer query ctx provider llm_model api_key)
         = Ok (py_strip content).
Proof.
  intros Hprov Hmodel Hkey.
  exists (request_for query ctx llm_model api_key).
  rewrite generate_answer_remote by done.
  unfold remote_call_for, remote_reply.
  change (fst (?a, ?b)) with a. change (snd (?a, ?b)) with b.
  split; [by destruct (String.eqb provider "openai")|].
  do 5 (split; [reflexivity|]).
  change (req_user (request_for query ctx llm_model api_key))
    with (user_prompt_for query ctx).
  unfold user_prompt_for.
  split; [|split].
  - do 5 apply contains_app_r. apply contains_app_l, contains_refl.
  - intros c Hc. apply contains_app_r, contains_app_l.
    by apply join_contains.
  - intros content Hreply. by rewrite Hreply.
Qed.

Lemma generate_answer_request_witness :
  exists request,
    fst (generate_answer (H := demo_services) "which passage?"
           ["alpha"; "be"] "openai" "gpt-4o-mini" "sk-1")
    = [CallOpenAI request]
    /\ py_contains "alpha" (req_user request) = true
    /\ snd (generate_answer (H := demo_services) "which passage?"
              ["alpha"; "be"] "openai" "gpt-4o-mini" "sk-1")
       = Ok "It is in the first passage.".
Proof.
  destruct (generate_answer_request (H := demo_services) "which passage?"
              ["alpha"; "be"] "openai" "gpt-4o-mini" "sk-1")
    as (request & Hcall & Hm & _ & _ & _ & _ & _ & Hctx & Hreply).
  - by apply (bool_decide_eq_true_1 _).
  - discriminate.
  - discriminate.
  - exists request. split; [exact Hcall|]. split.
    + apply Hctx. by apply (bool_decide_eq_true_1 _).
    + apply (Hreply " It is in the first passage.  ").
      simpl. simpl in Hm. rewrite Hm. reflexivity.
Defined.

(** ** The dictionary of loaded models *)

(** X20: the dictionary of [get_embedding_model] is a cache and nothing
    else.  Started from a dictionary that holds for a name only the model
    the name loads (the empty one does), a call returns or raises what a
    call without dictionary does and leaves such a dictionary; it loads
    the name itself and nothing else, and only if the name is not stored;
    a failed load stores nothing, so it is tried again by the next call;
    after a successful call the same call loads nothing. *)
Theorem model_cache_transparent `{SentenceTransformers} (model_name : string)
    (c : model_cache) :
  cache_sound c ->
  cache_sound ∅
  /\ exists loads r c',
       get_embedding_model_cached model_name c = (loads, r, c')
       /\ r = get_embedding_model model_name
       /\ cache_sound c'
       /\ c ⊆ c'
       /\ (loads = [] \/ (loads = [model_name] /\ c !! model_name = None))
       /\ (is_Some (c !! model_name) -> loads = [] /\ c' = c)
       /\ (forall e, r = Raise e -> c' = c)
       /\ (forall m, r = Ok m ->
             c' !! model_name = Some m
             /\ get_embedding_model_cached model_name c' = ([], Ok m, c')).
Proof.
  intros Hsound. split; [by intros name m Hm|].
  unfold get_embedding_model_cached, get_embedding_model.
  unfold cache_sound, model_cache in *.
  destruct (is_empty model_name) eqn:Hname.
  { do 3 eexists. split; [done|].
    repeat split; eauto; try done; by intros [? ?]. }
  destruct (c !! model_name) as [m|] eqn:Hc.
  { do 3 eexists. split; [done|].
    split; [symmetry; by apply Hsound|].
    repeat split; eauto; try done;
      match goal with Heq : Ok _ = Ok _ |- _ => injection Heq as <- end;
      by rewrite ?Hc. }
  destruct (SentenceTransformer model_name) as [m|e] eqn:Hload.
  - do 3 eexists. split; [done|]. split; [done|].
    split; [|split; [|split; [|split; [|split]]]].
    + intros name m' Hm'.
      destruct (decide (name = model_name)) as [->|Hne].
      * rewrite lookup_insert_eq in Hm'. by injection Hm' as <-.
      * rewrite lookup_insert_ne in Hm' by done. by apply Hsound.
    + by apply insert_subseteq.
    + by right.
    + by intros [? ?].
    + done.
    + intros ? [= <-]. rewrite lookup_insert_eq. done.
  - do 3 eexists. split; [done|]. split; [done|].
    repeat split; eauto; try done; by intros [? ?].
Qed.

Lemma model_cache_transparent_witness :
  exists loads r c',
    get_embedding_model_cached (H := demo_transformers) "m1" ∅
    = (loads, r, c')
    /\ r = get_embedding_model (H := demo_transformers) "m1"
    /\ cache_sound (H := demo_transformers) c'.
Proof.
  destruct (model_cache_transparent (H := demo_transformers) "m1" ∅)
    as (_ & loads & r & c' & Hrun & Hr & Hsound & _).
  - intros name m Hm. unfold model_cache in *.
    by rewrite lookup_empty in Hm.
  - exists loads, r, c'. by repeat split.
Defined.
